(** * ktwin-operator: the TwinInterface and TwinInstance reconcilers

    A shallow embedding of
    - [internal/controller/dtd/twininterface_controller.go] and
    - the TwinInstance controller of the same package,
    over an explicit model of the controller-runtime client the two
    reconcilers talk to.  The client is an interface in the Go code; here
    it is a type class over a world type, every call threads the world and
    appends to a trace of the calls made with what each one answered.

    Not modelled: the [context.Context], the logger (every [logger.Error]
    sits next to an append or a return that is modelled), and [ctrl.Result],
    which is the empty [ctrl.Result{}] on every path.  The fields a [Create]
    writes back into the object it is given are not modelled either: the
    objects here carry a name, a namespace, labels and an opaque rest. *)

From stdpp Require Import gmap strings list.

Local Open Scope string_scope.
Local Open Scope list_scope.

(** ** k8s.io/apimachinery/pkg/api/errors *)

Module errors.

(** A non-nil Go [error] as the two reconcilers can tell them apart: by
    [IsNotFound] and [IsAlreadyExists]; anything else is opaque. *)
Inductive error : Type :=
| NotFound
| AlreadyExists
| Other (msg : string).

#[global] Instance error_eq_dec : EqDecision error.
Proof. solve_decision. Defined.

(** Both predicates answer false on a nil error. *)
Definition IsNotFound (err : option error) : bool :=
  match err with Some NotFound => true | _ => false end.

Definition IsAlreadyExists (err : option error) : bool :=
  match err with Some AlreadyExists => true | _ => false end.

End errors.
Export errors.

(** [err != nil] *)
Definition notNil (err : option error) : bool :=
  match err with Some _ => true | None => false end.

(** ** ktwin/operator/api/dtd/v0 and the objects of other API groups *)

Record ObjectMeta : Type := mkMeta {
  Name : string;
  Namespace : string;
  Labels : gmap string string;
}.

(** Modelled from the spec: the phase constants of api/dtd/v0, which is not
    among the sources; [PhaseUnset] is the zero value of the Go string type. *)
Inductive Phase : Type :=
| PhaseUnset
| PhasePending
| PhaseRunning
| PhaseFailed.

Definition TwinInterfacePhaseRunning : Phase := PhaseRunning.
Definition TwinInterfacePhaseFailed : Phase := PhaseFailed.
Definition TwinInstancePhaseRunning : Phase := PhaseRunning.
Definition TwinInstancePhaseFailed : Phase := PhaseFailed.

#[global] Instance Phase_eq_dec : EqDecision Phase.
Proof. solve_decision. Defined.

(** [TwinInterface]: [ti_Service] is [Spec.Service] (a nilable pointer, its
    content is opaque here), [ti_Status] is [Status.Status]. *)
Record TwinInterface : Type := mkTwinInterface {
  ti_meta : ObjectMeta;
  ti_Service : option string;
  ti_Status : Phase;
}.

(** [TwinInstance]: [tn_Interface] is [Spec.Interface], the name of the
    parent, [tn_Status] is [Status.Status]. *)
Record TwinInstance : Type := mkTwinInstance {
  tn_meta : ObjectMeta;
  tn_Interface : string;
  tn_Status : Phase;
}.

(** The objects of the other API groups (Knative services and triggers,
    RabbitMQ bindings, queues and exchanges): metadata and an opaque rest. *)
Record Object : Type := mkObject {
  meta : ObjectMeta;
  content : string;
}.

Inductive Kind : Type :=
| KnativeService
| KnativeTrigger
| RabbitBinding
| RabbitQueue
| RabbitExchange.

#[global] Instance Kind_eq_dec : EqDecision Kind.
Proof. solve_decision. Defined.

(** [types.NamespacedName{Namespace: ns, Name: n}] *)
Definition NamespacedName : Type := string * string.

(** Field assignments on the in-memory object. *)
Definition ti_set_Status (i : TwinInterface) (p : Phase) : TwinInterface :=
  {| ti_meta := ti_meta i; ti_Service := ti_Service i; ti_Status := p |}.

Definition ti_set_Labels (i : TwinInterface) (l : gmap string string) : TwinInterface :=
  {| ti_meta := {| Name := Name (ti_meta i); Namespace := Namespace (ti_meta i); Labels := l |};
     ti_Service := ti_Service i; ti_Status := ti_Status i |}.

Definition tn_set_Status (i : TwinInstance) (p : Phase) : TwinInstance :=
  {| tn_meta := tn_meta i; tn_Interface := tn_Interface i; tn_Status := p |}.

Definition tn_set_Labels (i : TwinInstance) (l : gmap string string) : TwinInstance :=
  {| tn_meta := {| Name := Name (tn_meta i); Namespace := Namespace (tn_meta i); Labels := l |};
     tn_Interface := tn_Interface i; tn_Status := tn_Status i |}.

(** The zero values [&dtdv0.TwinInterface{}] and [&dtdv0.TwinInstance{}]. *)
Definition zeroMeta : ObjectMeta := {| Name := ""; Namespace := ""; Labels := ∅ |}.
Definition zeroTwinInterface : TwinInterface :=
  {| ti_meta := zeroMeta; ti_Service := None; ti_Status := PhaseUnset |}.
Definition zeroTwinInstance : TwinInstance :=
  {| tn_meta := zeroMeta; tn_Interface := ""; tn_Status := PhaseUnset |}.

(** ** sigs.k8s.io/controller-runtime/pkg/client *)

(** The calls the reconcilers make.  A [List] carries the namespace of
    [client.InNamespace] and the label map of [client.MatchingLabels]. *)
Inductive Call : Type :=
| CallGetTwinInterface (key : NamespacedName)
| CallGetTwinInstance (key : NamespacedName)
| CallGet (k : Kind) (key : NamespacedName)
| CallList (k : Kind) (ns : string) (sel : gmap string string)
| CallCreate (k : Kind) (o : Object)
| CallUpdateTwinInterface (i : TwinInterface)
| CallUpdateTwinInstance (i : TwinInstance).

(** What a call answered: the error value ([None] is nil), and for a [List]
    the items it filled in as well. *)
Inductive Reply : Type :=
| Replied (err : option error)
| Listed (items : list Object) (err : option error).

Definition Event : Type := Call * Reply.

(** [client.Client] over a world [W].  A [Get] fills the object or returns an
    error; a [List] fills the items and returns an error value of its own;
    [Create] and [Update] return an error value. *)
Class Client (W : Type) : Type := {
  clientGetTwinInterface : NamespacedName → W → (TwinInterface + error) * W;
  clientGetTwinInstance : NamespacedName → W → (TwinInstance + error) * W;
  clientGet : Kind → NamespacedName → W → (Object + error) * W;
  clientList : Kind → string → gmap string string → W → (list Object * option error) * W;
  clientCreate : Kind → Object → W → option error * W;
  clientUpdateTwinInterface : TwinInterface → W → option error * W;
  clientUpdateTwinInstance : TwinInstance → W → option error * W;
}.

(** ** The collaborators held by the reconciler structs *)

(** [twinservice.TwinService], [twinevent.TwinEvent] and
    [eventStore.EventStore] are interfaces whose implementations are not
    among the sources; the reconcilers use these methods of them. *)
Class TwinService : Type := {
  GetService : TwinInterface → Object;
}.

Class TwinEvent : Type := {
  GetTwinInterfaceTrigger : TwinInterface → Object;
  GetRelationshipBrokerBindings : TwinInterface → Object → Object → Object → list Object;
  GetMQQTDispatcherBindings : TwinInstance → list Object;
}.

Class EventStore : Type := {
  GetEventStoreBrokerBindings : TwinInterface → Object → Object → Object → list Object;
}.

(** ** A state monad for a reconcile pass *)

Definition errOf {A : Type} (r : A + error) : option error :=
  match r with inl _ => None | inr e => Some e end.

(** What a pass leaves behind: the error returned with [ctrl.Result{}], the
    in-memory object as the pass left it, and the final value of the local
    [resultErrors]. *)
Record Pass (T : Type) : Type := mkPass {
  returned : option error;
  object : T;
  accumulated : list (option error);
}.
Arguments mkPass {T} _ _ _.
Arguments returned {T} _.
Arguments object {T} _.
Arguments accumulated {T} _.

(** A [return] inside the block guarded by [Spec.Service != nil], or falling
    out of it. *)
Inductive Flow : Type :=
| Returns (err : option error)
| FallsThrough.

Section Reconcilers.

Context {W : Type} `{!Client W} `{!TwinService} `{!TwinEvent} `{!EventStore}.

Definition M (A : Type) : Type := W * list Event → A * (W * list Event).

Definition ret {A : Type} (a : A) : M A := fun s => (a, s).

Definition bind {A B : Type} (m : M A) (k : A → M B) : M B :=
  fun s => let '(a, s') := m s in k a s'.

Notation "'let!' x ':=' m 'in' k" := (bind m (fun x => k))
  (at level 10, x pattern, k at level 200).

(** The client calls, traced. *)
Definition Get_TwinInterface (key : NamespacedName) : M (TwinInterface + error) :=
  fun '(w, tr) =>
    let '(r, w') := clientGetTwinInterface key w in
    (r, (w', tr ++ [(CallGetTwinInterface key, Replied (errOf r))])).

Definition Get_TwinInstance (key : NamespacedName) : M (TwinInstance + error) :=
  fun '(w, tr) =>
    let '(r, w') := clientGetTwinInstance key w in
    (r, (w', tr ++ [(CallGetTwinInstance key, Replied (errOf r))])).

Definition Get (k : Kind) (key : NamespacedName) : M (Object + error) :=
  fun '(w, tr) =>
    let '(r, w') := clientGet k key w in
    (r, (w', tr ++ [(CallGet k key, Replied (errOf r))])).

Definition List_ (k : Kind) (ns : string) (sel : gmap string string)
  : M (list Object * option error) :=
  fun '(w, tr) =>
    let '(r, w') := clientList k ns sel w in
    (r, (w', tr ++ [(CallList k ns sel, Listed (fst r) (snd r))])).

Definition Create (k : Kind) (o : Object) : M (option error) :=
  fun '(w, tr) =>
    let '(err, w') := clientCreate k o w in
    (err, (w', tr ++ [(CallCreate k o, Replied err)])).

Definition Update_TwinInterface (i : TwinInterface) : M (option error) :=
  fun '(w, tr) =>
    let '(err, w') := clientUpdateTwinInterface i w in
    (err, (w', tr ++ [(CallUpdateTwinInterface i, Replied err)])).

Definition Update_TwinInstance (i : TwinInstance) : M (option error) :=
  fun '(w, tr) =>
    let '(err, w') := clientUpdateTwinInstance i w in
    (err, (w', tr ++ [(CallUpdateTwinInstance i, Replied err)])).

(** *** twininterface_controller.go *)

(** The three loops [for _, binding := range bindings] (lines 161-167 and
    172-178 of the TwinInterface controller, 86-92 of the TwinInstance
    controller) have the same body. *)
Fixpoint createBindings (bindings : list Object) (resultErrors : list (option error))
  : M (list (option error)) :=
  match bindings with
  | [] => ret resultErrors
  | binding :: rest =>
      let! err := Create RabbitBinding binding in
      let resultErrors :=
        if notNil err && negb (IsAlreadyExists err)
        then resultErrors ++ [err] else resultErrors in
      createBindings rest resultErrors
  end.

(** [updateTwinInterface], lines 205-215: the error of [Update] as it is. *)
Definition updateTwinInterface (twinInterface : TwinInterface) : M (option error) :=
  let! err := Update_TwinInterface twinInterface in
  if notNil err then ret err else ret None.

(** Lines 78-182, the body of [if twinInterface.Spec.Service != nil].
    [Items[0]] of a list is bound where its length is tested. *)
Definition createServiceTriggerBindings (twinInterface : TwinInterface)
    (resultErrors : list (option error)) : M (Flow * list (option error)) :=
  let kService := GetService twinInterface in
  let! err := Create KnativeService kService in
  let resultErrors :=
    if notNil err && negb (IsAlreadyExists err)
    then resultErrors ++ [err] else resultErrors in
  let trigger := GetTwinInterfaceTrigger twinInterface in
  let! err := Create KnativeTrigger trigger in
  let resultErrors :=
    if notNil err && negb (IsAlreadyExists err)
    then resultErrors ++ [err] else resultErrors in
  let! got := Get KnativeTrigger (Namespace (meta trigger), Name (meta trigger)) in
  let trigger := match got with inl t => t | inr _ => trigger end in
  let err := errOf got in
  let resultErrors :=
    if notNil err && negb (IsAlreadyExists err)
    then resultErrors ++ [err] else resultErrors in
  let! (eventStoreQueuesList, err) :=
    List_ RabbitQueue (Namespace (ti_meta twinInterface))
      {[ "eventing.knative.dev/trigger" := "event-store-trigger" ]} in
  match eventStoreQueuesList with
  | [] =>
      let resultErrors := resultErrors ++ [err] in
      ret (Returns err, resultErrors)
  | eventStoreQueue :: _ =>
      let! (exchangeList, err) :=
        List_ RabbitExchange (Namespace (ti_meta twinInterface))
          {[ "eventing.knative.dev/broker" := "ktwin" ]} in
      let resultErrors :=
        if notNil err then resultErrors ++ [err] else resultErrors in
      match exchangeList with
      | [] =>
          let resultErrors := resultErrors ++ [err] in
          ret (FallsThrough, resultErrors)
      | brokerExchange :: _ =>
          let! (queueList, err) :=
            List_ RabbitQueue (Namespace (ti_meta twinInterface))
              (<[ "eventing.knative.dev/trigger" := Name (ti_meta twinInterface) ]>
                 {[ "eventing.knative.dev/broker" := "ktwin" ]}) in
          match queueList with
          | [] =>
              let resultErrors := resultErrors ++ [err] in
              ret (FallsThrough, resultErrors)
          | twinInterfaceQueue :: _ =>
              let bindings :=
                GetRelationshipBrokerBindings twinInterface trigger
                  brokerExchange twinInterfaceQueue in
              let! resultErrors := createBindings bindings resultErrors in
              let bindings :=
                GetEventStoreBrokerBindings twinInterface trigger
                  brokerExchange eventStoreQueue in
              let! resultErrors := createBindings bindings resultErrors in
              ret (FallsThrough, resultErrors)
          end
      end
  end.

(** [createUpdateTwinInterface], lines 71-203. *)
Definition createUpdateTwinInterface (twinInterface : TwinInterface)
  : M (Pass TwinInterface) :=
  let twinInterfaceName := Name (ti_meta twinInterface) in
  let resultErrors : list (option error) := [] in
  let! (flow, resultErrors) :=
    match ti_Service twinInterface with
    | Some _ => createServiceTriggerBindings twinInterface resultErrors
    | None => ret (FallsThrough, resultErrors)
    end in
  match flow with
  | Returns err => ret (mkPass err twinInterface resultErrors)
  | FallsThrough =>
      match resultErrors with
      | first :: _ =>
          let twinInterface := ti_set_Status twinInterface TwinInterfacePhaseFailed in
          ret (mkPass first twinInterface resultErrors)
      | [] =>
          let twinInterface := ti_set_Status twinInterface TwinInterfacePhaseRunning in
          let twinInterface :=
            ti_set_Labels twinInterface {[ "ktwin/twin-interface" := twinInterfaceName ]} in
          let! err := updateTwinInterface twinInterface in
          if notNil err
          then ret (mkPass None twinInterface resultErrors)
          else ret (mkPass None twinInterface resultErrors)
      end
  end.

(** [TwinInterfaceReconciler.Reconcile], lines 51-69. *)
Definition TwinInterfaceReconciler_Reconcile (req : NamespacedName)
  : M (Pass TwinInterface) :=
  let! got := Get_TwinInterface (fst req, snd req) in
  match got with
  | inr err =>
      if IsNotFound (Some err)
      then ret (mkPass None zeroTwinInterface [])
      else ret (mkPass (Some err) zeroTwinInterface [])
  | inl twinInterface => createUpdateTwinInterface twinInterface
  end.

(** *** The TwinInstance controller *)

(** [updateTwinInstance], lines 115-125. *)
Definition updateTwinInstance (twinInstance : TwinInstance) : M (option error) :=
  let! err := Update_TwinInstance twinInstance in
  if notNil err then ret err else ret None.

(** [createUpdateTwinInstance], lines 78-113.  The local named
    [twinInterfaceName] holds the name of the instance. *)
Definition createUpdateTwinInstance (twinInstance : TwinInstance)
    (twinInterface : TwinInterface) : M (Pass TwinInstance) :=
  let twinInterfaceName := Name (tn_meta twinInstance) in
  let resultErrors : list (option error) := [] in
  let bindings := GetMQQTDispatcherBindings twinInstance in
  let! resultErrors := createBindings bindings resultErrors in
  match resultErrors with
  | first :: _ =>
      let twinInstance := tn_set_Status twinInstance TwinInstancePhaseFailed in
      ret (mkPass first twinInstance resultErrors)
  | [] =>
      let twinInstance := tn_set_Status twinInstance TwinInstancePhaseRunning in
      let twinInstance :=
        tn_set_Labels twinInstance {[ "ktwin/twin-interface" := twinInterfaceName ]} in
      let! err := updateTwinInstance twinInstance in
      if notNil err
      then ret (mkPass None twinInstance resultErrors)
      else ret (mkPass None twinInstance resultErrors)
  end.

(** [TwinInstanceReconciler.Reconcile], lines 50-76. *)
Definition TwinInstanceReconciler_Reconcile (req : NamespacedName)
  : M (Pass TwinInstance) :=
  let! got := Get_TwinInstance (fst req, snd req) in
  match got with
  | inr err =>
      if IsNotFound (Some err)
      then ret (mkPass None zeroTwinInstance [])
      else ret (mkPass (Some err) zeroTwinInstance [])
  | inl twinInstance =>
      let twinInterfaceName := tn_Interface twinInstance in
      let! got := Get_TwinInterface (Namespace (tn_meta twinInstance), twinInterfaceName) in
      match got with
      | inr err => ret (mkPass (Some err) twinInstance [])
      | inl twinInterface => createUpdateTwinInstance twinInstance twinInterface
      end
  end.

End Reconcilers.

(** ** An in-memory cluster *)

(** Modelled from the spec: the generic client of the external interfaces
    section, [get(namespacedName) -> record | NotFound],
    [list(namespace, labelSelector) -> [record]],
    [create(record) -> record | AlreadyExists | error] and
    [update(record) -> record | error], over a store of records.  A create or
    an update can be refused by the cluster ([createDenied], [updateDenied]),
    which stands for the transport and admission errors of the taxonomy. *)
Record Cluster : Type := mkCluster {
  twinInterfaces : list TwinInterface;
  twinInstances : list TwinInstance;
  objects : list (Kind * Object);
  createDenied : Kind → Object → option error;
  updateDenied : NamespacedName → option error;
}.

Definition keyOf (m : ObjectMeta) : NamespacedName := (Namespace m, Name m).

Definition isObject (k : Kind) (key : NamespacedName) (e : Kind * Object) : bool :=
  bool_decide (fst e = k) && bool_decide (keyOf (meta (snd e)) = key).

(** [client.MatchingLabels]: every selected label is on the object. *)
Definition matchingLabels (sel labels : gmap string string) : bool :=
  bool_decide (map_Forall (fun key v => labels !! key = Some v) sel).

Definition isListed (k : Kind) (ns : string) (sel : gmap string string)
    (e : Kind * Object) : bool :=
  bool_decide (fst e = k) && bool_decide (Namespace (meta (snd e)) = ns)
  && matchingLabels sel (Labels (meta (snd e))).

Definition isTwinInterface (key : NamespacedName) (i : TwinInterface) : bool :=
  bool_decide (keyOf (ti_meta i) = key).

Definition isTwinInstance (key : NamespacedName) (i : TwinInstance) : bool :=
  bool_decide (keyOf (tn_meta i) = key).

Definition setObjects (w : Cluster) (os : list (Kind * Object)) : Cluster :=
  {| twinInterfaces := twinInterfaces w; twinInstances := twinInstances w;
     objects := os; createDenied := createDenied w; updateDenied := updateDenied w |}.

Definition setTwinInterfaces (w : Cluster) (l : list TwinInterface) : Cluster :=
  {| twinInterfaces := l; twinInstances := twinInstances w;
     objects := objects w; createDenied := createDenied w; updateDenied := updateDenied w |}.

Definition setTwinInstances (w : Cluster) (l : list TwinInstance) : Cluster :=
  {| twinInterfaces := twinInterfaces w; twinInstances := l;
     objects := objects w; createDenied := createDenied w; updateDenied := updateDenied w |}.

Definition clusterGetTwinInterface (key : NamespacedName) (w : Cluster)
  : (TwinInterface + error) * Cluster :=
  match List.find (isTwinInterface key) (twinInterfaces w) with
  | Some i => (inl i, w)
  | None => (inr NotFound, w)
  end.

Definition clusterGetTwinInstance (key : NamespacedName) (w : Cluster)
  : (TwinInstance + error) * Cluster :=
  match List.find (isTwinInstance key) (twinInstances w) with
  | Some i => (inl i, w)
  | None => (inr NotFound, w)
  end.

Definition clusterGet (k : Kind) (key : NamespacedName) (w : Cluster)
  : (Object + error) * Cluster :=
  match List.find (isObject k key) (objects w) with
  | Some e => (inl (snd e), w)
  | None => (inr NotFound, w)
  end.

Definition clusterList (k : Kind) (ns : string) (sel : gmap string string) (w : Cluster)
  : (list Object * option error) * Cluster :=
  ((List.map snd (List.filter (isListed k ns sel) (objects w)), None), w).

Definition clusterCreate (k : Kind) (o : Object) (w : Cluster) : option error * Cluster :=
  match createDenied w k o with
  | Some e => (Some e, w)
  | None =>
      if List.existsb (isObject k (keyOf (meta o))) (objects w)
      then (Some AlreadyExists, w)
      else (None, setObjects w (objects w ++ [(k, o)]))
  end.

(** The stored interface of the same namespace and name gives way to [i]. *)
Definition replaceBy (i : TwinInterface) (j : TwinInterface) : TwinInterface :=
  if isTwinInterface (keyOf (ti_meta i)) j then i else j.

Definition clusterUpdateTwinInterface (i : TwinInterface) (w : Cluster)
  : option error * Cluster :=
  match updateDenied w (keyOf (ti_meta i)) with
  | Some e => (Some e, w)
  | None =>
      if List.existsb (isTwinInterface (keyOf (ti_meta i))) (twinInterfaces w)
      then (None, setTwinInterfaces w (List.map (replaceBy i) (twinInterfaces w)))
      else (Some NotFound, w)
  end.

Definition clusterUpdateTwinInstance (i : TwinInstance) (w : Cluster)
  : option error * Cluster :=
  match updateDenied w (keyOf (tn_meta i)) with
  | Some e => (Some e, w)
  | None =>
      if List.existsb (isTwinInstance (keyOf (tn_meta i))) (twinInstances w)
      then (None, setTwinInstances w
                    (List.map (fun j => if isTwinInstance (keyOf (tn_meta i)) j then i else j)
                       (twinInstances w)))
      else (Some NotFound, w)
  end.

#[global] Instance clusterClient : Client Cluster := {
  clientGetTwinInterface := clusterGetTwinInterface;
  clientGetTwinInstance := clusterGetTwinInstance;
  clientGet := clusterGet;
  clientList := clusterList;
  clientCreate := clusterCreate;
  clientUpdateTwinInterface := clusterUpdateTwinInterface;
  clientUpdateTwinInstance := clusterUpdateTwinInstance;
}.

(** The bindings of a namespace held by the cluster. *)
Definition bindingsOf (ns : string) (w : Cluster) : list Object :=
  fst (fst (clusterList RabbitBinding ns ∅ w)).

(** ** Sample collaborators *)

(** Modelled from the spec: the binding generator of the component design
    and of the end-to-end scenario (one compute service and one trigger named
    after the interface, two relationship bindings, one event-store binding,
    names derived from the names of the resolved objects).  The generators of
    the repository are not among the sources. *)
Definition named (ns n : string) (c : string) : Object :=
  {| meta := {| Name := n; Namespace := ns; Labels := ∅ |}; content := c |}.

Definition sampleTwinService : TwinService := {|
  GetService i := named (Namespace (ti_meta i)) (Name (ti_meta i)) "service";
|}.

Definition sampleTwinEvent : TwinEvent := {|
  GetTwinInterfaceTrigger i := named (Namespace (ti_meta i)) (Name (ti_meta i)) "trigger";
  GetRelationshipBrokerBindings i t x q :=
    [ named (Namespace (ti_meta i))
        (Name (ti_meta i) +:+ "-real-" +:+ Name (meta q)) (Name (meta x));
      named (Namespace (ti_meta i))
        (Name (ti_meta i) +:+ "-virtual-" +:+ Name (meta q)) (Name (meta x)) ];
  GetMQQTDispatcherBindings n :=
    [ named (Namespace (tn_meta n)) (Name (tn_meta n) +:+ "-mqtt-dispatcher") "dispatch" ];
|}.

Definition sampleEventStore : EventStore := {|
  GetEventStoreBrokerBindings i t x q :=
    [ named (Namespace (ti_meta i))
        (Name (ti_meta i) +:+ "-event-store-" +:+ Name (meta q)) (Name (meta x)) ];
|}.

Definition labelled (ns n : string) (l : gmap string string) : Object :=
  {| meta := {| Name := n; Namespace := ns; Labels := l |}; content := "" |}.

Definition noDenial : Kind → Object → option error := fun _ _ => None.
Definition noUpdateDenial : NamespacedName → option error := fun _ => None.

(** The interface of the end-to-end scenario. *)
Definition temperatureSensor : TwinInterface :=
  {| ti_meta := {| Name := "temperature-sensor"; Namespace := "ktwin"; Labels := ∅ |};
     ti_Service := Some "container"; ti_Status := PhaseUnset |}.

Definition defaultExchange : Object :=
  labelled "ktwin" "ktwin-exchange" {[ "eventing.knative.dev/broker" := "ktwin" ]}.

Definition sensorQueue : Object :=
  labelled "ktwin" "temperature-sensor-queue"
    (<[ "eventing.knative.dev/trigger" := "temperature-sensor" ]>
       {[ "eventing.knative.dev/broker" := "ktwin" ]}).

Definition eventStoreQueue : Object :=
  labelled "ktwin" "event-store-queue"
    {[ "eventing.knative.dev/trigger" := "event-store-trigger" ]}.

Definition clusterWith (os : list (Kind * Object)) : Cluster :=
  {| twinInterfaces := [temperatureSensor]; twinInstances := [];
     objects := os; createDenied := noDenial; updateDenied := noUpdateDenial |}.

Definition reconcileSensor (w : Cluster) : Pass TwinInterface * (Cluster * list Event) :=
  @TwinInterfaceReconciler_Reconcile Cluster clusterClient
    sampleTwinService sampleTwinEvent sampleEventStore
    ("ktwin", "temperature-sensor") (w, []).

Definition fullCluster : Cluster :=
  clusterWith [(RabbitExchange, defaultExchange); (RabbitQueue, sensorQueue);
               (RabbitQueue, eventStoreQueue)].

(** The outcome of a run: the pass, the cluster and the trace. *)
Definition passOf {T : Type} (r : Pass T * (Cluster * list Event)) : Pass T := fst r.
Definition clusterOf {T : Type} (r : Pass T * (Cluster * list Event)) : Cluster :=
  fst (snd r).
Definition traceOf {T : Type} (r : Pass T * (Cluster * list Event)) : list Event :=
  snd (snd r).

(** The same namespace without the event-store queue, without the default
    exchange, and without either. *)
Definition noEventStoreQueueCluster : Cluster :=
  clusterWith [(RabbitExchange, defaultExchange); (RabbitQueue, sensorQueue)].

Definition noExchangeCluster : Cluster :=
  clusterWith [(RabbitQueue, sensorQueue); (RabbitQueue, eventStoreQueue)].

Definition bareCluster : Cluster := clusterWith [].

(** A cluster that refuses the compute service. *)
Definition refuseService : Kind → Object → option error :=
  fun k _ => match k with KnativeService => Some (Other "refused") | _ => None end.

Definition refusingCluster : Cluster :=
  {| twinInterfaces := [temperatureSensor]; twinInstances := [];
     objects := [(RabbitExchange, defaultExchange); (RabbitQueue, sensorQueue);
                 (RabbitQueue, eventStoreQueue)];
     createDenied := refuseService; updateDenied := noUpdateDenial |}.

Definition refusingNoExchangeCluster : Cluster :=
  {| twinInterfaces := [temperatureSensor]; twinInstances := [];
     objects := [(RabbitQueue, sensorQueue); (RabbitQueue, eventStoreQueue)];
     createDenied := refuseService; updateDenied := noUpdateDenial |}.

(** An interface without a compute service, with a label of its own, and an
    instance of [temperature-sensor] with a label of its own. *)
Definition thermostat : TwinInterface :=
  {| ti_meta := {| Name := "thermostat"; Namespace := "ktwin";
                   Labels := {[ "team" := "iot" ]} |};
     ti_Service := None; ti_Status := PhaseUnset |}.

Definition sensor1 : TwinInstance :=
  {| tn_meta := {| Name := "sensor-1"; Namespace := "ktwin";
                   Labels := {[ "room" := "lab" ]} |};
     tn_Interface := "temperature-sensor"; tn_Status := PhaseUnset |}.

(** An instance whose parent is not in the cluster. *)
Definition orphan : TwinInstance :=
  {| tn_meta := {| Name := "orphan"; Namespace := "ktwin"; Labels := {[ "room" := "lab" ]} |};
     tn_Interface := "missing"; tn_Status := PhasePending |}.

Definition twinCluster : Cluster :=
  {| twinInterfaces := [temperatureSensor; thermostat]; twinInstances := [sensor1; orphan];
     objects := [(RabbitExchange, defaultExchange); (RabbitQueue, sensorQueue);
                 (RabbitQueue, eventStoreQueue)];
     createDenied := noDenial; updateDenied := noUpdateDenial |}.

(** The same cluster refusing every update. *)
Definition conflictCluster : Cluster :=
  {| twinInterfaces := [temperatureSensor; thermostat]; twinInstances := [sensor1; orphan];
     objects := [(RabbitExchange, defaultExchange); (RabbitQueue, sensorQueue);
                 (RabbitQueue, eventStoreQueue)];
     createDenied := noDenial; updateDenied := fun _ => Some (Other "conflict") |}.

Definition reconcileInterface (req : NamespacedName) (w : Cluster)
  : Pass TwinInterface * (Cluster * list Event) :=
  @TwinInterfaceReconciler_Reconcile Cluster clusterClient
    sampleTwinService sampleTwinEvent sampleEventStore req (w, []).

Definition reconcileInstance (req : NamespacedName) (w : Cluster)
  : Pass TwinInstance * (Cluster * list Event) :=
  @TwinInstanceReconciler_Reconcile Cluster clusterClient sampleTwinEvent req (w, []).

(** The runs of the scenarios. *)
Definition noEventStoreQueueRun := reconcileSensor noEventStoreQueueCluster.
Definition noExchangeRun := reconcileSensor noExchangeCluster.
Definition bareRun := reconcileSensor bareCluster.
Definition refusedRun := reconcileSensor refusingCluster.
Definition refusedNoExchangeRun := reconcileSensor refusingNoExchangeCluster.
Definition firstRun := reconcileSensor fullCluster.
Definition secondRun := reconcileSensor (clusterOf firstRun).
Definition thermostatRun := reconcileInterface ("ktwin", "thermostat") twinCluster.
Definition orphanRun := reconcileInstance ("ktwin", "orphan") twinCluster.
Definition conflictInterfaceRun := reconcileInterface ("ktwin", "thermostat") conflictCluster.
Definition conflictInstanceRun := reconcileInstance ("ktwin", "sensor-1") conflictCluster.

Definition thermostatPass : Pass TwinInterface * (Cluster * list Event) :=
  @createUpdateTwinInterface Cluster clusterClient
    sampleTwinService sampleTwinEvent sampleEventStore thermostat (twinCluster, []).

Definition sensor1Pass : Pass TwinInstance * (Cluster * list Event) :=
  @createUpdateTwinInstance Cluster clusterClient sampleTwinEvent
    sensor1 temperatureSensor (twinCluster, []).

(** The object a pass over [thermostat] and over [sensor1] sends to the
    update. *)
Definition thermostatRunning : TwinInterface :=
  {| ti_meta := {| Name := "thermostat"; Namespace := "ktwin";
                   Labels := {[ "ktwin/twin-interface" := "thermostat" ]} |};
     ti_Service := None; ti_Status := PhaseRunning |}.

Definition sensor1Running : TwinInstance :=
  {| tn_meta := {| Name := "sensor-1"; Namespace := "ktwin";
                   Labels := {[ "ktwin/twin-interface" := "sensor-1" ]} |};
     tn_Interface := "temperature-sensor"; tn_Status := PhaseRunning |}.

(** * Properties of the reconcilers, for every client *)

Definition isUpdate (ev : Event) : bool :=
  match fst ev with
  | CallUpdateTwinInterface _ | CallUpdateTwinInstance _ => true
  | _ => false
  end.

Definition isCreate (ev : Event) : bool :=
  match fst ev with CallCreate _ _ => true | _ => false end.

Definition isList (ev : Event) : bool :=
  match fst ev with CallList _ _ _ => true | _ => false end.

(** The guard of every create site: the error is kept. *)
Definition kept (err : option error) : bool := notNil err && negb (IsAlreadyExists err).

Definition keep (err : option error) : list (option error) :=
  if kept err then [err] else [].

Definition keepNotNil (err : option error) : list (option error) :=
  if notNil err then [err] else [].

(** The label selectors of the three [List] calls. *)
Definition eventStoreSelector : gmap string string :=
  {[ "eventing.knative.dev/trigger" := "event-store-trigger" ]}.

Definition brokerSelector : gmap string string :=
  {[ "eventing.knative.dev/broker" := "ktwin" ]}.

Definition interfaceQueueSelector (name : string) : gmap string string :=
  <[ "eventing.knative.dev/trigger" := name ]> {[ "eventing.knative.dev/broker" := "ktwin" ]}.

(** Two interfaces with the same declaration: name, namespace and spec. *)
Definition sameDeclaration (i j : TwinInterface) : Prop :=
  Name (ti_meta i) = Name (ti_meta j)
  ∧ Namespace (ti_meta i) = Namespace (ti_meta j)
  ∧ ti_Service i = ti_Service j.

(** The generators read the declaration of an interface only, not the
    status and the labels that the reconciler writes. *)
Definition readDeclarationOnly (TS : TwinService) (TE : TwinEvent) (ES : EventStore) : Prop :=
  ∀ i j, sameDeclaration i j →
    GetService i = GetService j
    ∧ GetTwinInterfaceTrigger i = GetTwinInterfaceTrigger j
    ∧ (∀ t x q, GetRelationshipBrokerBindings i t x q = GetRelationshipBrokerBindings j t x q)
    ∧ (∀ t x q, GetEventStoreBrokerBindings i t x q = GetEventStoreBrokerBindings j t x q).

(** An object the cluster will not add when asked to create it: the create
    is refused, or an object of that kind and name is there. *)
Definition settled (denied : Kind → Object → option error) (os : list (Kind * Object))
    (k : Kind) (o : Object) : Prop :=
  denied k o ≠ None ∨ List.existsb (isObject k (keyOf (meta o))) os = true.

(** The errors a loop of creates accumulates on the cluster. *)
Definition deniedErrors (denied : Kind → Object → option error) (bindings : list Object)
  : list (option error) :=
  List.flat_map (fun b => keep (denied RabbitBinding b)) bindings.

(** The client that answers nil wherever [c] answers already-exists to a
    create, and is [c] otherwise. *)
Definition existsAsCreated {W : Type} (c : Client W) : Client W := {|
  clientGetTwinInterface := @clientGetTwinInterface W c;
  clientGetTwinInstance := @clientGetTwinInstance W c;
  clientGet := @clientGet W c;
  clientList := @clientList W c;
  clientCreate k o w :=
    let '(err, w') := @clientCreate W c k o w in
    (if IsAlreadyExists err then None else err, w');
  clientUpdateTwinInterface := @clientUpdateTwinInterface W c;
  clientUpdateTwinInstance := @clientUpdateTwinInstance W c;
|}.

(** Two computations that agree on their result and on the world they leave,
    from the same world, whatever the traces. *)
Definition agree {W A : Type} (m1 m2 : @M W A) : Prop :=
  ∀ w tr1 tr2,
    fst (m1 (w, tr1)) = fst (m2 (w, tr2))
    ∧ fst (snd (m1 (w, tr1))) = fst (snd (m2 (w, tr2))).

(** ** The calls of a pass, one by one *)

(** The create events of a loop over [bindings], given what each create
    answered. *)
Definition createEvents (bindings : list Object) (replies : list (option error))
  : list Event :=
  zip_with (fun b e => (CallCreate RabbitBinding b, Replied e)) bindings replies.

(** The trigger the generators of the bindings are given: the fetched one, or
    the generated one when the fetch failed. *)
Definition triggerOf `{!TwinEvent} (i : TwinInterface) (got : Object + error) : Object :=
  match got with inl t => t | inr _ => GetTwinInterfaceTrigger i end.

(** The first three calls of the block guarded by [Spec.Service != nil], and
    what they leave in the error list. *)
Definition opening `{!TwinService} `{!TwinEvent} (i : TwinInterface)
    (e1 e2 : option error) (got : Object + error) : list Event :=
  [ (CallCreate KnativeService (GetService i), Replied e1);
    (CallCreate KnativeTrigger (GetTwinInterfaceTrigger i), Replied e2);
    (CallGet KnativeTrigger
       (Namespace (meta (GetTwinInterfaceTrigger i)),
        Name (meta (GetTwinInterfaceTrigger i))),
     Replied (errOf got)) ].

Definition openingErrors (e1 e2 : option error) (got : Object + error)
  : list (option error) :=
  keep e1 ++ keep e2 ++ keep (errOf got).

Definition listEventStoreQueue (i : TwinInterface) (items : list Object)
    (err : option error) : Event :=
  (CallList RabbitQueue (Namespace (ti_meta i)) eventStoreSelector, Listed items err).

Definition listExchange (i : TwinInterface) (items : list Object)
    (err : option error) : Event :=
  (CallList RabbitExchange (Namespace (ti_meta i)) brokerSelector, Listed items err).

Definition listInterfaceQueue (i : TwinInterface) (items : list Object)
    (err : option error) : Event :=
  (CallList RabbitQueue (Namespace (ti_meta i))
     (interfaceQueueSelector (Name (ti_meta i))), Listed items err).

(** The four ways through the block guarded by [Spec.Service != nil]: the
    flow it ends with, what it appends to the error list, and the calls it
    makes. *)
Inductive blockShape `{!TwinService} `{!TwinEvent} `{!EventStore} (i : TwinInterface)
  : Flow → list (option error) → list Event → Prop :=
| shapeNoEventStoreQueue e1 e2 got err :
    blockShape i (Returns err)
      (openingErrors e1 e2 got ++ [err])
      (opening i e1 e2 got ++ [listEventStoreQueue i [] err])
| shapeNoExchange e1 e2 got q0 qs err0 err :
    blockShape i FallsThrough
      (openingErrors e1 e2 got ++ keepNotNil err ++ [err])
      (opening i e1 e2 got
         ++ [listEventStoreQueue i (q0 :: qs) err0; listExchange i [] err])
| shapeNoInterfaceQueue e1 e2 got q0 qs err0 x0 xs err1 err :
    blockShape i FallsThrough
      (openingErrors e1 e2 got ++ keepNotNil err1 ++ [err])
      (opening i e1 e2 got
         ++ [listEventStoreQueue i (q0 :: qs) err0; listExchange i (x0 :: xs) err1;
             listInterfaceQueue i [] err])
| shapeBindings e1 e2 got q0 qs err0 x0 xs err1 qi qis err2 replies1 replies2 :
    length replies1
    = length (GetRelationshipBrokerBindings i (triggerOf i got) x0 qi) →
    length replies2
    = length (GetEventStoreBrokerBindings i (triggerOf i got) x0 q0) →
    blockShape i FallsThrough
      (openingErrors e1 e2 got ++ keepNotNil err1
         ++ List.filter kept replies1 ++ List.filter kept replies2)
      (opening i e1 e2 got
         ++ [listEventStoreQueue i (q0 :: qs) err0; listExchange i (x0 :: xs) err1;
             listInterfaceQueue i (qi :: qis) err2]
         ++ createEvents (GetRelationshipBrokerBindings i (triggerOf i got) x0 qi) replies1
         ++ createEvents (GetEventStoreBrokerBindings i (triggerOf i got) x0 q0) replies2).

(** The error value of an answer. *)
Definition replyErr (ev : Event) : option error :=
  match snd ev with Replied err => err | Listed _ err => err end.

(** What a pass over an interface does after the block: the calls it adds,
    the error it returns and the object it leaves, by the flow and the error
    list it finds. *)
Inductive passEnd (i : TwinInterface)
  : Flow → list (option error) → list Event → option error → TwinInterface → Prop :=
| endReturned err more :
    passEnd i (Returns err) more [] err i
| endFailed first rest :
    passEnd i FallsThrough (first :: rest) [] first
      (ti_set_Status i TwinInterfacePhaseFailed)
| endRunning err :
    passEnd i FallsThrough []
      [(CallUpdateTwinInterface
          (ti_set_Labels (ti_set_Status i TwinInterfacePhaseRunning)
             {[ "ktwin/twin-interface" := Name (ti_meta i) ]}), Replied err)]
      None
      (ti_set_Labels (ti_set_Status i TwinInterfacePhaseRunning)
         {[ "ktwin/twin-interface" := Name (ti_meta i) ]}).

(** The same for a pass over an instance, which has no early return. *)
Inductive instanceEnd (n : TwinInstance)
  : list (option error) → list Event → option error → TwinInstance → Prop :=
| instanceFailed first rest :
    instanceEnd n (first :: rest) [] first
      (tn_set_Status n TwinInstancePhaseFailed)
| instanceRunning err :
    instanceEnd n []
      [(CallUpdateTwinInstance
          (tn_set_Labels (tn_set_Status n TwinInstancePhaseRunning)
             {[ "ktwin/twin-interface" := Name (tn_meta n) ]}), Replied err)]
      None
      (tn_set_Labels (tn_set_Status n TwinInstancePhaseRunning)
         {[ "ktwin/twin-interface" := Name (tn_meta n) ]}).


(** The calls a pass over an interface can make: creates of the compute
    service, the trigger and bindings, the fetch of the trigger, lists of
    queues and exchanges in the namespace of the interface, and the update of
    the interface itself. *)
Definition interfaceFootprint (i : TwinInterface) (ev : Event) : Prop :=
  match fst ev with
  | CallCreate k _ => k = KnativeService ∨ k = KnativeTrigger ∨ k = RabbitBinding
  | CallGet k _ => k = KnativeTrigger
  | CallList k ns _ => (k = RabbitQueue ∨ k = RabbitExchange) ∧ ns = Namespace (ti_meta i)
  | CallUpdateTwinInterface j => keyOf (ti_meta j) = keyOf (ti_meta i)
  | _ => False
  end.

(** The calls a pass over an instance can make: creates of bindings and the
    update of the instance itself. *)
Definition instanceFootprint (n : TwinInstance) (ev : Event) : Prop :=
  match fst ev with
  | CallCreate k _ => k = RabbitBinding
  | CallUpdateTwinInstance j => keyOf (tn_meta j) = keyOf (tn_meta n)
  | _ => False
  end.

(** ** Two more clients *)

(** A client that cannot reach the cluster: every call answers the same
    error, and a [List] fills no items. *)
Definition unavailable : error := Other "unavailable".

Definition unreachableClient : Client unit := {|
  clientGetTwinInterface _ w := (inr unavailable, w);
  clientGetTwinInstance _ w := (inr unavailable, w);
  clientGet _ _ w := (inr unavailable, w);
  clientList _ _ _ w := (([], Some unavailable), w);
  clientCreate _ _ w := (Some unavailable, w);
  clientUpdateTwinInterface _ w := (Some unavailable, w);
  clientUpdateTwinInstance _ w := (Some unavailable, w);
|}.

(** The in-memory cluster with the [List] of exchanges failing. *)
Definition exchangeDownClient : Client Cluster := {|
  clientGetTwinInterface := clusterGetTwinInterface;
  clientGetTwinInstance := clusterGetTwinInstance;
  clientGet := clusterGet;
  clientList k ns sel w :=
    match k with
    | RabbitExchange => (([], Some unavailable), w)
    | _ => clusterList k ns sel w
    end;
  clientCreate := clusterCreate;
  clientUpdateTwinInterface := clusterUpdateTwinInterface;
  clientUpdateTwinInstance := clusterUpdateTwinInstance;
|}.

Definition unreachableInterfaceRun : Pass TwinInterface * (unit * list Event) :=
  @TwinInterfaceReconciler_Reconcile unit unreachableClient
    sampleTwinService sampleTwinEvent sampleEventStore
    ("ktwin", "temperature-sensor") (tt, []).

Definition unreachableInstanceRun : Pass TwinInstance * (unit * list Event) :=
  @TwinInstanceReconciler_Reconcile unit unreachableClient sampleTwinEvent
    ("ktwin", "sensor-1") (tt, []).

Definition exchangeDownRun : Pass TwinInterface * (Cluster * list Event) :=
  @TwinInterfaceReconciler_Reconcile Cluster exchangeDownClient
    sampleTwinService sampleTwinEvent sampleEventStore
    ("ktwin", "temperature-sensor") (fullCluster, []).

Definition missingInterfaceRun := reconcileInterface ("ktwin", "absent") twinCluster.
Definition missingInstanceRun := reconcileInstance ("ktwin", "absent") twinCluster.


(** A cluster that refuses every create. *)
Definition refusedTwinCluster : Cluster :=
  {| twinInterfaces := [temperatureSensor]; twinInstances := [sensor1];
     objects := []; createDenied := fun _ _ => Some (Other "refused");
     updateDenied := noUpdateDenial |}.

Definition refusedSensor1Pass : Pass TwinInstance * (Cluster * list Event) :=
  @createUpdateTwinInstance Cluster clusterClient sampleTwinEvent
    sensor1 temperatureSensor (refusedTwinCluster, []).

Definition noEventStoreQueuePass : Pass TwinInterface * (Cluster * list Event) :=
  @createUpdateTwinInterface Cluster clusterClient
    sampleTwinService sampleTwinEvent sampleEventStore
    temperatureSensor (noEventStoreQueueCluster, []).

Definition bareSensorPass : Pass TwinInterface * (Cluster * list Event) :=
  @createUpdateTwinInterface Cluster clusterClient
    sampleTwinService sampleTwinEvent sampleEventStore temperatureSensor (bareCluster, []).

Definition sensor1Run := reconcileInstance ("ktwin", "sensor-1") twinCluster.
Definition sensor1SecondRun := reconcileInstance ("ktwin", "sensor-1") (clusterOf sensor1Run).

(** The kinds of object a reconciler asks the cluster to create. *)
Definition creatableKind (e : Kind * Object) : Prop :=
  fst e = KnativeService ∨ fst e = KnativeTrigger ∨ fst e = RabbitBinding.

(** The cluster holds an object of kind [k] with the namespace and name of
    [o]. *)
Definition present (k : Kind) (o : Object) (u : Cluster) : Prop :=
  ∃ o', fst (clusterGet k (keyOf (meta o)) u) = inl o'.

(** The generator of an instance reads its declaration only. *)
Definition readInstanceDeclarationOnly (TE : TwinEvent) : Prop :=
  ∀ n m : TwinInstance,
    Name (tn_meta n) = Name (tn_meta m) →
    Namespace (tn_meta n) = Namespace (tn_meta m) →
    tn_Interface n = tn_Interface m →
    GetMQQTDispatcherBindings n = GetMQQTDispatcherBindings m.

(** ** ktwin/operator/pkg/event-store *)

(** [pkg/event-store/eventStore.go].  The objects of [k8s.io/apimachinery],
    [k8s.io/api/core/v1] and [knative.dev/serving] are records with the
    fields the file sets; a field it leaves out has the zero value of its Go
    type.  The structs nested in [kserving.Service] that hold one field
    ([ServiceSpec], [ConfigurationSpec], [RevisionSpec], [PodSpec]) are
    passed through: [s_Template] is [Spec.ConfigurationSpec.Template] and
    [rt_Containers] is [Spec.PodSpec.Containers]. *)
Module eventStore.

Definition EVENT_STORE_SERVICE : string := "event-store".

Record TypeMeta : Type := mkTypeMeta {
  tm_Kind : string;
  tm_APIVersion : string;
}.

Record OwnerReference : Type := mkOwnerReference {
  or_APIVersion : string;
  or_Kind : string;
  or_Name : string;
  or_UID : string;
}.

Record v1_ObjectMeta : Type := mkObjectMeta {
  om_Name : string;
  om_Namespace : string;
  om_UID : string;
  om_Labels : gmap string string;
  om_Annotations : gmap string string;
  om_OwnerReferences : list OwnerReference;
}.

(** [corev0.EventStore]: [eventStore.Kind] and [eventStore.APIVersion] are
    promoted from the embedded [TypeMeta], [eventStore.UID] from the embedded
    [ObjectMeta]. *)
Record corev0_EventStore : Type := mkEventStore {
  es_TypeMeta : TypeMeta;
  es_ObjectMeta : v1_ObjectMeta;
}.

Record EnvVar : Type := mkEnvVar {
  ev_Name : string;
  ev_Value : string;
}.

Inductive PullPolicy : Type :=
| PullAlways
| PullNever
| PullIfNotPresent.

Record Container : Type := mkContainer {
  c_Name : string;
  c_Image : string;
  c_ImagePullPolicy : PullPolicy;
  c_Env : list EnvVar;
}.

Record RevisionTemplateSpec : Type := mkRevisionTemplateSpec {
  rt_ObjectMeta : v1_ObjectMeta;
  rt_Containers : list Container;
}.

Record Service : Type := mkService {
  s_TypeMeta : TypeMeta;
  s_ObjectMeta : v1_ObjectMeta;
  s_Template : RevisionTemplateSpec;
}.

(** The interface [EventStore], lines 21-27. *)
Record EventStore : Type := mkEventStoreInterface {
  GetEventStoreService : corev0_EventStore → Service;
  CreateTwinInterface : TwinInstance → option error;
  DeleteTwinInterface : TwinInstance → option error;
  CreateTwinInstance : TwinInstance → option error;
  DeleteTwinInstance : TwinInstance → option error;
}.

(** [GetEventStoreService] of the struct [eventStore], lines 31-96. *)
Definition eventStore_GetEventStoreService (eventStore : corev0_EventStore) : Service :=
  let eventStoreName := om_Name (es_ObjectMeta eventStore) in
  {| s_TypeMeta :=
       {| tm_Kind := "Service"; tm_APIVersion := "serving.knative.dev/v1" |};
     s_ObjectMeta :=
       {| om_Name := om_Name (es_ObjectMeta eventStore);
          om_Namespace := om_Namespace (es_ObjectMeta eventStore);
          om_UID := EmptyString;
          om_Labels := {[ "ktwin/event-store" := eventStoreName ]};
          om_Annotations := ∅;
          om_OwnerReferences :=
            [ {| or_APIVersion := tm_APIVersion (es_TypeMeta eventStore);
                 or_Kind := tm_Kind (es_TypeMeta eventStore);
                 or_Name := om_Name (es_ObjectMeta eventStore);
                 or_UID := om_UID (es_ObjectMeta eventStore) |} ] |};
     s_Template :=
       {| rt_ObjectMeta :=
            {| om_Name := String.append eventStoreName "-v1";
               om_Namespace := EmptyString;
               om_UID := EmptyString;
               om_Labels := ∅;
               om_Annotations :=
                 <[ "autoscaling.knative.dev/maxScale" := "10" ]>
                 (<[ "autoscaling.knative.dev/minScale" := "1" ]>
                  {[ "autoscaling.knative.dev/target" := "2" ]});
               om_OwnerReferences := [] |};
          rt_Containers :=
            [ {| c_Name := "ktwin-event-store";
                 c_Image :=
                   String.append (String.append "dev.local/ktwin/" "event-store") ":0.1";
                 c_ImagePullPolicy := PullIfNotPresent;
                 c_Env :=
                   [ {| ev_Name := "DB_HOST";
                        ev_Value := "scylla-client.scylla.svc.cluster.local" |};
                     {| ev_Name := "DB_PASSWORD"; ev_Value := EmptyString |};
                     {| ev_Name := "DB_KEYSPACE"; ev_Value := "ktwin" |} ] |} ] |} |}.

(** Lines 98-121: the four methods that return nil. *)
Definition eventStore_CreateTwinInterface (twinInterface : TwinInstance) : option error :=
  None.

Definition eventStore_DeleteTwinInterface (twinInterface : TwinInstance) : option error :=
  None.

Definition eventStore_CreateTwinInstance (twinInstance : TwinInstance) : option error :=
  None.

Definition eventStore_DeleteTwinInstance (twinInstance : TwinInstance) : option error :=
  None.

(** [NewEventStore], lines 17-19. *)
Definition NewEventStore : EventStore := {|
  GetEventStoreService := eventStore_GetEventStoreService;
  CreateTwinInterface := eventStore_CreateTwinInterface;
  DeleteTwinInterface := eventStore_DeleteTwinInterface;
  CreateTwinInstance := eventStore_CreateTwinInstance;
  DeleteTwinInstance := eventStore_DeleteTwinInstance;
|}.

End eventStore.

Section Properties.

Context {W : Type} {cl : Client W} `{!TwinService} `{!TwinEvent} `{!EventStore}.

Implicit Types (w : W) (tr : list Event) (resultErrors : list (option error)).

Ltac call_step :=
  match goal with
  | |- context [clientCreate ?k ?o ?w] =>
      let err := fresh "err" in let w' := fresh "w" in
      destruct (clientCreate k o w) as [err w'] eqn:?
  | |- context [clientGet ?k ?key ?w] =>
      let got := fresh "got" in let w' := fresh "w" in
      destruct (clientGet k key w) as [got w'] eqn:?
  | |- context [clientList ?k ?ns ?sel ?w] =>
      let items := fresh "items" in let err := fresh "err" in let w' := fresh "w" in
      destruct (clientList k ns sel w) as [[items err] w'] eqn:?
  | |- context [clientUpdateTwinInterface ?i ?w] =>
      let err := fresh "err" in let w' := fresh "w" in
      destruct (clientUpdateTwinInterface i w) as [err w'] eqn:?
  | |- context [clientUpdateTwinInstance ?i ?w] =>
      let err := fresh "err" in let w' := fresh "w" in
      destruct (clientUpdateTwinInstance i w) as [err w'] eqn:?
  end.

(** A loop of creates only issues creates, and only appends errors that
    pass the guard. *)
Lemma createBindings_run bindings :
  ∀ resultErrors w tr, ∃ more w' added,
    createBindings bindings resultErrors (w, tr) = (resultErrors ++ more, (w', tr ++ added))
    ∧ Forall (fun ev => isCreate ev = true) added
    ∧ Forall (fun err => kept err = true) more.
Proof.
  induction bindings as [|b bs IH]; intros errs w tr; simpl.
  - exists [], w, []. rewrite !app_nil_r. repeat split; constructor.
  - unfold bind, Create. call_step.
    destruct (notNil err && negb (IsAlreadyExists err)) eqn:Hk.
    + destruct (IH (errs ++ [err]) w0 (tr ++ [(CallCreate RabbitBinding b, Replied err)]))
        as (more & w' & added & -> & Hc & Hm).
      exists (err :: more), w', ((CallCreate RabbitBinding b, Replied err) :: added).
      rewrite <- !app_assoc. simpl. repeat split; constructor; assumption || reflexivity.
    + destruct (IH errs w0 (tr ++ [(CallCreate RabbitBinding b, Replied err)]))
        as (more & w' & added & -> & Hc & Hm).
      exists more, w', ((CallCreate RabbitBinding b, Replied err) :: added).
      rewrite <- !app_assoc. simpl. repeat split; try constructor; assumption || reflexivity.
Qed.

Lemma if_kept resultErrors err :
  (if notNil err && negb (IsAlreadyExists err) then resultErrors ++ [err] else resultErrors)
  = resultErrors ++ keep err.
Proof. unfold keep, kept. destruct (_ && _); [reflexivity | by rewrite app_nil_r]. Qed.

Lemma if_notNil resultErrors err :
  (if notNil err then resultErrors ++ [err] else resultErrors)
  = resultErrors ++ keepNotNil err.
Proof. unfold keepNotNil. destruct (notNil err); [reflexivity | by rewrite app_nil_r]. Qed.

Lemma created_not_update (added : list Event) :
  Forall (fun ev => isCreate ev = true) added →
  Forall (fun ev => isUpdate ev = false) added.
Proof.
  intros Hc. eapply Forall_impl; [exact Hc|].
  intros [c r]. unfold isCreate, isUpdate. simpl. by destruct c.
Qed.

Lemma created_not_listed (added : list Event) k ns sel r :
  Forall (fun ev => isCreate ev = true) added →
  (CallList k ns sel, r) ∈ added → False.
Proof.
  intros Hc Hin. rewrite Forall_forall in Hc. specialize (Hc _ Hin). discriminate.
Qed.

Ltac loop_step :=
  match goal with
  | |- context [createBindings ?bs ?errs (?w, ?tr)] =>
      let more := fresh "more" in let w' := fresh "w" in
      let added := fresh "added" in let E := fresh "Hloop" in
      let Hc := fresh "Hcreated" in let Hk := fresh "Hkept" in
      destruct (createBindings_run bs errs w tr) as (more & w' & added & E & Hc & Hk);
      rewrite E; clear E
  end.

Ltac items_cases :=
  lazymatch goal with
  | |- context [match ?items with [] => _ | _ :: _ => _ end] =>
      destruct items as [|? ?]
  end.

Ltac trace_cases H :=
  repeat first
    [ apply elem_of_cons in H as [H|H]; [try discriminate H|]
    | apply elem_of_app in H as [H|H]
    | apply elem_of_nil in H; destruct H ].

Lemma createServiceTriggerBindings_run twinInterface resultErrors w tr :
  ∃ flow more w' added,
    createServiceTriggerBindings twinInterface resultErrors (w, tr)
      = ((flow, resultErrors ++ more), (w', tr ++ added))
    ∧ Forall (fun ev => isUpdate ev = false) added
    ∧ (∀ k ns sel, (CallList k ns sel, Listed [] None) ∈ added →
         ∃ earlier, more = earlier ++ [None]
           ∧ (k = RabbitQueue ∧ sel = eventStoreSelector ∧ flow = Returns None
              ∨ (k = RabbitExchange
                 ∨ sel = interfaceQueueSelector (Name (ti_meta twinInterface)))
                ∧ flow = FallsThrough))
    ∧ (∀ e, flow = Returns e → ∃ earlier, more = earlier ++ [e]).
Proof.
  unfold createServiceTriggerBindings, bind, Create, Get, List_, ret.
  call_step. call_step. call_step. call_step. simpl.
  rewrite !if_kept.
  items_cases.
  { do 4 eexists. rewrite <- !app_assoc. simpl. split; [reflexivity|].
    split; [repeat constructor|]. split.
    - intros k ns sel Hin. trace_cases Hin. simplify_eq.
      exists (keep err ++ keep err0 ++ keep (errOf got)).
      rewrite <- !app_assoc. split; [reflexivity|]. left. done.
    - intros e [= <-]. exists (keep err ++ keep err0 ++ keep (errOf got)).
      by rewrite <- !app_assoc. }
  call_step. simpl. rewrite !if_notNil.
  items_cases.
  { do 4 eexists. rewrite <- !app_assoc. simpl. split; [reflexivity|].
    split; [repeat constructor|]. split; [|discriminate].
    intros k ns sel Hin. trace_cases Hin. simplify_eq.
    exists (keep err ++ keep err0 ++ keep (errOf got)).
    rewrite <- !app_assoc. split; [reflexivity|]. right. split; [by left | done]. }
  call_step. simpl.
  items_cases.
  { do 4 eexists. rewrite <- !app_assoc. simpl. split; [reflexivity|].
    split; [repeat constructor|]. split; [|discriminate].
    intros k ns sel Hin. trace_cases Hin; simplify_eq.
    exists (keep err ++ keep err0 ++ keep (errOf got) ++ keepNotNil err2).
    rewrite <- !app_assoc. split; [reflexivity|]. right. split; [by right | done]. }
  loop_step. loop_step.
  do 4 eexists. rewrite <- !app_assoc. simpl. split; [reflexivity|].
  split.
  { repeat (constructor; [reflexivity|]).
    apply Forall_app; split; by apply created_not_update. }
  split; [|discriminate].
  intros k ns sel Hin. trace_cases Hin; exfalso; eauto using created_not_listed.
Qed.

(** A pass over an interface either issues no update at all, or ends with
    the one update of the object it leaves behind. *)
Lemma createUpdateTwinInterface_run twinInterface w tr0 p w' tr :
  createUpdateTwinInterface twinInterface (w, tr0) = (p, (w', tr)) →
  ∃ added, tr = tr0 ++ added ∧
    (Forall (fun ev => isUpdate ev = false) added ∧ accumulated p ≠ []
     ∨ ∃ pre err,
         added = pre ++ [(CallUpdateTwinInterface (object p), Replied err)]
         ∧ Forall (fun ev => isUpdate ev = false) pre
         ∧ returned p = None ∧ accumulated p = []
         ∧ object p =
             ti_set_Labels (ti_set_Status twinInterface TwinInterfacePhaseRunning)
               {[ "ktwin/twin-interface" := Name (ti_meta twinInterface) ]}).
Proof.
  unfold createUpdateTwinInterface, bind. intros Hrun.
  assert (∃ flow more w1 added,
    match ti_Service twinInterface with
    | Some _ => createServiceTriggerBindings twinInterface []
    | None => ret (FallsThrough, [])
    end (w, tr0) = ((flow, more), (w1, tr0 ++ added))
    ∧ Forall (fun ev => isUpdate ev = false) added
    ∧ (flow ≠ FallsThrough → more ≠ [])) as (flow & more & w1 & added & E & Hnu & Hret).
  { destruct (ti_Service twinInterface).
    - destruct (createServiceTriggerBindings_run twinInterface [] w tr0)
        as (flow & more & w5 & added & E & Hnu & _ & Hret).
      exists flow, more, w5, added. split; [exact E|]. split; [assumption|].
      destruct flow as [e|]; [|congruence]. intros _.
      destruct (Hret e eq_refl) as [earlier ->]. by destruct earlier.
    - exists FallsThrough, [], w, []. rewrite app_nil_r.
      split; [reflexivity|]. split; [constructor|]. congruence. }
  rewrite E in Hrun. simpl in Hrun. destruct flow as [err|].
  - unfold ret in Hrun. simplify_eq. exists added. split; [reflexivity|]. left.
    split; [assumption|]. simpl. by apply Hret.
  - destruct more as [|first rest].
    + unfold updateTwinInterface, Update_TwinInterface, bind, ret in Hrun.
      revert Hrun. call_step. destruct err as [e|]; simpl; intros Hrun;
        injection Hrun as <- <- <-;
        (eexists; rewrite <- app_assoc; split; [reflexivity|]; right;
         do 2 eexists; simpl; repeat split; assumption).
    + unfold ret in Hrun. simplify_eq. exists added. split; [reflexivity|]. left.
      split; [assumption|]. simpl. congruence.
Qed.

Lemma createUpdateTwinInstance_run twinInstance twinInterface w tr0 p w' tr :
  createUpdateTwinInstance twinInstance twinInterface (w, tr0) = (p, (w', tr)) →
  ∃ added, tr = tr0 ++ added ∧
    (Forall (fun ev => isUpdate ev = false) added ∧ accumulated p ≠ []
     ∨ ∃ pre err,
         added = pre ++ [(CallUpdateTwinInstance (object p), Replied err)]
         ∧ Forall (fun ev => isUpdate ev = false) pre
         ∧ returned p = None ∧ accumulated p = []
         ∧ object p =
             tn_set_Labels (tn_set_Status twinInstance TwinInstancePhaseRunning)
               {[ "ktwin/twin-interface" := Name (tn_meta twinInstance) ]}).
Proof.
  unfold createUpdateTwinInstance, bind. loop_step. simpl.
  apply created_not_update in Hcreated.
  destruct more as [|first rest].
  - unfold updateTwinInstance, Update_TwinInstance, bind, ret.
    call_step. destruct err as [e|]; simpl; intros Hrun;
      injection Hrun as <- <- <-;
      (eexists; rewrite <- app_assoc; split; [reflexivity|]; right;
       do 2 eexists; simpl; repeat split; assumption).
  - unfold ret. intros Hrun. injection Hrun as <- <- <-.
    exists added. split; [reflexivity|]. left. split; [assumption|]. simpl. congruence.
Qed.

(** [Reconcile] is the fetch followed by the pass over what it fetched. *)
Lemma TwinInterfaceReconciler_Reconcile_run req w p w' tr :
  TwinInterfaceReconciler_Reconcile req (w, []) = (p, (w', tr)) →
  (∃ err, clientGetTwinInterface (fst req, snd req) w = (inr err, w')
     ∧ tr = [(CallGetTwinInterface (fst req, snd req), Replied (Some err))]
     ∧ p = mkPass (if IsNotFound (Some err) then None else Some err) zeroTwinInterface [])
  ∨ (∃ twinInterface w1,
       clientGetTwinInterface (fst req, snd req) w = (inl twinInterface, w1)
       ∧ createUpdateTwinInterface twinInterface
           (w1, [(CallGetTwinInterface (fst req, snd req), Replied None)])
         = (p, (w', tr))).
Proof.
  unfold TwinInterfaceReconciler_Reconcile, bind, Get_TwinInterface.
  destruct (clientGetTwinInterface (fst req, snd req) w) as [[i|err] w1]; simpl.
  - intros Hrun. right. by exists i, w1.
  - intros Hrun. unfold ret in Hrun. left. exists err. destruct err; simpl in *;
      injection Hrun as <- <- <-; repeat split.
Qed.

Lemma TwinInstanceReconciler_Reconcile_run req w p w' tr :
  TwinInstanceReconciler_Reconcile req (w, []) = (p, (w', tr)) →
  (∃ err, clientGetTwinInstance (fst req, snd req) w = (inr err, w')
     ∧ tr = [(CallGetTwinInstance (fst req, snd req), Replied (Some err))]
     ∧ p = mkPass (if IsNotFound (Some err) then None else Some err) zeroTwinInstance [])
  ∨ (∃ twinInstance w1,
       clientGetTwinInstance (fst req, snd req) w = (inl twinInstance, w1)
       ∧ ((∃ err,
             clientGetTwinInterface
               (Namespace (tn_meta twinInstance), tn_Interface twinInstance) w1
             = (inr err, w')
             ∧ tr = [(CallGetTwinInstance (fst req, snd req), Replied None);
                     (CallGetTwinInterface
                        (Namespace (tn_meta twinInstance), tn_Interface twinInstance),
                      Replied (Some err))]
             ∧ p = mkPass (Some err) twinInstance [])
          ∨ (∃ twinInterface w2,
               clientGetTwinInterface
                 (Namespace (tn_meta twinInstance), tn_Interface twinInstance) w1
               = (inl twinInterface, w2)
               ∧ createUpdateTwinInstance twinInstance twinInterface
                   (w2, [(CallGetTwinInstance (fst req, snd req), Replied None);
                         (CallGetTwinInterface
                            (Namespace (tn_meta twinInstance), tn_Interface twinInstance),
                          Replied None)])
                 = (p, (w', tr))))).
Proof.
  unfold TwinInstanceReconciler_Reconcile, bind, Get_TwinInstance, Get_TwinInterface.
  destruct (clientGetTwinInstance (fst req, snd req) w) as [[n|err] w1]; simpl.
  - destruct (clientGetTwinInterface _ w1) as [[i|err] w2] eqn:Hparent; simpl.
    + intros Hrun. right. exists n, w1. split; [reflexivity|]. right. by exists i, w2.
    + unfold ret. intros Hrun. injection Hrun as <- <- <-.
      right. exists n, w1. split; [reflexivity|]. left. by exists err.
  - intros Hrun. unfold ret in Hrun. left. exists err. destruct err; simpl in *;
      injection Hrun as <- <- <-; repeat split.
Qed.

Lemma interfaceQueueSelector_not_eventStore name :
  interfaceQueueSelector name ≠ eventStoreSelector.
Proof.
  intros Heq.
  apply (f_equal (fun m : gmap string string => m !! "eventing.knative.dev/broker")) in Heq.
  unfold interfaceQueueSelector, eventStoreSelector in Heq.
  rewrite lookup_insert_ne in Heq by done.
  rewrite lookup_singleton_eq, lookup_singleton_ne in Heq by done.
  discriminate.
Qed.

(** What a pass has done when one of its [List] calls answered nil with no
    items. *)
Lemma createUpdateTwinInterface_empty_list twinInterface w tr0 p w' tr :
  createUpdateTwinInterface twinInterface (w, tr0) = (p, (w', tr)) →
  ∃ added, tr = tr0 ++ added ∧
    ∀ k ns sel, (CallList k ns sel, Listed [] None) ∈ added →
      ∃ earlier, accumulated p = earlier ++ [None]
        ∧ (earlier = [] → returned p = None)
        ∧ (k = RabbitExchange ∨ sel ≠ eventStoreSelector →
             ti_Status (object p) = TwinInterfacePhaseFailed
             ∧ head (accumulated p) = Some (returned p))
        ∧ (k = RabbitQueue → sel = eventStoreSelector → returned p = None).
Proof.
  unfold createUpdateTwinInterface, bind.
  destruct (ti_Service twinInterface).
  - destruct (createServiceTriggerBindings_run twinInterface [] w tr0)
      as (flow & more & w1 & added & E & Hnu & Hlist & Hret).
    rewrite E. simpl. destruct flow as [err|].
    + unfold ret. intros [= <- <- <-]. exists added. split; [reflexivity|].
      intros k ns sel Hin.
      destruct (Hlist k ns sel Hin) as (earlier & -> & [(-> & -> & [= ->]) | [_ ?]]);
        [|discriminate].
      exists earlier. simpl. split; [reflexivity|]. split; [done|].
      split; [|done]. intros [?|?]; done.
    + destruct more as [|first rest].
      * unfold updateTwinInterface, Update_TwinInterface, bind, ret.
        call_step. destruct err; simpl; intros [= <- <- <-];
          (eexists; rewrite <- app_assoc; split; [reflexivity|];
           intros k ns sel Hin; trace_cases Hin;
           destruct (Hlist k ns sel Hin) as (earlier & Hnil & _); by destruct earlier).
      * unfold ret. intros [= <- <- <-]. exists added. split; [reflexivity|].
        intros k ns sel Hin.
        destruct (Hlist k ns sel Hin) as (earlier & Hmore & [(_ & _ & ?) | [Hsel _]]);
          [discriminate|].
        exists earlier. simpl. split; [assumption|]. split.
        { intros ->. simpl in Hmore. by injection Hmore as -> _. }
        split; [done|].
        intros -> ->. destruct Hsel as [?|Hsel]; [discriminate|].
        symmetry in Hsel. by apply interfaceQueueSelector_not_eventStore in Hsel.
  - simpl. unfold updateTwinInterface, Update_TwinInterface, bind, ret.
    call_step. destruct err; simpl; intros [= <- <- <-];
      (eexists; split; [reflexivity|]; intros k ns sel Hin; trace_cases Hin).
Qed.

(** ** The claims that hold for every client *)

(** C6: an interface without a declared compute service.  The pass makes
    exactly two calls, the fetch of the interface and the update of its
    status: no create of a trigger, compute service or binding, and no
    [List] to resolve a dependency.  The phase is set to [Running], the
    error list is empty and nil is returned. *)
Theorem no_service_only_fetch_and_update req w twinInterface w1 p w' tr :
  clientGetTwinInterface (fst req, snd req) w = (inl twinInterface, w1) →
  ti_Service twinInterface = None →
  TwinInterfaceReconciler_Reconcile req (w, []) = (p, (w', tr)) →
  ti_Status (object p) = TwinInterfacePhaseRunning
  ∧ List.map fst tr
    = [CallGetTwinInterface (fst req, snd req); CallUpdateTwinInterface (object p)]
  ∧ accumulated p = []
  ∧ returned p = None.
Proof.
  intros Hget Hnone.
  unfold TwinInterfaceReconciler_Reconcile, bind, Get_TwinInterface.
  rewrite Hget. simpl.
  unfold createUpdateTwinInterface, bind. rewrite Hnone. simpl.
  unfold updateTwinInterface, Update_TwinInterface, bind, ret.
  call_step. destruct err; simpl; intros [= <- <- <-]; done.
Qed.

(** C5: an instance whose parent interface cannot be fetched.  The error of
    that fetch is returned, the calls of the pass are the two fetches and
    nothing else (no create of a binding, no update), and the instance is
    left as it was fetched, phase and labels included. *)
Theorem unresolved_parent_is_fatal req w twinInstance w1 err w2 p w' tr :
  clientGetTwinInstance (fst req, snd req) w = (inl twinInstance, w1) →
  clientGetTwinInterface
    (Namespace (tn_meta twinInstance), tn_Interface twinInstance) w1 = (inr err, w2) →
  TwinInstanceReconciler_Reconcile req (w, []) = (p, (w', tr)) →
  returned p = Some err
  ∧ object p = twinInstance
  ∧ List.map fst tr
    = [CallGetTwinInstance (fst req, snd req);
       CallGetTwinInterface (Namespace (tn_meta twinInstance), tn_Interface twinInstance)]
  ∧ w' = w2.
Proof.
  intros Hget Hparent.
  unfold TwinInstanceReconciler_Reconcile, bind, Get_TwinInstance, Get_TwinInterface.
  rewrite Hget. simpl. rewrite Hparent. simpl. unfold ret.
  intros [= <- <- <-]. done.
Qed.

(** C9: when the status update of a pass answers with an error, [Reconcile]
    returns nil all the same, in the interface reconciler and in the
    instance reconciler. *)
Theorem failed_status_update_returns_nil reqI wI pI sI reqN wN pN sN :
  TwinInterfaceReconciler_Reconcile reqI (wI, []) = (pI, sI) →
  TwinInstanceReconciler_Reconcile reqN (wN, []) = (pN, sN) →
  (∀ i e, (CallUpdateTwinInterface i, Replied (Some e)) ∈ snd sI → returned pI = None)
  ∧ (∀ n e, (CallUpdateTwinInstance n, Replied (Some e)) ∈ snd sN → returned pN = None).
Proof.
  destruct sI as [wI' trI], sN as [wN' trN]. intros HI HN. simpl. split.
  - intros i e Hin.
    apply TwinInterfaceReconciler_Reconcile_run in HI
      as [(err & _ & -> & _) | (twinInterface & w1 & _ & Hrun)].
    { trace_cases Hin. }
    apply createUpdateTwinInterface_run in Hrun
      as (added & -> & [[Hnu _] | (pre & err & -> & Hnu & Hret & _)]);
      [|assumption].
    exfalso. trace_cases Hin.
    rewrite Forall_forall in Hnu. by specialize (Hnu _ Hin).
  - intros n e Hin.
    apply TwinInstanceReconciler_Reconcile_run in HN
      as [(err & _ & -> & _)
         | (twinInstance & w1 & _ &
            [(err & _ & -> & _) | (twinInterface & w2 & _ & Hrun)])].
    { trace_cases Hin. }
    { trace_cases Hin. }
    apply createUpdateTwinInstance_run in Hrun
      as (added & -> & [[Hnu _] | (pre & err & -> & Hnu & Hret & _)]);
      [|assumption].
    exfalso. trace_cases Hin.
    rewrite Forall_forall in Hnu. by specialize (Hnu _ Hin).
Qed.

(** C10: the update a pass issues carries the object the pass leaves
    behind, and the label map of that object is the single entry
    [ktwin/twin-interface], whatever labels the object had.  For an
    instance the value is the name of the instance itself, whatever its
    parent interface is called. *)
Theorem identity_label_replaces_labels
    twinInterface wI pI sI twinInstance parent wN pN sN :
  createUpdateTwinInterface twinInterface (wI, []) = (pI, sI) →
  createUpdateTwinInstance twinInstance parent (wN, []) = (pN, sN) →
  (∀ j r, (CallUpdateTwinInterface j, r) ∈ snd sI →
     j = object pI
     ∧ Labels (ti_meta j) = {[ "ktwin/twin-interface" := Name (ti_meta twinInterface) ]})
  ∧ (∀ j r, (CallUpdateTwinInstance j, r) ∈ snd sN →
       j = object pN
       ∧ Labels (tn_meta j) = {[ "ktwin/twin-interface" := Name (tn_meta twinInstance) ]}
       ∧ (Name (ti_meta parent) ≠ Name (tn_meta twinInstance) →
          Labels (tn_meta j) !! "ktwin/twin-interface" ≠ Some (Name (ti_meta parent)))).
Proof.
  destruct sI as [wI' trI], sN as [wN' trN]. intros HI HN. simpl. split.
  - intros j r Hin.
    apply createUpdateTwinInterface_run in HI
      as (added & -> & [[Hnu _] | (pre & err & -> & Hnu & _ & _ & Hobj)]).
    { exfalso. simpl in Hin. rewrite Forall_forall in Hnu. by specialize (Hnu _ Hin). }
    simpl in Hin. trace_cases Hin.
    + exfalso. rewrite Forall_forall in Hnu. by specialize (Hnu _ Hin).
    + injection Hin as -> _. split; [reflexivity|]. by rewrite Hobj.
  - intros j r Hin.
    apply createUpdateTwinInstance_run in HN
      as (added & -> & [[Hnu _] | (pre & err & -> & Hnu & _ & _ & Hobj)]).
    { exfalso. simpl in Hin. rewrite Forall_forall in Hnu. by specialize (Hnu _ Hin). }
    simpl in Hin. trace_cases Hin.
    + exfalso. rewrite Forall_forall in Hnu. by specialize (Hnu _ Hin).
    + injection Hin as -> _. split; [reflexivity|]. rewrite Hobj. simpl.
      split; [reflexivity|]. rewrite lookup_singleton_eq. congruence.
Qed.

(** C4, as amended: when a [List] of the pass answers nil with no items,
    that nil is the last element of the error list, which is therefore not
    empty.  When nothing was accumulated before it, nil is the first
    element and [Reconcile] returns nil.  For the exchange and the
    interface queue the phase is set to [Failed] and the first element of
    the list is what is returned. *)
Theorem empty_list_appends_nil req w p w' tr k ns sel :
  TwinInterfaceReconciler_Reconcile req (w, []) = (p, (w', tr)) →
  (CallList k ns sel, Listed [] None) ∈ tr →
  ∃ earlier, accumulated p = earlier ++ [None]
    ∧ (earlier = [] → head (accumulated p) = Some None ∧ returned p = None)
    ∧ (k = RabbitExchange ∨ sel ≠ eventStoreSelector →
         ti_Status (object p) = TwinInterfacePhaseFailed
         ∧ head (accumulated p) = Some (returned p)).
Proof.
  intros Hrun Hin.
  apply TwinInterfaceReconciler_Reconcile_run in Hrun
    as [(err & _ & -> & _) | (twinInterface & w1 & _ & Hrun)].
  { trace_cases Hin. }
  apply createUpdateTwinInterface_empty_list in Hrun as (added & -> & Hlist).
  trace_cases Hin.
  destruct (Hlist _ _ _ Hin) as (earlier & Hacc & Hnil & Hfailed & _).
  exists earlier. split; [assumption|]. split; [|assumption].
  intros ->. split; [by rewrite Hacc | by apply Hnil].
Qed.

(** A pass in which the [List] of the default exchange is reached and
    answers no items: the phase is set to [Failed], no binding is asked for,
    and the compute service and the trigger have been asked for. *)
Lemma missing_exchange_fails_pass req w p w' tr ns sel err :
  TwinInterfaceReconciler_Reconcile req (w, []) = (p, (w', tr)) →
  (CallList RabbitExchange ns sel, Listed [] err) ∈ tr →
  ti_Status (object p) = TwinInterfacePhaseFailed
  ∧ (∀ b r, (CallCreate RabbitBinding b, r) ∉ tr)
  ∧ (∃ o r, (CallCreate KnativeService o, r) ∈ tr)
  ∧ (∃ o r, (CallCreate KnativeTrigger o, r) ∈ tr).
Proof.
  intros Hrun Hin.
  apply TwinInterfaceReconciler_Reconcile_run in Hrun
    as [(e & _ & -> & _) | (twinInterface & w1 & _ & Hrun)].
  { trace_cases Hin. }
  revert Hrun. unfold createUpdateTwinInterface, bind.
  destruct (ti_Service twinInterface).
  2:{ simpl. unfold updateTwinInterface, Update_TwinInterface, bind, ret.
      call_step. destruct err0; simpl; intros [= <- <- <-]; trace_cases Hin. }
  unfold createServiceTriggerBindings, bind, Create, Get, List_, ret.
  call_step. call_step. call_step. call_step. simpl. rewrite !if_kept.
  items_cases.
  { intros [= <- <- <-]. trace_cases Hin. }
  call_step. simpl. rewrite !if_notNil. items_cases.
  { match goal with
    | |- context [match ?l ++ [?x] with [] => _ | _ :: _ => _ end] =>
        destruct (l ++ [x]) as [|first rest] eqn:Hl;
          [apply app_eq_nil in Hl as [_ Hl]; discriminate Hl|]
    end.
    intros [= <- <- <-]. split; [reflexivity|]. split.
    - intros b r Hb. trace_cases Hb.
    - split; do 2 eexists;
        [apply list_elem_of_further, list_elem_of_here
        |do 2 apply list_elem_of_further; apply list_elem_of_here]. }
  call_step. simpl. items_cases.
  { match goal with
    | |- context [match ?l ++ [?x] with [] => _ | _ :: _ => _ end] =>
        destruct (l ++ [x]) as [|first rest] eqn:Hl;
          [apply app_eq_nil in Hl as [_ Hl]; discriminate Hl|]
    end.
    intros [= <- <- <-]. trace_cases Hin. }
  loop_step. loop_step. intros Hrun.
  assert (∃ q, tr = (([(CallGetTwinInterface (fst req, snd req), Replied None);
                      (CallCreate KnativeService (GetService twinInterface), Replied err0);
                      (CallCreate KnativeTrigger (GetTwinInterfaceTrigger twinInterface),
                       Replied err1);
                      (CallGet KnativeTrigger
                         (Namespace (meta (GetTwinInterfaceTrigger twinInterface)),
                          Name (meta (GetTwinInterfaceTrigger twinInterface))),
                       Replied (errOf got));
                      (CallList RabbitQueue (Namespace (ti_meta twinInterface))
                         {["eventing.knative.dev/trigger" := "event-store-trigger"]},
                       Listed (o :: items) err2);
                      (CallList RabbitExchange (Namespace (ti_meta twinInterface))
                         {["eventing.knative.dev/broker" := "ktwin"]},
                       Listed (o0 :: items0) err3);
                      (CallList RabbitQueue (Namespace (ti_meta twinInterface))
                         (<["eventing.knative.dev/trigger" := Name (ti_meta twinInterface)]>
                            {["eventing.knative.dev/broker" := "ktwin"]}),
                       Listed (o1 :: items1) err4)] ++ added) ++ added0) ++ q
               ∧ Forall (fun ev => isUpdate ev = true) q) as (q & -> & Hq).
  { revert Hrun. simpl.
    match goal with
    | |- context [match ?l with [] => _ | _ :: _ => _ end] => destruct l
    end.
    - unfold updateTwinInterface, Update_TwinInterface, bind, ret. call_step.
      destruct err5; simpl; intros [= <- <- <-]; eexists;
        (split; [reflexivity | by repeat constructor]).
    - unfold ret. intros [= <- <- <-]. exists []. by rewrite app_nil_r. }
  exfalso. trace_cases Hin.
  - eauto using created_not_listed.
  - eauto using created_not_listed.
  - rewrite Forall_forall in Hq. by specialize (Hq _ Hin).
Qed.

(** *** Already-exists on a create *)

Lemma agree_ret {A : Type} (a : A) : agree (W:=W) (ret a) (ret a).
Proof. by intros w tr1 tr2. Qed.

Lemma agree_bind {A B : Type} (m1 m2 : @M W A) (k1 k2 : A → @M W B) :
  agree m1 m2 → (∀ a, agree (k1 a) (k2 a)) → agree (bind m1 k1) (bind m2 k2).
Proof.
  intros Hm Hk w tr1 tr2. unfold bind.
  destruct (Hm w tr1 tr2) as [Ha Hw].
  destruct (m1 (w, tr1)) as [a1 [w1 t1]], (m2 (w, tr2)) as [a2 [w2 t2]].
  simpl in Ha, Hw. subst a2 w2. apply Hk.
Qed.

Lemma agree_Create_bind {B : Type} k o (k1 k2 : option error → @M W B) :
  (∀ err, agree (k1 err) (k2 (if IsAlreadyExists err then None else err))) →
  agree (bind (Create (Client0:=cl) k o) k1)
        (bind (Create (Client0:=existsAsCreated cl) k o) k2).
Proof.
  intros Hk w tr1 tr2. unfold bind, Create. simpl.
  destruct (clientCreate k o w) as [err w1]. apply Hk.
Qed.

Lemma agree_Get k key :
  agree (Get (Client0:=cl) k key) (Get (Client0:=existsAsCreated cl) k key).
Proof. intros w tr1 tr2. unfold Get. simpl. by destruct (clientGet k key w). Qed.

Lemma agree_List k ns sel :
  agree (List_ (Client0:=cl) k ns sel) (List_ (Client0:=existsAsCreated cl) k ns sel).
Proof. intros w tr1 tr2. unfold List_. simpl. by destruct (clientList k ns sel w). Qed.

Lemma agree_Get_TwinInterface key :
  agree (Get_TwinInterface (Client0:=cl) key)
        (Get_TwinInterface (Client0:=existsAsCreated cl) key).
Proof.
  intros w tr1 tr2. unfold Get_TwinInterface. simpl.
  by destruct (clientGetTwinInterface key w).
Qed.

Lemma agree_Get_TwinInstance key :
  agree (Get_TwinInstance (Client0:=cl) key)
        (Get_TwinInstance (Client0:=existsAsCreated cl) key).
Proof.
  intros w tr1 tr2. unfold Get_TwinInstance. simpl.
  by destruct (clientGetTwinInstance key w).
Qed.

Lemma agree_updateTwinInterface i :
  agree (updateTwinInterface (Client0:=cl) i)
        (updateTwinInterface (Client0:=existsAsCreated cl) i).
Proof.
  intros w tr1 tr2. unfold updateTwinInterface, Update_TwinInterface, bind, ret. simpl.
  destruct (clientUpdateTwinInterface i w) as [err w1]. by destruct err.
Qed.

Lemma agree_updateTwinInstance i :
  agree (updateTwinInstance (Client0:=cl) i)
        (updateTwinInstance (Client0:=existsAsCreated cl) i).
Proof.
  intros w tr1 tr2. unfold updateTwinInstance, Update_TwinInstance, bind, ret. simpl.
  destruct (clientUpdateTwinInstance i w) as [err w1]. by destruct err.
Qed.

(** The guard of a create site does not tell already-exists from nil. *)
Lemma guard_existsAsCreated resultErrors err :
  (if notNil (if IsAlreadyExists err then None else err)
      && negb (IsAlreadyExists (if IsAlreadyExists err then None else err))
   then resultErrors ++ [if IsAlreadyExists err then None else err]
   else resultErrors)
  = (if notNil err && negb (IsAlreadyExists err)
     then resultErrors ++ [err] else resultErrors).
Proof. by destruct err as [[| |msg]|]. Qed.

Lemma agree_createBindings bindings :
  ∀ resultErrors,
    agree (createBindings (Client0:=cl) bindings resultErrors)
          (createBindings (Client0:=existsAsCreated cl) bindings resultErrors).
Proof.
  induction bindings as [|b bs IH]; intros errs; simpl.
  - apply agree_ret.
  - apply agree_Create_bind. intros err. rewrite guard_existsAsCreated. apply IH.
Qed.

Lemma agree_createServiceTriggerBindings twinInterface resultErrors :
  agree (createServiceTriggerBindings (Client0:=cl) twinInterface resultErrors)
        (createServiceTriggerBindings (Client0:=existsAsCreated cl) twinInterface resultErrors).
Proof.
  unfold createServiceTriggerBindings.
  apply agree_Create_bind. intros err. rewrite guard_existsAsCreated.
  apply agree_Create_bind. intros err0. rewrite guard_existsAsCreated.
  apply agree_bind; [apply agree_Get|]. intros got.
  apply agree_bind; [apply agree_List|]. intros [[|eventStoreQueue ?] err1].
  { apply agree_ret. }
  apply agree_bind; [apply agree_List|]. intros [[|brokerExchange ?] err2].
  { apply agree_ret. }
  apply agree_bind; [apply agree_List|]. intros [[|twinInterfaceQueue ?] err3].
  { apply agree_ret. }
  apply agree_bind; [apply agree_createBindings|]. intros errs.
  apply agree_bind; [apply agree_createBindings|]. intros errs'.
  apply agree_ret.
Qed.

(** C8: an already-exists answer to a create is treated as success.  Let
    the client answer nil instead of already-exists to every create: the
    pass of either reconciler is the same, in the error list it accumulates,
    in the object and the phase it leaves, in the error it returns, and in
    the world it leaves. *)
Theorem already_exists_is_success req w :
  (fst (TwinInterfaceReconciler_Reconcile (Client0:=cl) req (w, []))
   = fst (TwinInterfaceReconciler_Reconcile (Client0:=existsAsCreated cl) req (w, []))
   ∧ fst (snd (TwinInterfaceReconciler_Reconcile (Client0:=cl) req (w, [])))
     = fst (snd (TwinInterfaceReconciler_Reconcile (Client0:=existsAsCreated cl) req (w, []))))
  ∧ (fst (TwinInstanceReconciler_Reconcile (Client0:=cl) req (w, []))
     = fst (TwinInstanceReconciler_Reconcile (Client0:=existsAsCreated cl) req (w, []))
     ∧ fst (snd (TwinInstanceReconciler_Reconcile (Client0:=cl) req (w, [])))
       = fst (snd (TwinInstanceReconciler_Reconcile (Client0:=existsAsCreated cl) req (w, [])))).
Proof.
  split.
  - revert w. 
    assert (agree (TwinInterfaceReconciler_Reconcile (Client0:=cl) req)
                  (TwinInterfaceReconciler_Reconcile (Client0:=existsAsCreated cl) req))
      as Hagree; [|intros w; apply Hagree].
    unfold TwinInterfaceReconciler_Reconcile.
    apply agree_bind; [apply agree_Get_TwinInterface|]. intros [i|err].
    + unfold createUpdateTwinInterface.
      apply agree_bind.
      { destruct (ti_Service i);
          [apply agree_createServiceTriggerBindings | apply agree_ret]. }
      intros [[err|] [|first rest]]; try apply agree_ret.
      apply agree_bind; [apply agree_updateTwinInterface|].
      intros err. destruct (notNil err); apply agree_ret.
    + destruct (IsNotFound (Some err)); apply agree_ret.
  - revert w.
    assert (agree (TwinInstanceReconciler_Reconcile (Client0:=cl) req)
                  (TwinInstanceReconciler_Reconcile (Client0:=existsAsCreated cl) req))
      as Hagree; [|intros w; apply Hagree].
    unfold TwinInstanceReconciler_Reconcile.
    apply agree_bind; [apply agree_Get_TwinInstance|]. intros [n|err].
    + apply agree_bind; [apply agree_Get_TwinInterface|]. intros [i|err].
      * unfold createUpdateTwinInstance.
        apply agree_bind; [apply agree_createBindings|].
        intros [|first rest]; [|apply agree_ret].
        apply agree_bind; [apply agree_updateTwinInstance|].
        intros err. destruct (notNil err); apply agree_ret.
      * apply agree_ret.
    + destruct (IsNotFound (Some err)); apply agree_ret.
Qed.

(** ** Further properties, for every client *)

(** A loop of creates asks for every binding, in order, whatever each create
    answers, and appends the answers that pass the guard, in order. *)
Lemma createBindings_spec bindings :
  ∀ resultErrors w tr, ∃ replies w',
    createBindings bindings resultErrors (w, tr)
    = (resultErrors ++ List.filter kept replies, (w', tr ++ createEvents bindings replies))
    ∧ length replies = length bindings.
Proof.
  induction bindings as [|b bs IH]; intros errs w tr; simpl.
  - exists [], w. by rewrite !app_nil_r.
  - unfold bind, Create. call_step. rewrite if_kept.
    destruct (IH (errs ++ keep err) w0 (tr ++ [(CallCreate RabbitBinding b, Replied err)]))
      as (replies & w' & -> & Hlen).
    exists (err :: replies), w'. split; [|simpl; by rewrite Hlen].
    rewrite <- !app_assoc. unfold createEvents. simpl. unfold keep.
    by destruct (kept err).
Qed.

Ltac loop_spec_step :=
  match goal with
  | |- context [createBindings ?bs ?errs (?w, ?tr)] =>
      let replies := fresh "replies" in let w' := fresh "w" in
      let E := fresh "Hloop" in let Hlen := fresh "Hlen" in
      destruct (createBindings_spec bs errs w tr) as (replies & w' & E & Hlen);
      rewrite E; clear E
  end.

(** The block guarded by [Spec.Service != nil] takes one of the four ways. *)
Lemma createServiceTriggerBindings_shape twinInterface resultErrors w tr :
  ∃ flow more w' added,
    createServiceTriggerBindings twinInterface resultErrors (w, tr)
    = ((flow, resultErrors ++ more), (w', tr ++ added))
    ∧ blockShape twinInterface flow more added.
Proof.
  unfold createServiceTriggerBindings, bind, Create, Get, List_, ret.
  call_step. call_step. call_step. call_step. simpl. rewrite !if_kept.
  items_cases.
  { pose proof (shapeNoEventStoreQueue twinInterface err err0 got err1) as Hs.
    unfold openingErrors, opening, listEventStoreQueue in Hs.
    rewrite <- ?app_assoc in Hs. simpl in Hs.
    do 4 eexists. rewrite <- !app_assoc. simpl. split; [reflexivity | exact Hs]. }
  call_step. simpl. rewrite !if_notNil. items_cases.
  { pose proof (shapeNoExchange twinInterface err err0 got o items err1 err2) as Hs.
    unfold openingErrors, opening, listEventStoreQueue, listExchange in Hs.
    rewrite <- ?app_assoc in Hs. simpl in Hs.
    do 4 eexists. rewrite <- !app_assoc. simpl. split; [reflexivity | exact Hs]. }
  call_step. simpl. items_cases.
  { pose proof (shapeNoInterfaceQueue twinInterface err err0 got o items err1
                  o0 items0 err2 err3) as Hs.
    unfold openingErrors, opening, listEventStoreQueue, listExchange,
      listInterfaceQueue in Hs.
    rewrite <- ?app_assoc in Hs. simpl in Hs.
    do 4 eexists. rewrite <- !app_assoc. simpl. split; [reflexivity | exact Hs]. }
  loop_spec_step. loop_spec_step.
  pose proof (shapeBindings twinInterface err err0 got o items err1 o0 items0 err2
                o1 items1 err3 replies replies0 Hlen Hlen0) as Hs.
  unfold openingErrors, opening, listEventStoreQueue, listExchange,
    listInterfaceQueue in Hs.
  rewrite <- ?app_assoc in Hs. simpl in Hs.
  do 4 eexists. rewrite <- !app_assoc. simpl. split; [reflexivity | exact Hs].
Qed.

(** A pass over an interface is the block, when a compute service is
    declared, followed by one of the three ends. *)
Lemma createUpdateTwinInterface_shape twinInterface w tr0 p w' tr :
  createUpdateTwinInterface twinInterface (w, tr0) = (p, (w', tr)) →
  ∃ flow added closing,
    match ti_Service twinInterface with
    | Some _ => blockShape twinInterface flow (accumulated p) added
    | None => flow = FallsThrough ∧ accumulated p = [] ∧ added = []
    end
    ∧ passEnd twinInterface flow (accumulated p) closing (returned p) (object p)
    ∧ tr = tr0 ++ added ++ closing.
Proof.
  unfold createUpdateTwinInterface, bind.
  assert (∃ flow more w1 added,
    match ti_Service twinInterface with
    | Some _ => createServiceTriggerBindings twinInterface []
    | None => ret (FallsThrough, [])
    end (w, tr0) = ((flow, more), (w1, tr0 ++ added))
    ∧ match ti_Service twinInterface with
      | Some _ => blockShape twinInterface flow more added
      | None => flow = FallsThrough ∧ more = [] ∧ added = []
      end) as (flow & more & w1 & added & -> & Hshape).
  { destruct (ti_Service twinInterface).
    - destruct (createServiceTriggerBindings_shape twinInterface [] w tr0)
        as (flow & more & w1 & added & E & Hshape).
      by exists flow, more, w1, added.
    - exists FallsThrough, [], w, []. by rewrite app_nil_r. }
  simpl. destruct flow as [err|].
  - unfold ret. intros [= <- <- <-]. exists (Returns err), added, []. simpl.
    rewrite app_nil_r. split; [assumption|]. split; [constructor | reflexivity].
  - destruct more as [|first rest].
    + unfold updateTwinInterface, Update_TwinInterface, bind, ret.
      call_step. destruct err; simpl; intros [= <- <- <-];
        (exists FallsThrough, added; eexists; simpl;
         split; [assumption|]; split; [constructor | by rewrite <- app_assoc]).
    + unfold ret. intros [= <- <- <-]. exists FallsThrough, added, []. simpl.
      rewrite app_nil_r. split; [assumption|]. split; [constructor | reflexivity].
Qed.

(** A pass over an instance is the loop of creates followed by one of the
    two ends. *)
Lemma createUpdateTwinInstance_shape twinInstance twinInterface w tr0 p w' tr :
  createUpdateTwinInstance twinInstance twinInterface (w, tr0) = (p, (w', tr)) →
  ∃ replies closing,
    length replies = length (GetMQQTDispatcherBindings twinInstance)
    ∧ accumulated p = List.filter kept replies
    ∧ instanceEnd twinInstance (accumulated p) closing (returned p) (object p)
    ∧ tr = tr0 ++ createEvents (GetMQQTDispatcherBindings twinInstance) replies ++ closing.
Proof.
  unfold createUpdateTwinInstance, bind. loop_spec_step. simpl.
  destruct (List.filter kept replies) as [|first rest] eqn:Hkept.
  - unfold updateTwinInstance, Update_TwinInstance, bind, ret.
    call_step. destruct err; simpl; intros [= <- <- <-];
      (exists replies; eexists; simpl;
       split; [assumption|]; split; [by rewrite Hkept|];
       split; [constructor | by rewrite <- app_assoc]).
  - unfold ret. intros [= <- <- <-]. exists replies, []. simpl.
    rewrite app_nil_r. split; [assumption|]. split; [by rewrite Hkept|].
    split; [constructor | reflexivity].
Qed.

(** *** The events of a loop of creates *)

Lemma kept_false err : kept err = false ↔ err = None ∨ err = Some AlreadyExists.
Proof.
  unfold kept. destruct err as [[| |msg]|]; simpl; split;
    first [discriminate | by intros [?|?] | by right | by left | done].
Qed.

Lemma kept_notNil err : kept err = true → err ≠ None.
Proof. by destruct err. Qed.

Lemma filter_kept_nil (replies : list (option error)) :
  List.filter kept replies = [] ↔ Forall (fun err => kept err = false) replies.
Proof.
  induction replies as [|e replies IH]; simpl.
  - split; [constructor | reflexivity].
  - destruct (kept e) eqn:He.
    + split; [discriminate|]. intros Hall. apply Forall_cons in Hall as [? _]. congruence.
    + rewrite IH. split; [by constructor|]. by intros [_ ?]%Forall_cons.
Qed.

Lemma filter_kept_head (replies : list (option error)) first rest :
  List.filter kept replies = first :: rest → kept first = true ∧ first ∈ replies.
Proof.
  intros Hf.
  assert (List.In first (List.filter kept replies)) as Hin by (rewrite Hf; by left).
  apply List.filter_In in Hin as [Hin Hk]. split; [assumption|].
  by apply list_elem_of_In.
Qed.

Lemma createEvents_elem bindings replies c r :
  (c, r) ∈ createEvents bindings replies →
  ∃ b e, c = CallCreate RabbitBinding b ∧ r = Replied e ∧ b ∈ bindings ∧ e ∈ replies.
Proof.
  unfold createEvents. revert replies.
  induction bindings as [|b bs IH]; intros [|e replies]; simpl; try by intros ?%elem_of_nil.
  intros [[= -> ->]|Hin]%elem_of_cons.
  - exists b, e. repeat split; by left.
  - destruct (IH _ Hin) as (b' & e' & -> & -> & ? & ?).
    exists b', e'. repeat split; by right.
Qed.

Lemma createEvents_reply bindings replies e :
  length replies = length bindings → e ∈ replies →
  ∃ b, b ∈ bindings ∧ (CallCreate RabbitBinding b, Replied e) ∈ createEvents bindings replies.
Proof.
  unfold createEvents. revert replies.
  induction bindings as [|b bs IH]; intros [|e' replies]; simpl; try done.
  - by intros _ ?%elem_of_nil.
  - intros [= Hlen] [->|Hin]%elem_of_cons.
    + exists b. split; by left.
    + destruct (IH _ Hlen Hin) as (b' & ? & ?). exists b'. split; by right.
Qed.

Lemma createEvents_calls bindings replies :
  length replies = length bindings →
  List.map fst (createEvents bindings replies) = List.map (CallCreate RabbitBinding) bindings.
Proof.
  unfold createEvents. revert replies.
  induction bindings as [|b bs IH]; intros [|e replies]; simpl; try done.
  intros [= Hlen]. by rewrite IH.
Qed.

Lemma createEvents_replies bindings replies :
  length replies = length bindings →
  List.map replyErr (createEvents bindings replies) = replies.
Proof.
  unfold createEvents. revert replies.
  induction bindings as [|b bs IH]; intros [|e replies]; simpl; try done.
  intros [= Hlen]. by rewrite IH.
Qed.

Lemma createEvents_created bindings replies :
  List.filter isCreate (createEvents bindings replies) = createEvents bindings replies.
Proof.
  unfold createEvents. revert replies.
  induction bindings as [|b bs IH]; intros [|e replies]; simpl; try done.
  unfold isCreate at 1. simpl. by rewrite IH.
Qed.

Lemma createEvents_not_update bindings replies :
  List.filter isUpdate (createEvents bindings replies) = [].
Proof.
  unfold createEvents. revert replies.
  induction bindings as [|b bs IH]; intros [|e replies]; simpl; try done.
Qed.

(** *** The instance reconciler *)

(** Every dispatch binding of the instance is asked for, once and in the
    order the generator gives them, whatever the creates answer; and the
    error list is the answers that pass the guard, in that order. *)
Theorem instance_pass_attempts_every_binding twinInstance twinInterface w p w' tr :
  createUpdateTwinInstance twinInstance twinInterface (w, []) = (p, (w', tr)) →
  List.map fst (List.filter isCreate tr)
  = List.map (CallCreate RabbitBinding) (GetMQQTDispatcherBindings twinInstance)
  ∧ accumulated p = List.filter kept (List.map replyErr (List.filter isCreate tr)).
Proof.
  intros Hrun.
  apply createUpdateTwinInstance_shape in Hrun
    as (replies & closing & Hlen & Hacc & Hend & ->).
  assert (List.filter isCreate closing = []) as Hclosing by (by destruct Hend).
  simpl. rewrite List.filter_app, Hclosing, app_nil_r, createEvents_created.
  by rewrite createEvents_calls, createEvents_replies.
Qed.

(** The phase an instance pass leaves is [Running] exactly when every create
    answered nil or already-exists; then the pass ends with the update of the
    object it leaves and returns nil.  Otherwise the phase is [Failed], a
    non-nil error is returned, no update is issued and the labels are left as
    they were. *)
Theorem instance_running_iff_creates_benign twinInstance twinInterface w p w' tr :
  createUpdateTwinInstance twinInstance twinInterface (w, []) = (p, (w', tr)) →
  (tn_Status (object p) = TwinInstancePhaseRunning
   ↔ ∀ b e, (CallCreate RabbitBinding b, Replied e) ∈ tr →
            e = None ∨ e = Some AlreadyExists)
  ∧ (tn_Status (object p) = TwinInstancePhaseRunning →
       returned p = None
       ∧ ∃ e, last tr = Some (CallUpdateTwinInstance (object p), Replied e))
  ∧ (tn_Status (object p) ≠ TwinInstancePhaseRunning →
       tn_Status (object p) = TwinInstancePhaseFailed
       ∧ returned p ≠ None
       ∧ List.filter isUpdate tr = []
       ∧ Labels (tn_meta (object p)) = Labels (tn_meta twinInstance)).
Proof.
  intros Hrun.
  apply createUpdateTwinInstance_shape in Hrun
    as (replies & closing & Hlen & Hacc & Hend & ->).
  simpl. destruct Hend as [first rest | err].
  - symmetry in Hacc. apply filter_kept_head in Hacc as [Hkept Hin].
    rewrite app_nil_r. split; [split|split].
    + discriminate.
    + intros Hbenign. exfalso.
      destruct (createEvents_reply _ _ _ Hlen Hin) as (b & _ & Hev).
      apply Hbenign, kept_false in Hev. congruence.
    + discriminate.
    + intros _. split; [reflexivity|]. split; [by apply kept_notNil|].
      by rewrite createEvents_not_update.
  - split; [split|split].
    + intros _ b e Hin. apply elem_of_app in Hin as [Hin|Hin]; [|trace_cases Hin].
      apply createEvents_elem in Hin as (b' & e' & [= <-] & [= <-] & _ & He).
      apply kept_false. symmetry in Hacc. rewrite filter_kept_nil in Hacc.
      rewrite Forall_forall in Hacc. by apply Hacc.
    + reflexivity.
    + intros _. split; [reflexivity|]. exists err. by rewrite last_snoc.
    + done.
Qed.

Lemma sameDeclaration_refl_every i : sameDeclaration i i.
Proof. by repeat split. Qed.

(** *** Both reconcilers: what a pass leaves of the object *)

(** A pass never changes the name, the namespace or the spec of the object
    it reconciles, and a pass that issues no update leaves its labels as they
    were. *)
Theorem pass_changes_status_and_labels_only
    twinInterface wI twinInstance parent wN :
  let passI := createUpdateTwinInterface twinInterface (wI, []) in
  let passN := createUpdateTwinInstance twinInstance parent (wN, []) in
  (sameDeclaration twinInterface (object (fst passI))
   ∧ (List.filter isUpdate (snd (snd passI)) = [] →
      Labels (ti_meta (object (fst passI))) = Labels (ti_meta twinInterface)))
  ∧ (Name (tn_meta (object (fst passN))) = Name (tn_meta twinInstance)
     ∧ Namespace (tn_meta (object (fst passN))) = Namespace (tn_meta twinInstance)
     ∧ tn_Interface (object (fst passN)) = tn_Interface twinInstance
     ∧ (List.filter isUpdate (snd (snd passN)) = [] →
        Labels (tn_meta (object (fst passN))) = Labels (tn_meta twinInstance))).
Proof.
  intros passI passN. split.
  - destruct passI as [p [w' tr]] eqn:Hrun. subst passI.
    apply createUpdateTwinInterface_shape in Hrun
      as (flow & added & closing & _ & Hend & ->).
    simpl. destruct Hend; simpl.
    + split; [apply sameDeclaration_refl_every | done].
    + split; [by repeat split | done].
    + split; [by repeat split|]. rewrite List.filter_app.
      intros Hnil. apply app_eq_nil in Hnil as [_ Hnil]. discriminate Hnil.
  - destruct passN as [p [w' tr]] eqn:Hrun. subst passN.
    apply createUpdateTwinInstance_shape in Hrun
      as (replies & closing & _ & _ & Hend & ->).
    simpl. destruct Hend; simpl.
    + done.
    + do 3 (split; [reflexivity|]). rewrite List.filter_app.
      intros Hnil. apply app_eq_nil in Hnil as [_ Hnil]. discriminate Hnil.
Qed.

(** *** The interface reconciler: the order of its calls *)

(** With a compute service declared, a pass always asks for the compute
    service, asks for the trigger, fetches the trigger and lists the
    event-store queue, in this order, whatever each of them answers. *)
Theorem interface_opening_calls_always_made twinInterface service w :
  ti_Service twinInterface = Some service →
  ∃ rest,
    List.map fst (snd (snd (createUpdateTwinInterface twinInterface (w, []))))
    = [ CallCreate KnativeService (GetService twinInterface);
        CallCreate KnativeTrigger (GetTwinInterfaceTrigger twinInterface);
        CallGet KnativeTrigger
          (Namespace (meta (GetTwinInterfaceTrigger twinInterface)),
           Name (meta (GetTwinInterfaceTrigger twinInterface)));
        CallList RabbitQueue (Namespace (ti_meta twinInterface)) eventStoreSelector ]
      ++ rest.
Proof.
  intros Hservice.
  destruct (createUpdateTwinInterface twinInterface (w, [])) as [p [w' tr]] eqn:Hrun.
  apply createUpdateTwinInterface_shape in Hrun
    as (flow & added & closing & Hshape & _ & ->).
  rewrite Hservice in Hshape. simpl.
  destruct Hshape; unfold opening; rewrite <- !app_assoc; simpl; eexists; reflexivity.
Qed.


Lemma createEvents_not_listed bindings replies k ns sel r :
  (CallList k ns sel, r) ∉ createEvents bindings replies.
Proof. by intros (b & e & ? & _)%createEvents_elem. Qed.





(** *** Both reconcilers: the calls they can make *)

Lemma createEvents_Forall (P : Event → Prop) bindings replies :
  (∀ b e, P (CallCreate RabbitBinding b, Replied e)) →
  Forall P (createEvents bindings replies).
Proof.
  intros HP. apply Forall_forall. intros [c r] Hin.
  apply createEvents_elem in Hin as (b & e & -> & -> & _). apply HP.
Qed.

(** A pass over an interface only creates compute services, triggers and
    bindings, only fetches triggers, only lists queues and exchanges of the
    namespace of the interface, and only updates the interface itself; a pass
    over an instance only creates bindings and only updates the instance
    itself.  Queues and exchanges are looked up, never written. *)
Theorem passes_stay_in_their_footprint twinInterface wI twinInstance parent wN :
  Forall (interfaceFootprint twinInterface)
    (snd (snd (createUpdateTwinInterface twinInterface (wI, []))))
  ∧ Forall (instanceFootprint twinInstance)
      (snd (snd (createUpdateTwinInstance twinInstance parent (wN, [])))).
Proof.
  split.
  - destruct (createUpdateTwinInterface twinInterface (wI, [])) as [p [w' tr]] eqn:Hrun.
    apply createUpdateTwinInterface_shape in Hrun
      as (flow & added & closing & Hshape & Hend & ->).
    simpl. apply Forall_app. split.
    + destruct (ti_Service twinInterface); [|by destruct Hshape as (_ & _ & ->)].
      destruct Hshape; unfold opening;
        repeat first
          [ apply Forall_app; split
          | apply Forall_cons; split
          | apply Forall_nil_2
          | apply createEvents_Forall; intros; unfold interfaceFootprint; simpl; tauto
          | (unfold interfaceFootprint; simpl; tauto) ].
    + destruct Hend; repeat constructor.
  - destruct (createUpdateTwinInstance twinInstance parent (wN, [])) as [p [w' tr]] eqn:Hrun.
    apply createUpdateTwinInstance_shape in Hrun
      as (replies & closing & _ & _ & Hend & ->).
    simpl. apply Forall_app. split.
    + by apply createEvents_Forall.
    + destruct Hend; repeat constructor.
Qed.

(** *** The interface reconciler: a lookup that fails *)

Lemma openingErrors_notNil e1 e2 got :
  Forall (fun err => err ≠ None) (openingErrors e1 e2 got).
Proof.
  unfold openingErrors, keep. repeat (apply Forall_app; split);
    match goal with
    | |- context [kept ?e] =>
        destruct (kept e) eqn:Hk; [|constructor];
        repeat constructor; by apply kept_notNil
    end.
Qed.

Lemma head_notNil (l : list (option error)) first rest :
  l = first :: rest → Forall (fun err => err ≠ None) l → first ≠ None.
Proof. intros -> Hall. by apply Forall_cons in Hall as [? _]. Qed.

(** When a [List] of the pass fails and fills no items, [Reconcile] returns
    a non-nil error, the error of the [List] is the last of the error list,
    and no update is issued. *)
Theorem failed_lookup_returns_error req w p w' tr k ns sel e :
  TwinInterfaceReconciler_Reconcile req (w, []) = (p, (w', tr)) →
  (CallList k ns sel, Listed [] (Some e)) ∈ tr →
  returned p ≠ None
  ∧ last (accumulated p) = Some (Some e)
  ∧ List.filter isUpdate tr = [].
Proof.
  intros Hrun Hin.
  apply TwinInterfaceReconciler_Reconcile_run in Hrun
    as [(err & _ & -> & _) | (twinInterface & w1 & _ & Hrun)].
  { trace_cases Hin. }
  apply createUpdateTwinInterface_shape in Hrun
    as (flow & added & closing & Hshape & Hend & ->).
  destruct p as [ret_ obj acc]. simpl in *.
  assert (∀ k ns sel r, (CallList k ns sel, r) ∉ closing) as Hnolist.
  { inversion Hend; subst; intros ???? Hc; trace_cases Hc. }
  trace_cases Hin; [|by apply Hnolist in Hin].
  destruct (ti_Service twinInterface).
  2:{ destruct Hshape as (_ & _ & ->). by apply elem_of_nil in Hin. }
  inversion Hshape as [e1 e2 got err
                      |e1 e2 got q0 qs err0 err
                      |e1 e2 got q0 qs err0 x0 xs err1 err
                      |e1 e2 got q0 qs err0 x0 xs err1 qi qis err2 r1 r2 Hl1 Hl2];
    subst; unfold opening, listEventStoreQueue, listExchange, listInterfaceQueue in Hin.
  - inversion Hend; subst. rewrite app_nil_r.
    trace_cases Hin. assert (ret_ = Some e) as -> by congruence.
    split; [discriminate|]. split; [by rewrite last_snoc | reflexivity].
  - trace_cases Hin. assert (err = Some e) as -> by congruence.
    assert (Forall (fun err => err ≠ None)
              (openingErrors e1 e2 got ++ keepNotNil (Some e) ++ [Some e])) as Hall.
    { apply Forall_app. split; [apply openingErrors_notNil|]. by repeat constructor. }
    inversion Hend; subst;
      match goal with Hacc : _ = _ ++ _ |- _ => symmetry in Hacc; rename Hacc into Hacc' end.
    + split; [by eapply head_notNil|].
      rewrite app_nil_r. split; [|reflexivity].
      transitivity (last (openingErrors e1 e2 got ++ keepNotNil (Some e) ++ [Some e]));
        [by rewrite ?Hacc' | by rewrite !app_assoc, last_snoc].
    + exfalso. apply app_eq_nil in Hacc' as [_ Hacc']. discriminate Hacc'.
  - trace_cases Hin. assert (err = Some e) as -> by congruence.
    assert (Forall (fun err => err ≠ None)
              (openingErrors e1 e2 got ++ keepNotNil err1 ++ [Some e])) as Hall.
    { apply Forall_app. split; [apply openingErrors_notNil|].
      apply Forall_app. split; [|by repeat constructor].
      unfold keepNotNil. destruct err1; by repeat constructor. }
    inversion Hend; subst;
      match goal with Hacc : _ = _ ++ _ |- _ => symmetry in Hacc; rename Hacc into Hacc' end.
    + split; [by eapply head_notNil|].
      rewrite app_nil_r. split; [|reflexivity].
      transitivity (last (openingErrors e1 e2 got ++ keepNotNil err1 ++ [Some e]));
        [by rewrite ?Hacc' | by rewrite !app_assoc, last_snoc].
    + exfalso. do 2 apply app_eq_nil in Hacc' as [_ Hacc']. discriminate Hacc'.
  - exfalso. trace_cases Hin.
    + by apply createEvents_not_listed in Hin.
    + by apply createEvents_not_listed in Hin.
Qed.

(** *** Both reconcilers: where the returned error comes from *)

Lemma keep_elem x err : x ∈ keep err → x = err.
Proof. unfold keep. destruct (kept err); [by intros ->%list_elem_of_singleton | by intros ?%elem_of_nil]. Qed.

Lemma keepNotNil_elem x err : x ∈ keepNotNil err → x = err.
Proof.
  unfold keepNotNil.
  destruct (notNil err); [by intros ->%list_elem_of_singleton | by intros ?%elem_of_nil].
Qed.

Lemma opening_answered twinInterface e1 e2 got x :
  x ∈ openingErrors e1 e2 got →
  ∃ ev, ev ∈ opening twinInterface e1 e2 got ∧ replyErr ev = x.
Proof.
  unfold openingErrors, opening. intros Hin.
  apply elem_of_app in Hin as [->%keep_elem|Hin];
    [|apply elem_of_app in Hin as [->%keep_elem| ->%keep_elem]];
    eexists; split.
  - apply list_elem_of_here.
  - reflexivity.
  - apply list_elem_of_further, list_elem_of_here.
  - reflexivity.
  - do 2 apply list_elem_of_further. apply list_elem_of_here.
  - reflexivity.
Qed.

Lemma filter_kept_elem (replies : list (option error)) x :
  x ∈ List.filter kept replies → x ∈ replies.
Proof.
  intros Hin%list_elem_of_In. apply List.filter_In in Hin as [Hin _].
  by apply list_elem_of_In.
Qed.

Lemma createEvents_answered bindings replies x :
  length replies = length bindings →
  x ∈ List.filter kept replies →
  ∃ ev, ev ∈ createEvents bindings replies ∧ replyErr ev = x.
Proof.
  intros Hlen Hin%filter_kept_elem.
  destruct (createEvents_reply _ _ _ Hlen Hin) as (b & _ & Hev).
  by eexists.
Qed.

(** Every element of the error list of the block, and the error of its early
    return, is what one of its calls answered. *)
Lemma blockShape_answered twinInterface flow more added :
  blockShape twinInterface flow more added →
  (∀ x, x ∈ more → ∃ ev, ev ∈ added ∧ replyErr ev = x)
  ∧ (∀ err, flow = Returns err → ∃ ev, ev ∈ added ∧ replyErr ev = err).
Proof.
  intros Hshape.
  assert (∀ e1 e2 got rest x, x ∈ openingErrors e1 e2 got →
            ∃ ev, ev ∈ opening twinInterface e1 e2 got ++ rest ∧ replyErr ev = x)
    as Hopening.
  { intros e1 e2 got rest x Hin.
    destruct (opening_answered twinInterface _ _ _ _ Hin) as (ev & ? & ?).
    exists ev. split; [apply elem_of_app; by left | assumption]. }
  assert (∀ (front rest : list Event) ev, ev ∈ rest →
            ∃ ev', ev' ∈ front ++ rest ∧ replyErr ev' = replyErr ev) as Hrest.
  { intros front rest ev Hin. exists ev. split; [apply elem_of_app; by right | reflexivity]. }
  destruct Hshape as [e1 e2 got err
                     |e1 e2 got q0 qs err0 err
                     |e1 e2 got q0 qs err0 x0 xs err1 err
                     |e1 e2 got q0 qs err0 x0 xs err1 qi qis err2 r1 r2 Hl1 Hl2].
  - split.
    + intros x [Hin| ->%list_elem_of_singleton]%elem_of_app; [by apply Hopening|].
      apply (Hrest _ _ (listEventStoreQueue twinInterface [] err)), list_elem_of_here.
    + intros ? [= <-].
      apply (Hrest _ _ (listEventStoreQueue twinInterface [] err)), list_elem_of_here.
  - split; [|discriminate].
    intros x [Hin|Hin]%elem_of_app; [by apply Hopening|].
    assert (x = err) as ->.
    { apply elem_of_app in Hin as [?%keepNotNil_elem| ?%list_elem_of_singleton]; done. }
    apply (Hrest _ _ (listExchange twinInterface [] err)).
    apply list_elem_of_further, list_elem_of_here.
  - split; [|discriminate].
    intros x [Hin|Hin]%elem_of_app; [by apply Hopening|].
    apply elem_of_app in Hin as [->%keepNotNil_elem| ->%list_elem_of_singleton].
    + apply (Hrest _ _ (listExchange twinInterface (x0 :: xs) err1)).
      apply list_elem_of_further, list_elem_of_here.
    + apply (Hrest _ _ (listInterfaceQueue twinInterface [] err)).
      do 2 apply list_elem_of_further. apply list_elem_of_here.
  - split; [|discriminate].
    intros x [Hin|Hin]%elem_of_app; [by apply Hopening|].
    apply elem_of_app in Hin as [->%keepNotNil_elem|Hin].
    { apply (Hrest _ _ (listExchange twinInterface (x0 :: xs) err1)).
      apply list_elem_of_further, list_elem_of_here. }
    apply elem_of_app in Hin as [Hin|Hin];
      (eapply createEvents_answered in Hin as (ev & Hev & <-); [|eassumption]);
      apply Hrest; do 3 apply list_elem_of_further; apply elem_of_app; [by left | by right].
Qed.

(** A non-nil error returned by [Reconcile] is the error one of the calls of
    the pass answered: neither reconciler makes up an error of its own.  So a
    pass all of whose calls answer nil returns nil. *)
Theorem returned_error_was_answered reqI wI reqN wN :
  let runI := TwinInterfaceReconciler_Reconcile reqI (wI, []) in
  let runN := TwinInstanceReconciler_Reconcile reqN (wN, []) in
  (∀ e, returned (fst runI) = Some e →
        ∃ ev, ev ∈ snd (snd runI) ∧ replyErr ev = Some e)
  ∧ (∀ e, returned (fst runN) = Some e →
          ∃ ev, ev ∈ snd (snd runN) ∧ replyErr ev = Some e).
Proof.
  intros runI runN. split.
  - destruct runI as [p [w' tr]] eqn:Hrun. subst runI. simpl. intros e Hret.
    apply TwinInterfaceReconciler_Reconcile_run in Hrun
      as [(err & _ & -> & ->) | (twinInterface & w1 & _ & Hrun)].
    { destruct err; simpl in Hret; try discriminate Hret;
        (eexists; split; [apply list_elem_of_here | exact Hret]). }
    apply createUpdateTwinInterface_shape in Hrun
      as (flow & added & closing & Hshape & Hend & ->).
    destruct p as [ret_ obj acc]. simpl in *. subst ret_.
    destruct (ti_Service twinInterface).
    + apply blockShape_answered in Hshape as [Hmore Hflow].
      assert (∃ ev, ev ∈ added ∧ replyErr ev = Some e) as (ev & Hev & ?).
      { inversion Hend; subst.
        - by apply Hflow.
        - apply Hmore. apply list_elem_of_here. }
      exists ev. split; [|assumption].
      apply list_elem_of_further, elem_of_app. by left.
    + destruct Hshape as (-> & -> & _). inversion Hend.
  - destruct runN as [p [w' tr]] eqn:Hrun. subst runN. simpl. intros e Hret.
    apply TwinInstanceReconciler_Reconcile_run in Hrun
      as [(err & _ & -> & ->)
         | (twinInstance & w1 & _ &
            [(err & _ & -> & ->) | (twinInterface & w2 & _ & Hrun)])].
    { destruct err; simpl in Hret; try discriminate Hret;
        (eexists; split; [apply list_elem_of_here | exact Hret]). }
    { simpl in Hret. eexists.
      split; [apply list_elem_of_further, list_elem_of_here | exact Hret]. }
    apply createUpdateTwinInstance_shape in Hrun
      as (replies & closing & Hlen & Hacc & Hend & ->).
    destruct p as [ret_ obj acc]. simpl in *. subst ret_ acc.
    inversion Hend as [first rest Hfirst|]; subst.
    assert (Some e ∈ List.filter kept replies) as Hin
      by (rewrite <- Hfirst; apply list_elem_of_here).
    eapply createEvents_answered in Hin as (ev & Hev & ?); [|eassumption].
    exists ev. split; [|assumption].
    do 2 apply list_elem_of_further. apply elem_of_app. by left.
Qed.

(** *** Both reconcilers: the object to reconcile cannot be fetched *)

(** When the fetch of the object to reconcile fails, the pass is that one
    call: a not-found is taken for a deletion and nil is returned, any other
    error is returned as it is; nothing is created, listed or updated. *)
Theorem primary_fetch_failure reqI wI errI wI' reqN wN errN wN' :
  clientGetTwinInterface (fst reqI, snd reqI) wI = (inr errI, wI') →
  clientGetTwinInstance (fst reqN, snd reqN) wN = (inr errN, wN') →
  TwinInterfaceReconciler_Reconcile reqI (wI, [])
  = (mkPass (if IsNotFound (Some errI) then None else Some errI) zeroTwinInterface [],
     (wI', [(CallGetTwinInterface (fst reqI, snd reqI), Replied (Some errI))]))
  ∧ TwinInstanceReconciler_Reconcile reqN (wN, [])
    = (mkPass (if IsNotFound (Some errN) then None else Some errN) zeroTwinInstance [],
       (wN', [(CallGetTwinInstance (fst reqN, snd reqN), Replied (Some errN))])).
Proof.
  intros HI HN.
  unfold TwinInterfaceReconciler_Reconcile, TwinInstanceReconciler_Reconcile,
    bind, Get_TwinInterface, Get_TwinInstance, ret.
  rewrite HI, HN. simpl. split; [by destruct errI | by destruct errN].
Qed.

End Properties.

(** * Properties of the reconcilers on the in-memory cluster *)

Section ClusterProperties.

Context {TS : TwinService} {TE : TwinEvent} {ES : EventStore}.

Implicit Types (u v : Cluster) (tr : list Event) (resultErrors : list (option error)).

Lemma settled_app denied os rest k o :
  settled denied os k o → settled denied (os ++ rest) k o.
Proof.
  intros [Hd|Hex]; [by left | right].
  rewrite List.existsb_app, Hex. reflexivity.
Qed.

(** A create grows the store by at most the object, and leaves it settled. *)
Lemma clusterCreate_grows k o u err u' :
  clusterCreate k o u = (err, u') →
  ∃ rest, u' = setObjects u (objects u ++ rest)
    ∧ Forall (fun e => fst e = k) rest
    ∧ keep err = keep (createDenied u k o)
    ∧ settled (createDenied u) (objects u ++ rest) k o.
Proof.
  unfold clusterCreate. destruct (createDenied u k o) as [e|] eqn:Hd.
  - intros [= <- <-]. exists []. rewrite app_nil_r.
    split; [by destruct u|]. split; [constructor|]. split; [reflexivity|].
    left. congruence.
  - destruct (List.existsb _ (objects u)) eqn:Hex.
    + intros [= <- <-]. exists []. rewrite app_nil_r.
      split; [by destruct u|]. split; [constructor|]. split; [reflexivity|].
      by right.
    + intros [= <- <-]. exists [(k, o)].
      split; [reflexivity|]. split; [by repeat constructor|]. split; [reflexivity|].
      right. rewrite List.existsb_app. simpl. unfold isObject at 2. simpl.
      rewrite !bool_decide_eq_true_2 by reflexivity. simpl.
      by rewrite orb_true_r.
Qed.

(** A create of a settled object changes nothing, and accumulates what the
    first create of it did. *)
Lemma clusterCreate_settled k o v :
  settled (createDenied v) (objects v) k o →
  ∃ err, clusterCreate k o v = (err, v) ∧ keep err = keep (createDenied v k o).
Proof.
  unfold clusterCreate. intros [Hd|Hex].
  - destruct (createDenied v k o) as [e|]; [|done]. by exists (Some e).
  - destruct (createDenied v k o) as [e|]; [by exists (Some e)|].
    rewrite Hex. by exists (Some AlreadyExists).
Qed.

Lemma find_isObject_app k key os rest :
  Forall (fun e => fst e ≠ k) rest →
  List.find (isObject k key) (os ++ rest) = List.find (isObject k key) os.
Proof.
  intros Hrest. induction os as [|x os IH]; simpl.
  - induction Hrest as [|y rest Hy _ IH]; [reflexivity|]. simpl.
    unfold isObject at 1. by rewrite bool_decide_eq_false_2.
  - destruct (isObject k key x); [reflexivity | exact IH].
Qed.

Lemma filter_isListed_app k ns sel os rest :
  Forall (fun e => fst e ≠ k) rest →
  List.filter (isListed k ns sel) (os ++ rest) = List.filter (isListed k ns sel) os.
Proof.
  intros Hrest. rewrite List.filter_app.
  assert (List.filter (isListed k ns sel) rest = []) as ->; [|by rewrite app_nil_r].
  induction Hrest as [|y rest Hy _ IH]; [reflexivity|]. simpl.
  unfold isListed at 1. by rewrite bool_decide_eq_false_2.
Qed.

Lemma clusterGet_eq k key u : clusterGet k key u = (fst (clusterGet k key u), u).
Proof. unfold clusterGet. by destruct (List.find _ _). Qed.

Lemma clusterGet_app k key u v rest :
  objects v = objects u ++ rest →
  Forall (fun e => fst e ≠ k) rest →
  fst (clusterGet k key v) = fst (clusterGet k key u).
Proof.
  intros Hv Hrest. unfold clusterGet. rewrite Hv, find_isObject_app by assumption.
  by destruct (List.find _ _).
Qed.

Lemma clusterList_app k ns sel u v rest :
  objects v = objects u ++ rest →
  Forall (fun e => fst e ≠ k) rest →
  clusterList k ns sel v = ((fst (fst (clusterList k ns sel u)), None), v).
Proof.
  intros Hv Hrest. unfold clusterList. simpl.
  by rewrite Hv, filter_isListed_app.
Qed.

Lemma clusterList_eq k ns sel u :
  clusterList k ns sel u = ((fst (fst (clusterList k ns sel u)), None), u).
Proof. reflexivity. Qed.

Lemma setObjects_setObjects u os os' : setObjects (setObjects u os) os' = setObjects u os'.
Proof. reflexivity. Qed.

Lemma setObjects_objects u : setObjects u (objects u) = u.
Proof. by destruct u. Qed.

(** A loop of creates grows the store by bindings only, accumulates the
    refusals, and leaves every binding settled. *)
Lemma createBindings_grows bindings :
  ∀ resultErrors u tr errs' u' tr',
    createBindings bindings resultErrors (u, tr) = (errs', (u', tr')) →
    ∃ rest, u' = setObjects u (objects u ++ rest)
      ∧ Forall (fun e => fst e = RabbitBinding) rest
      ∧ errs' = resultErrors ++ deniedErrors (createDenied u) bindings
      ∧ Forall (settled (createDenied u) (objects u ++ rest) RabbitBinding) bindings.
Proof.
  induction bindings as [|b bs IH]; intros errs u tr errs' u' tr'; simpl.
  - unfold ret. intros [= <- <- <-]. exists []. rewrite !app_nil_r.
    split; [by rewrite setObjects_objects|]. repeat split; constructor.
  - unfold bind, Create. cbn [clientCreate clusterClient].
    destruct (clusterCreate RabbitBinding b u) as [err u1] eqn:Hc.
    apply clusterCreate_grows in Hc as (r1 & -> & Hk1 & Hkeep & Hs).
    rewrite if_kept, Hkeep. intros Hrun.
    apply IH in Hrun as (r2 & -> & Hk2 & -> & Hs2). simpl in *.
    exists (r1 ++ r2). rewrite setObjects_setObjects, !app_assoc.
    split; [reflexivity|]. split; [by apply Forall_app|]. split; [reflexivity|].
    constructor; [by apply settled_app | assumption].
Qed.

Lemma createBindings_settled bindings :
  ∀ resultErrors v tr,
    Forall (settled (createDenied v) (objects v) RabbitBinding) bindings →
    ∃ tr', createBindings bindings resultErrors (v, tr)
           = (resultErrors ++ deniedErrors (createDenied v) bindings, (v, tr')).
Proof.
  induction bindings as [|b bs IH]; intros errs v tr Hs; simpl.
  - exists tr. by rewrite app_nil_r.
  - apply Forall_cons in Hs as [Hb Hs].
    unfold bind, Create. cbn [clientCreate clusterClient].
    destruct (clusterCreate_settled _ _ _ Hb) as (err & -> & Hkeep).
    rewrite if_kept, Hkeep.
    destruct (IH (errs ++ keep (createDenied v RabbitBinding b)) v
                (tr ++ [(CallCreate RabbitBinding b, Replied err)]) Hs) as [tr' ->].
    exists tr'. by rewrite <- app_assoc.
Qed.

Lemma bindings_not_kind (k : Kind) (rest : list (Kind * Object)) :
  k ≠ RabbitBinding →
  Forall (fun e => fst e = RabbitBinding) rest →
  Forall (fun e => fst e ≠ k) rest.
Proof.
  intros Hk Hrest. eapply Forall_impl; [exact Hrest|].
  intros e He. simpl in He. congruence.
Qed.

(** The block guarded by [Spec.Service != nil], run again on the store it
    left, for an interface with the same declaration: same flow, same error
    list, and the store is left as it is. *)
Lemma createServiceTriggerBindings_replay i j resultErrors u tr flow errs' u' tr' :
  readDeclarationOnly TS TE ES →
  sameDeclaration i j →
  createServiceTriggerBindings i resultErrors (u, tr) = ((flow, errs'), (u', tr')) →
  (∃ rest, u' = setObjects u (objects u ++ rest))
  ∧ ∀ v tr2,
      objects v = objects u' → createDenied v = createDenied u' →
      ∃ tr2', createServiceTriggerBindings j resultErrors (v, tr2)
              = ((flow, errs'), (v, tr2')).
Proof.
  intros Hgen Hsame.
  destruct (Hgen i j Hsame) as (HS & HT & HR & HE).
  destruct Hsame as (Hname & Hns & _).
  unfold createServiceTriggerBindings, bind, Create, Get, List_, ret.
  cbn [clientCreate clientGet clientList clusterClient].
  rewrite <- HS, <- HT, <- Hname, <- Hns.
  destruct (clusterCreate KnativeService (GetService i) u) as [e1 u1] eqn:C1.
  apply clusterCreate_grows in C1 as (r1 & -> & K1 & E1 & S1).
  destruct (clusterCreate KnativeTrigger _ _) as [e2 u2] eqn:C2.
  apply clusterCreate_grows in C2 as (r2 & -> & K2 & E2 & S2).
  rewrite setObjects_setObjects in *. cbn [objects createDenied setObjects] in *.
  set (u2 := setObjects u ((objects u ++ r1) ++ r2)) in *.
  set (key := (Namespace (meta (GetTwinInterfaceTrigger i)),
               Name (meta (GetTwinInterfaceTrigger i)))) in *.
  assert (∀ v r3,
    objects v = objects u2 ++ r3 →
    Forall (fun e => fst e = RabbitBinding) r3 →
    createDenied v = createDenied u →
    (∃ e1', clusterCreate KnativeService (GetService i) v = (e1', v) ∧ keep e1' = keep e1)
    ∧ (∃ e2', clusterCreate KnativeTrigger (GetTwinInterfaceTrigger i) v = (e2', v)
              ∧ keep e2' = keep e2)
    ∧ clusterGet KnativeTrigger key v = (fst (clusterGet KnativeTrigger key u2), v)
    ∧ (∀ ns sel, clusterList RabbitQueue ns sel v
                 = ((fst (fst (clusterList RabbitQueue ns sel u2)), None), v))
    ∧ (∀ ns sel, clusterList RabbitExchange ns sel v
                 = ((fst (fst (clusterList RabbitExchange ns sel u2)), None), v)))
    as Hprefix.
  { intros v r3 Hv K3 Hd. subst u2. cbn [objects setObjects] in Hv.
    split; [|split; [|split; [|split]]].
    - destruct (clusterCreate_settled KnativeService (GetService i) v) as (e1' & ? & ?).
      { rewrite Hd, Hv, <- (app_assoc (objects u ++ r1)). by apply settled_app. }
      exists e1'. split; [assumption | congruence].
    - destruct (clusterCreate_settled KnativeTrigger (GetTwinInterfaceTrigger i) v)
        as (e2' & ? & ?).
      { rewrite Hd, Hv. by apply settled_app. }
      exists e2'. split; [assumption | congruence].
    - rewrite (clusterGet_eq _ _ v). f_equal.
      apply (clusterGet_app _ _ _ _ r3); [exact Hv|]. by apply bindings_not_kind.
    - intros ns sel. apply (clusterList_app _ _ _ _ _ r3); [exact Hv|].
      by apply bindings_not_kind.
    - intros ns sel. apply (clusterList_app _ _ _ _ _ r3); [exact Hv|].
      by apply bindings_not_kind. }
  rewrite (clusterGet_eq KnativeTrigger key u2).
  set (got := fst (clusterGet KnativeTrigger key u2)) in *.
  rewrite (clusterList_eq RabbitQueue _ _ u2).
  cbv beta iota zeta. rewrite !if_kept, E1, E2.
  assert (∀ v tr2 r3 (P : Prop),
    objects v = objects u2 ++ r3 →
    Forall (fun e => fst e = RabbitBinding) r3 →
    createDenied v = createDenied u →
    (∀ e1' e2' tr2',
       clusterCreate KnativeService (GetService i) v = (e1', v) →
       clusterCreate KnativeTrigger (GetTwinInterfaceTrigger i) v = (e2', v) →
       clusterGet KnativeTrigger key v = (got, v) →
       keep e1' = keep (createDenied u KnativeService (GetService i)) →
       keep e2' = keep (createDenied u KnativeTrigger (GetTwinInterfaceTrigger i)) →
       tr2' = ((tr2 ++ [(CallCreate KnativeService (GetService i), Replied e1')])
                 ++ [(CallCreate KnativeTrigger (GetTwinInterfaceTrigger i), Replied e2')])
              ++ [(CallGet KnativeTrigger key, Replied (errOf got))] →
       P) → P) as Hstart.
  { intros v tr2 r3 P Hv K3 Hd HP.
    destruct (Hprefix v r3 Hv K3 Hd) as ((e1' & C1 & E1') & (e2' & C2 & E2') & G & _).
    eapply (HP e1' e2'); eauto; congruence. }
  destruct (fst (fst (clusterList RabbitQueue (Namespace (ti_meta i))
      {["eventing.knative.dev/trigger" := "event-store-trigger"]} u2)))
    as [|eventStoreQueue ?] eqn:L1.
  { intros [= <- <- <- <-]. split.
    { exists (r1 ++ r2). subst u2. by rewrite app_assoc. }
    intros v tr2 Hv Hd. change (createDenied v = createDenied u) in Hd.
    assert (objects v = objects u2 ++ []) as Hv' by (by rewrite app_nil_r).
    destruct (Hprefix v [] Hv' (List.Forall_nil _) Hd) as (_ & _ & _ & LQ & _).
    apply (Hstart v tr2 [] _ Hv' (List.Forall_nil _) Hd).
    intros e1' e2' tr2' C1 C2 G E1' E2' Htr.
    rewrite C1. cbv beta iota zeta. rewrite C2. cbv beta iota zeta.
    rewrite G. cbv beta iota zeta. rewrite LQ. cbv beta iota zeta.
    rewrite L1, !if_kept, E1', E2'. eexists. reflexivity. }
  rewrite (clusterList_eq RabbitExchange _ _ u2). cbv beta iota zeta.
  rewrite !if_notNil.
  destruct (fst (fst (clusterList RabbitExchange (Namespace (ti_meta i))
      {["eventing.knative.dev/broker" := "ktwin"]} u2)))
    as [|brokerExchange ?] eqn:L2.
  { intros [= <- <- <- <-]. split.
    { exists (r1 ++ r2). subst u2. by rewrite app_assoc. }
    intros v tr2 Hv Hd. change (createDenied v = createDenied u) in Hd.
    assert (objects v = objects u2 ++ []) as Hv' by (by rewrite app_nil_r).
    destruct (Hprefix v [] Hv' (List.Forall_nil _) Hd) as (_ & _ & _ & LQ & LX).
    apply (Hstart v tr2 [] _ Hv' (List.Forall_nil _) Hd).
    intros e1' e2' tr2' C1 C2 G E1' E2' Htr.
    rewrite C1. cbv beta iota zeta. rewrite C2. cbv beta iota zeta.
    rewrite G. cbv beta iota zeta. rewrite LQ. cbv beta iota zeta.
    rewrite L1, LX. cbv beta iota zeta.
    rewrite L2, !if_kept, !if_notNil, E1', E2'. eexists. reflexivity. }
  rewrite (clusterList_eq RabbitQueue _ _ u2). cbv beta iota zeta.
  destruct (fst (fst (clusterList RabbitQueue (Namespace (ti_meta i))
      (<["eventing.knative.dev/trigger" := Name (ti_meta i)]>
         {["eventing.knative.dev/broker" := "ktwin"]}) u2)))
    as [|twinInterfaceQueue ?] eqn:L3.
  { intros [= <- <- <- <-]. split.
    { exists (r1 ++ r2). subst u2. by rewrite app_assoc. }
    intros v tr2 Hv Hd. change (createDenied v = createDenied u) in Hd.
    assert (objects v = objects u2 ++ []) as Hv' by (by rewrite app_nil_r).
    destruct (Hprefix v [] Hv' (List.Forall_nil _) Hd) as (_ & _ & _ & LQ & LX).
    apply (Hstart v tr2 [] _ Hv' (List.Forall_nil _) Hd).
    intros e1' e2' tr2' C1 C2 G E1' E2' Htr.
    rewrite C1. cbv beta iota zeta. rewrite C2. cbv beta iota zeta.
    rewrite G. cbv beta iota zeta. rewrite LQ. cbv beta iota zeta.
    rewrite L1, LX. cbv beta iota zeta. rewrite L2, LQ. cbv beta iota zeta.
    rewrite L3, !if_kept, !if_notNil, E1', E2'. eexists. reflexivity. }
  match goal with
  | |- context [createBindings ?bs ?errs (u2, ?t)] =>
      destruct (createBindings bs errs (u2, t)) as [errs3 [u3 tr3]] eqn:B1
  end.
  apply createBindings_grows in B1 as (r3 & -> & K3 & -> & S3).
  match goal with
  | |- context [createBindings ?bs ?errs (?w, tr3)] =>
      destruct (createBindings bs errs (w, tr3)) as [errs4 [u4 tr4]] eqn:B2
  end.
  apply createBindings_grows in B2 as (r4 & -> & K4 & -> & S4).
  intros [= <- <- <- <-]. split.
  { exists (r1 ++ r2 ++ r3 ++ r4). subst u2. cbn [objects setObjects].
    by rewrite !setObjects_setObjects, !app_assoc. }
  intros v tr2 Hv Hd. change (createDenied v = createDenied u) in Hd.
  change (objects v = (objects u2 ++ r3) ++ r4) in Hv.
  assert (objects v = objects u2 ++ (r3 ++ r4)) as Hv' by (by rewrite app_assoc).
  assert (Forall (fun e : Kind * Object => fst e = RabbitBinding) (r3 ++ r4)) as K34
    by (by apply Forall_app).
  destruct (Hprefix v (r3 ++ r4) Hv' K34 Hd) as (_ & _ & _ & LQ & LX).
  apply (Hstart v tr2 (r3 ++ r4) _ Hv' K34 Hd).
  intros e1' e2' tr2' C1 C2 G E1' E2' Htr.
  rewrite C1. cbv beta iota zeta. rewrite C2. cbv beta iota zeta.
  rewrite G. cbv beta iota zeta. rewrite LQ. cbv beta iota zeta.
  rewrite L1, LX. cbv beta iota zeta. rewrite L2, LQ. cbv beta iota zeta.
  rewrite L3, !if_kept, !if_notNil, E1', E2', <- HR, <- HE.
  match goal with
  | |- context [createBindings ?bs ?errs (v, ?t)] =>
      destruct (createBindings_settled bs errs v t) as [tr3' ->]
  end.
  { rewrite Hd, Hv. eapply Forall_impl; [exact S3|].
    intros b Hb. by apply settled_app. }
  match goal with
  | |- context [createBindings ?bs ?errs (v, ?t)] =>
      destruct (createBindings_settled bs errs v t) as [tr4' ->]
  end.
  { rewrite Hd, Hv. exact S4. }
  rewrite Hd. eexists. reflexivity.
Qed.

(** *** The store of interfaces under an update *)

Lemma isTwinInterface_self i : isTwinInterface (keyOf (ti_meta i)) i = true.
Proof. unfold isTwinInterface. by rewrite bool_decide_eq_true_2. Qed.

Lemma find_replaceBy i l j :
  List.find (isTwinInterface (keyOf (ti_meta i))) l = Some j →
  List.find (isTwinInterface (keyOf (ti_meta i))) (List.map (replaceBy i) l) = Some i.
Proof.
  induction l as [|x l IH]; cbn [List.find List.map]; [discriminate|].
  destruct (isTwinInterface (keyOf (ti_meta i)) x) eqn:Hx.
  - intros _. assert (replaceBy i x = i) as -> by (unfold replaceBy; by rewrite Hx).
    by rewrite isTwinInterface_self.
  - assert (replaceBy i x = x) as -> by (unfold replaceBy; by rewrite Hx).
    rewrite Hx. exact IH.
Qed.

Lemma find_existsb {A : Type} (f : A → bool) l x :
  List.find f l = Some x → List.existsb f l = true.
Proof.
  induction l as [|y l IH]; simpl; [discriminate|].
  destruct (f y); [reflexivity | exact IH].
Qed.

Lemma replaceBy_idempotent i l :
  List.map (replaceBy i) (List.map (replaceBy i) l) = List.map (replaceBy i) l.
Proof.
  rewrite List.map_map. apply List.map_ext. intros j. unfold replaceBy.
  destruct (isTwinInterface (keyOf (ti_meta i)) j) eqn:Hj.
  - by rewrite isTwinInterface_self.
  - by rewrite Hj.
Qed.

Lemma clusterGetTwinInterface_found key u i u' :
  clusterGetTwinInterface key u = (inl i, u') →
  u' = u ∧ keyOf (ti_meta i) = key
  ∧ List.find (isTwinInterface key) (twinInterfaces u) = Some i.
Proof.
  unfold clusterGetTwinInterface.
  destruct (List.find _ _) as [x|] eqn:Hf; [|discriminate].
  intros [= <- <-]. split; [reflexivity|]. split; [|reflexivity].
  apply List.find_some in Hf as [_ Hk]. unfold isTwinInterface in Hk.
  by apply bool_decide_eq_true in Hk.
Qed.

(** An update is refused and changes nothing, or it writes the object over
    the stored one. *)
Lemma clusterUpdateTwinInterface_cases i u err u1 :
  clusterUpdateTwinInterface i u = (err, u1) →
  u1 = u
  ∨ (err = None
     ∧ updateDenied u (keyOf (ti_meta i)) = None
     ∧ u1 = setTwinInterfaces u (List.map (replaceBy i) (twinInterfaces u))).
Proof.
  unfold clusterUpdateTwinInterface.
  destruct (updateDenied u (keyOf (ti_meta i))); [intros [= <- <-]; by left|].
  destruct (List.existsb _ _); intros [= <- <-]; [right | by left].
  done.
Qed.

Lemma clusterUpdateTwinInterface_again i u j :
  updateDenied u (keyOf (ti_meta i)) = None →
  List.find (isTwinInterface (keyOf (ti_meta i))) (twinInterfaces u) = Some j →
  let u1 := setTwinInterfaces u (List.map (replaceBy i) (twinInterfaces u)) in
  clusterUpdateTwinInterface i u1 = (None, u1).
Proof.
  intros Hd Hf u1. unfold clusterUpdateTwinInterface. subst u1.
  cbn [updateDenied twinInterfaces setTwinInterfaces]. rewrite Hd.
  rewrite (find_existsb _ _ i) by (by eapply find_replaceBy).
  by rewrite replaceBy_idempotent.
Qed.

Lemma sameDeclaration_refl i : sameDeclaration i i.
Proof. by repeat split. Qed.

(** A pass run again on the cluster it left, over the interface that is now
    stored: the same outcome, and the cluster is left as it is. *)
Lemma createUpdateTwinInterface_replay i u tr p u1 tr1 :
  readDeclarationOnly TS TE ES →
  List.find (isTwinInterface (keyOf (ti_meta i))) (twinInterfaces u) = Some i →
  createUpdateTwinInterface i (u, tr) = (p, (u1, tr1)) →
  ∃ i2,
    List.find (isTwinInterface (keyOf (ti_meta i))) (twinInterfaces u1) = Some i2
    ∧ ∀ tr2, ∃ tr2', createUpdateTwinInterface i2 (u1, tr2) = (p, (u1, tr2')).
Proof.
  intros Hgen Hf.
  assert (∃ flow errs u' tr',
    match ti_Service i with
    | Some _ => createServiceTriggerBindings i []
    | None => ret (FallsThrough, [])
    end (u, tr) = ((flow, errs), (u', tr'))
    ∧ twinInterfaces u' = twinInterfaces u
    ∧ updateDenied u' = updateDenied u
    ∧ ∀ j, sameDeclaration i j → ∀ v tr2,
        objects v = objects u' → createDenied v = createDenied u' →
        ∃ tr2',
          match ti_Service j with
          | Some _ => createServiceTriggerBindings j []
          | None => ret (FallsThrough, [])
          end (v, tr2) = ((flow, errs), (v, tr2')))
    as (flow & errs & u' & tr' & B & HI & HU & Hrep).
  { destruct (ti_Service i) as [svc|] eqn:Hsvc.
    - destruct (createServiceTriggerBindings i [] (u, tr)) as [[flow errs] [u' tr']] eqn:B.
      exists flow, errs, u', tr'. split; [reflexivity|].
      pose proof (createServiceTriggerBindings_replay i i [] u tr flow errs u' tr' Hgen
                    (sameDeclaration_refl i) B) as [[rest ->] _].
      split; [reflexivity|]. split; [reflexivity|].
      intros j Hsame v tr2 Hv Hd.
      pose proof Hsame as (_ & _ & Hsvc'). rewrite <- Hsvc', Hsvc.
      eapply createServiceTriggerBindings_replay; eauto.
    - exists FallsThrough, [], u, tr. split; [reflexivity|].
      split; [reflexivity|]. split; [reflexivity|].
      intros j (? & ? & Hsvc') v tr2 _ _. rewrite <- Hsvc', Hsvc. by exists tr2. }
  unfold createUpdateTwinInterface, bind. rewrite B. cbv beta iota zeta.
  assert (∀ (q : Pass TwinInterface),
    (∀ tr2, match flow with
            | Returns err => ret (mkPass err i errs)
            | FallsThrough =>
                match errs with
                | [] => ret q
                | first :: _ =>
                    ret (mkPass first (ti_set_Status i TwinInterfacePhaseFailed) errs)
                end
            end (u', tr2) = (p, (u', tr2))) →
    (flow = FallsThrough → errs ≠ []) →
    ∃ i2, List.find (isTwinInterface (keyOf (ti_meta i))) (twinInterfaces u') = Some i2
      ∧ ∀ tr2, ∃ tr2', createUpdateTwinInterface i2 (u', tr2) = (p, (u', tr2')))
    as Hsame_world.
  { intros q Hq Hne. exists i. split; [by rewrite HI|].
    intros tr2. unfold createUpdateTwinInterface, bind.
    destruct (Hrep i (sameDeclaration_refl i) u' tr2 eq_refl eq_refl) as [tr2' ->].
    cbv beta iota zeta. exists tr2'.
    destruct flow as [err|]; [exact (Hq tr2')|].
    destruct errs as [|first rest]; [by destruct Hne | exact (Hq tr2')]. }
  destruct flow as [err|].
  { unfold ret. intros [= <- <- <-].
    apply (Hsame_world (mkPass err i errs)); [reflexivity | discriminate]. }
  destruct errs as [|first rest].
  2:{ unfold ret. intros [= <- <- <-].
      apply (Hsame_world (mkPass first i [])); [reflexivity | discriminate]. }
  clear Hsame_world.
  set (i' := ti_set_Labels (ti_set_Status i TwinInterfacePhaseRunning)
               {["ktwin/twin-interface" := Name (ti_meta i)]}) in *.
  unfold updateTwinInterface, Update_TwinInterface, bind, ret.
  cbn [clientUpdateTwinInterface clusterClient].
  destruct (clusterUpdateTwinInterface i' u') as [err u2] eqn:U.
  assert (p = mkPass None i' [] → u1 = u2 → 
    ∃ i2, List.find (isTwinInterface (keyOf (ti_meta i))) (twinInterfaces u1) = Some i2
      ∧ ∀ tr2, ∃ tr2', createUpdateTwinInterface i2 (u1, tr2) = (p, (u1, tr2')))
    as Hdone.
  { intros -> ->.
    destruct (clusterUpdateTwinInterface_cases _ _ _ _ U) as [-> | (-> & Hd & ->)].
    - exists i. split; [by rewrite HI|].
      intros tr2. unfold createUpdateTwinInterface, bind.
      destruct (Hrep i (sameDeclaration_refl i) u' tr2 eq_refl eq_refl) as [tr2' ->].
      cbv beta iota zeta. fold i'.
      unfold updateTwinInterface, Update_TwinInterface, bind, ret.
      cbn [clientUpdateTwinInterface clusterClient]. rewrite U.
      eexists. by destruct err.
    - exists i'. split.
      { cbn [twinInterfaces setTwinInterfaces]. rewrite HI.
        change (keyOf (ti_meta i)) with (keyOf (ti_meta i')).
        by eapply find_replaceBy. }
      intros tr2. unfold createUpdateTwinInterface, bind.
      destruct (Hrep i' (ltac:(by repeat split) : sameDeclaration i i')
                  (setTwinInterfaces u' (List.map (replaceBy i') (twinInterfaces u')))
                  tr2 eq_refl eq_refl) as [tr2' ->].
      cbv beta iota zeta.
      change (ti_set_Labels (ti_set_Status i' TwinInterfacePhaseRunning)
                {["ktwin/twin-interface" := Name (ti_meta i')]}) with i'.
      unfold updateTwinInterface, Update_TwinInterface, bind, ret.
      cbn [clientUpdateTwinInterface clusterClient].
      rewrite (clusterUpdateTwinInterface_again i' u' i); [by eexists | assumption|].
      rewrite HI. exact Hf. }
  destruct err; cbv beta iota zeta; cbn [notNil]; intros [= <- <- <-]; by apply Hdone.
Qed.

(** C7: the interface reconciler run twice in a row on the in-memory
    cluster, with generators that read the declaration of the interface only.
    The second run returns the same error, leaves the same object with the
    same phase and the same error list, and leaves the cluster as the first
    run left it, so the bindings it holds are the same and as many. *)
Theorem reconcile_twice_is_idempotent req u p1 u1 tr1 p2 u2 tr2 :
  readDeclarationOnly TS TE ES →
  TwinInterfaceReconciler_Reconcile req (u, []) = (p1, (u1, tr1)) →
  TwinInterfaceReconciler_Reconcile req (u1, []) = (p2, (u2, tr2)) →
  ti_Status (object p2) = ti_Status (object p1)
  ∧ returned p2 = returned p1
  ∧ accumulated p2 = accumulated p1
  ∧ length (bindingsOf (fst req) u2) = length (bindingsOf (fst req) u1)
  ∧ u2 = u1.
Proof.
  intros Hgen H1 H2.
  enough (p2 = p1 ∧ u2 = u1) as [-> ->] by done.
  revert H1 H2.
  unfold TwinInterfaceReconciler_Reconcile, bind, Get_TwinInterface.
  cbn [clientGetTwinInterface clusterClient].
  destruct (clusterGetTwinInterface (fst req, snd req) u) as [[i|err] u'] eqn:G.
  - apply clusterGetTwinInterface_found in G as (-> & Hkey & Hf).
    rewrite <- Hkey in Hf. cbv beta iota zeta. intros H1.
    destruct (createUpdateTwinInterface_replay _ _ _ _ _ _ Hgen Hf H1) as (i2 & Hf2 & Hrun).
    unfold clusterGetTwinInterface. rewrite <- Hkey, Hf2. cbv beta iota zeta.
    match goal with
    | |- createUpdateTwinInterface i2 (u1, ?t) = _ → _ =>
        destruct (Hrun t) as [tr2' ->]
    end.
    by intros [= <- <-].
  - unfold clusterGetTwinInterface in G |- *.
    destruct (List.find _ (twinInterfaces u)) eqn:Hf; [discriminate|].
    injection G as <- <-. cbn [IsNotFound]. unfold ret. intros [= <- <- <-].
    rewrite Hf. cbn [errOf IsNotFound]. by intros [= <- <-].
Qed.

(** ** Further properties on the in-memory cluster *)

Lemma settled_present u k o :
  settled (createDenied u) (objects u) k o → createDenied u k o = None → present k o u.
Proof.
  intros [Hd|Hex] Hnone; [congruence|].
  unfold present, clusterGet.
  destruct (List.find _ (objects u)) as [x|] eqn:Hf; [by exists (snd x)|].
  exfalso. apply List.existsb_exists in Hex as (x & Hin & Hx).
  by rewrite (List.find_none _ _ Hf x Hin) in Hx.
Qed.

Lemma present_app u rest k o :
  present k o u → present k o (setObjects u (objects u ++ rest)).
Proof.
  unfold present, clusterGet. simpl.
  destruct (List.find _ (objects u)) as [x|] eqn:Hf; [|by intros [? ?]].
  intros _. exists (snd x).
  assert (List.find (isObject k (keyOf (meta o))) (objects u ++ rest) = Some x) as ->;
    [|reflexivity].
  clear -Hf. induction (objects u) as [|y l IH]; simpl in *; [discriminate|].
  destruct (isObject k (keyOf (meta o)) y); [assumption | by apply IH].
Qed.

(** A loop of creates on the cluster: what it adds, the events it leaves and
    the bindings it settles. *)
Lemma createBindings_on_cluster bindings resultErrors u tr errs' u' tr' :
  createBindings bindings resultErrors (u, tr) = (errs', (u', tr')) →
  ∃ rest replies,
    u' = setObjects u (objects u ++ rest)
    ∧ Forall (fun e => fst e = RabbitBinding) rest
    ∧ length replies = length bindings
    ∧ tr' = tr ++ createEvents bindings replies
    ∧ errs' = resultErrors ++ List.filter kept replies
    ∧ Forall (settled (createDenied u) (objects u ++ rest) RabbitBinding) bindings.
Proof.
  intros Hrun.
  destruct (createBindings_spec (cl:=clusterClient) bindings resultErrors u tr)
    as (replies & w' & Hspec & Hlen).
  pose proof Hrun as Hgrows.
  apply createBindings_grows in Hgrows as (rest & -> & Hkind & _ & Hsettled).
  rewrite Hrun in Hspec. injection Hspec as -> _ ->.
  by exists rest, replies.
Qed.

Ltac trace_cases_cluster H :=
  repeat first
    [ apply elem_of_cons in H as [H|H]; [try discriminate H|]
    | apply elem_of_app in H as [H|H]
    | apply elem_of_nil in H; destruct H ].

Lemma creatable_service rest :
  Forall (fun e : Kind * Object => fst e = KnativeService) rest → Forall creatableKind rest.
Proof. intros Hall. eapply Forall_impl; [exact Hall|]. intros e He. by left. Qed.

Lemma creatable_trigger rest :
  Forall (fun e : Kind * Object => fst e = KnativeTrigger) rest → Forall creatableKind rest.
Proof. intros Hall. eapply Forall_impl; [exact Hall|]. intros e He. right. by left. Qed.

Lemma creatable_binding rest :
  Forall (fun e : Kind * Object => fst e = RabbitBinding) rest → Forall creatableKind rest.
Proof. intros Hall. eapply Forall_impl; [exact Hall|]. intros e He. right. by right. Qed.

(** The block guarded by [Spec.Service != nil] on the cluster: it only adds
    compute services, triggers and bindings after what the cluster holds, and
    every object it asks for is settled in what it leaves. *)
Lemma createServiceTriggerBindings_on_cluster i resultErrors u tr r u' tr' :
  createServiceTriggerBindings i resultErrors (u, tr) = (r, (u', tr')) →
  ∃ rest added,
    u' = setObjects u (objects u ++ rest)
    ∧ Forall creatableKind rest
    ∧ tr' = tr ++ added
    ∧ List.filter isUpdate added = []
    ∧ ∀ k o e, (CallCreate k o, Replied e) ∈ added →
        settled (createDenied u) (objects u ++ rest) k o.
Proof.
  unfold createServiceTriggerBindings, bind, Create, Get, List_, ret.
  cbn [clientCreate clientGet clientList clusterClient].
  destruct (clusterCreate KnativeService (GetService i) u) as [e1 u1] eqn:C1.
  apply clusterCreate_grows in C1 as (r1 & -> & K1 & _ & S1).
  destruct (clusterCreate KnativeTrigger _ _) as [e2 u2] eqn:C2.
  apply clusterCreate_grows in C2 as (r2 & -> & K2 & _ & S2).
  rewrite setObjects_setObjects in *. cbn [objects createDenied setObjects] in *.
  apply creatable_service in K1. apply creatable_trigger in K2.
  set (u2 := setObjects u ((objects u ++ r1) ++ r2)) in *.
  rewrite (clusterGet_eq KnativeTrigger _ u2).
  rewrite (clusterList_eq RabbitQueue _ _ u2).
  cbv beta iota zeta.
  assert (∀ (tail : list Event) rest',
    (∀ k o e, (CallCreate k o, Replied e) ∈ tail →
       settled (createDenied u) (((objects u ++ r1) ++ r2) ++ rest') k o) →
    ∀ k o e,
      (CallCreate k o, Replied e)
        ∈ [(CallCreate KnativeService (GetService i), Replied e1);
           (CallCreate KnativeTrigger (GetTwinInterfaceTrigger i), Replied e2)] ++ tail →
      settled (createDenied u) (((objects u ++ r1) ++ r2) ++ rest') k o) as Hopen.
  { intros tail rest' Htail k o e Hin. trace_cases_cluster Hin.
    - injection Hin as -> ->. rewrite <- (app_assoc (objects u ++ r1)). by apply settled_app.
    - injection Hin as -> ->. by apply settled_app.
    - by eapply Htail. }
  destruct (fst (fst (clusterList RabbitQueue _ _ u2))) as [|q0 qs].
  { intros [= <- <- <-]. exists (r1 ++ r2). eexists.
    split; [subst u2; by rewrite app_assoc|]. split; [by apply Forall_app|].
    rewrite <- !app_assoc. split; [reflexivity|]. split; [reflexivity|].
    intros k o e Hin. rewrite <- (app_nil_r (objects u ++ r1 ++ r2)), !app_assoc.
    eapply (Hopen _ []); [|exact Hin].
    intros ??? Hc. trace_cases_cluster Hc. }
  rewrite (clusterList_eq RabbitExchange _ _ u2). cbv beta iota zeta.
  destruct (fst (fst (clusterList RabbitExchange _ _ u2))) as [|x0 xs].
  { intros [= <- <- <-]. exists (r1 ++ r2). eexists.
    split; [subst u2; by rewrite app_assoc|]. split; [by apply Forall_app|].
    rewrite <- !app_assoc. split; [reflexivity|]. split; [reflexivity|].
    intros k o e Hin. rewrite <- (app_nil_r (objects u ++ r1 ++ r2)), !app_assoc.
    eapply (Hopen _ []); [|exact Hin].
    intros ??? Hc. trace_cases_cluster Hc. }
  rewrite (clusterList_eq RabbitQueue _ _ u2). cbv beta iota zeta.
  destruct (fst (fst (clusterList RabbitQueue _ _ u2))) as [|qi qis].
  { intros [= <- <- <-]. exists (r1 ++ r2). eexists.
    split; [subst u2; by rewrite app_assoc|]. split; [by apply Forall_app|].
    rewrite <- !app_assoc. split; [reflexivity|]. split; [reflexivity|].
    intros k o e Hin. rewrite <- (app_nil_r (objects u ++ r1 ++ r2)), !app_assoc.
    eapply (Hopen _ []); [|exact Hin].
    intros ??? Hc. trace_cases_cluster Hc. }
  match goal with
  | |- context [createBindings ?bs ?errs (u2, ?t)] =>
      destruct (createBindings bs errs (u2, t)) as [errs3 [u3 tr3]] eqn:B1
  end.
  apply createBindings_on_cluster in B1 as (r3 & replies1 & -> & K3 & _ & -> & _ & S3).
  match goal with
  | |- context [createBindings ?bs ?errs (?w, ?t)] =>
      destruct (createBindings bs errs (w, t)) as [errs4 [u4 tr4]] eqn:B2
  end.
  apply createBindings_on_cluster in B2 as (r4 & replies2 & -> & K4 & _ & -> & _ & S4).
  apply creatable_binding in K3. apply creatable_binding in K4.
  intros [= <- <- <-]. exists (r1 ++ r2 ++ r3 ++ r4). eexists.
  split; [subst u2; cbn [objects setObjects]; by rewrite !setObjects_setObjects, !app_assoc|].
  split; [by repeat (apply Forall_app; split)|].
  rewrite <- !app_assoc. split; [reflexivity|].
  split; [simpl; by rewrite List.filter_app, !createEvents_not_update|].
  intros k o e Hin.
  replace (objects u ++ r1 ++ r2 ++ r3 ++ r4)
    with (((objects u ++ r1) ++ r2) ++ (r3 ++ r4)) by (by rewrite <- !app_assoc).
  eapply Hopen; [|exact Hin].
  intros k' o' e' Hc. cbn [objects setObjects createDenied] in S3, S4.
  trace_cases_cluster Hc.
  - apply createEvents_elem in Hc as (b & ? & [= -> ->] & _ & Hb & _).
    rewrite Forall_forall in S3. rewrite app_assoc. apply settled_app. by apply S3.
  - apply createEvents_elem in Hc as (b & ? & [= -> ->] & _ & Hb & _).
    rewrite Forall_forall in S4. rewrite app_assoc. by apply S4.
Qed.

(** A pass over an interface on the cluster: the objects it adds, and the
    update it ends with when it ends with one. *)
Lemma createUpdateTwinInterface_on_cluster i u tr0 p u' tr :
  createUpdateTwinInterface i (u, tr0) = (p, (u', tr)) →
  ∃ rest added,
    Forall creatableKind rest
    ∧ List.filter isUpdate added = []
    ∧ (∀ k o e, (CallCreate k o, Replied e) ∈ added →
         settled (createDenied u) (objects u ++ rest) k o)
    ∧ ((tr = tr0 ++ added ∧ u' = setObjects u (objects u ++ rest))
       ∨ (∃ err,
            tr = tr0 ++ added ++ [(CallUpdateTwinInterface (object p), Replied err)]
            ∧ clusterUpdateTwinInterface (object p) (setObjects u (objects u ++ rest))
              = (err, u')
            ∧ object p
              = ti_set_Labels (ti_set_Status i TwinInterfacePhaseRunning)
                  {[ "ktwin/twin-interface" := Name (ti_meta i) ]})).
Proof.
  unfold createUpdateTwinInterface, bind.
  assert (∃ flow errs um tr1 rest added,
    match ti_Service i with
    | Some _ => createServiceTriggerBindings i []
    | None => ret (FallsThrough, [])
    end (u, tr0) = ((flow, errs), (um, tr1))
    ∧ um = setObjects u (objects u ++ rest)
    ∧ Forall creatableKind rest
    ∧ tr1 = tr0 ++ added
    ∧ List.filter isUpdate added = []
    ∧ (∀ k o e, (CallCreate k o, Replied e) ∈ added →
         settled (createDenied u) (objects u ++ rest) k o))
    as (flow & errs & um & tr1 & rest & added & -> & -> & Hkind & -> & Hnu & Hsettled).
  { destruct (ti_Service i).
    - destruct (createServiceTriggerBindings i [] (u, tr0)) as [[flow errs] [um tr1]] eqn:B.
      apply createServiceTriggerBindings_on_cluster in B
        as (rest & added & ? & ? & ? & ? & ?).
      by exists flow, errs, um, tr1, rest, added.
    - exists FallsThrough, [], u, tr0, [], [].
      rewrite !app_nil_r, setObjects_objects.
      split; [reflexivity|]. split; [reflexivity|]. split; [constructor|].
      split; [reflexivity|]. split; [reflexivity|].
      intros k o e Hin. by apply elem_of_nil in Hin. }
  cbv beta iota zeta. intros Hrun. exists rest, added.
  split; [assumption|]. split; [assumption|]. split; [assumption|].
  revert Hrun. destruct flow as [err|]; [|destruct errs as [|first more]].
  - unfold ret. intros [= <- <- <-]. by left.
  - unfold updateTwinInterface, Update_TwinInterface, bind, ret.
    cbn [clientUpdateTwinInterface clusterClient].
    destruct (clusterUpdateTwinInterface _ _) as [err u2] eqn:U.
    destruct err; cbv beta iota zeta; cbn [notNil]; intros [= <- <- <-];
      right; eexists; (split; [by rewrite <- app_assoc|]); by split.
  - unfold ret. intros [= <- <- <-]. by left.
Qed.

Lemma find_app_found {A : Type} (f : A → bool) l rest x :
  List.find f l = Some x → List.find f (l ++ rest) = Some x.
Proof.
  induction l as [|y l IH]; simpl; [discriminate|].
  destruct (f y); [done | exact IH].
Qed.

Lemma find_replaceBy_other i key l :
  key ≠ keyOf (ti_meta i) →
  List.find (isTwinInterface key) (List.map (replaceBy i) l)
  = List.find (isTwinInterface key) l.
Proof.
  intros Hkey. induction l as [|x l IH]; cbn [List.find List.map]; [reflexivity|].
  unfold replaceBy at 1 2.
  destruct (isTwinInterface (keyOf (ti_meta i)) x) eqn:Hx.
  - assert (isTwinInterface key i = false) as ->
      by (unfold isTwinInterface; by rewrite bool_decide_eq_false_2).
    assert (isTwinInterface key x = false) as ->; [|exact IH].
    unfold isTwinInterface in *. apply bool_decide_eq_true in Hx.
    rewrite bool_decide_eq_false_2; congruence.
  - by rewrite IH.
Qed.

(** An update that answers nil has written the object. *)
Lemma clusterUpdateTwinInterface_ok i u u1 :
  clusterUpdateTwinInterface i u = (None, u1) →
  u1 = setTwinInterfaces u (List.map (replaceBy i) (twinInterfaces u))
  ∧ List.find (isTwinInterface (keyOf (ti_meta i))) (twinInterfaces u1) = Some i.
Proof.
  unfold clusterUpdateTwinInterface.
  destruct (updateDenied u (keyOf (ti_meta i))); [discriminate|].
  destruct (List.existsb _ _) eqn:Hex; [|discriminate].
  intros [= <-]. split; [reflexivity|]. simpl.
  apply List.existsb_exists in Hex as (x & Hin & Hx).
  destruct (List.find (isTwinInterface (keyOf (ti_meta i))) (twinInterfaces u)) eqn:Hf.
  - by eapply find_replaceBy.
  - by rewrite (List.find_none _ _ Hf x Hin) in Hx.
Qed.

(** What a reconcile of an interface leaves of the cluster: every object the
    cluster held is still there, in place; what is added is compute services,
    triggers and bindings; instances, and interfaces of another name, are
    left as they were; and the queues and exchanges a [List] finds are the
    same as before. *)
Theorem reconcile_leaves_the_rest_of_the_cluster req u p u' tr :
  TwinInterfaceReconciler_Reconcile req (u, []) = (p, (u', tr)) →
  (∃ rest, objects u' = objects u ++ rest ∧ Forall creatableKind rest)
  ∧ twinInstances u' = twinInstances u
  ∧ (∀ key, key ≠ (fst req, snd req) →
       fst (clusterGetTwinInterface key u') = fst (clusterGetTwinInterface key u))
  ∧ (∀ ns sel,
       fst (clusterList RabbitQueue ns sel u') = fst (clusterList RabbitQueue ns sel u)
       ∧ fst (clusterList RabbitExchange ns sel u')
         = fst (clusterList RabbitExchange ns sel u))
  ∧ (∀ k key o, fst (clusterGet k key u) = inl o → fst (clusterGet k key u') = inl o).
Proof.
  unfold TwinInterfaceReconciler_Reconcile, bind, Get_TwinInterface.
  cbn [clientGetTwinInterface clusterClient].
  destruct (clusterGetTwinInterface (fst req, snd req) u) as [[i|err] u0] eqn:G.
  2:{ unfold clusterGetTwinInterface in G.
      destruct (List.find _ _); [discriminate|]. injection G as <- <-.
      unfold ret. simpl. intros [= <- <- <-].
      split; [exists []; by rewrite app_nil_r|]. done. }
  apply clusterGetTwinInterface_found in G as (-> & Hkey & Hf).
  cbv beta iota zeta. intros Hrun.
  apply createUpdateTwinInterface_on_cluster in Hrun
    as (rest & added & Hkind & _ & _ & Hworld).
  assert (objects u' = objects u ++ rest
          ∧ twinInstances u' = twinInstances u
          ∧ (twinInterfaces u' = twinInterfaces u
             ∨ ∃ j, keyOf (ti_meta j) = (fst req, snd req)
                    ∧ twinInterfaces u' = List.map (replaceBy j) (twinInterfaces u)))
    as (Hobjects & Hinstances & Hinterfaces).
  { destruct Hworld as [[_ ->] | (err & _ & U & Hobj)]; [by repeat split; try left|].
    apply clusterUpdateTwinInterface_cases in U as [-> | (_ & _ & ->)].
    - by repeat split; try left.
    - repeat split. right. exists (object p). split; [|reflexivity].
      by rewrite Hobj. }
  split; [by exists rest|]. split; [assumption|]. split; [|split].
  - intros key Hne. unfold clusterGetTwinInterface.
    destruct Hinterfaces as [-> | (j & Hj & ->)].
    + by destruct (List.find (isTwinInterface key) _).
    + rewrite find_replaceBy_other by congruence.
      by destruct (List.find (isTwinInterface key) _).
  - intros ns sel. unfold clusterList. simpl. rewrite Hobjects.
    rewrite !filter_isListed_app; [done| |];
      (eapply Forall_impl; [exact Hkind|]; intros e [He|[He|He]]; rewrite He; discriminate).
  - intros k key o. unfold clusterGet. rewrite Hobjects.
    destruct (List.find _ (objects u)) as [x|] eqn:Hfind; [|discriminate].
    intros [= <-]. by rewrite (find_app_found _ _ _ _ Hfind).
Qed.

(** An update of the interface that answers nil is persisted: the interface
    fetched from the cluster afterwards is the object the pass left, with the
    phase [Running] and the identity label. *)
Theorem successful_update_is_persisted req u p u' tr j :
  TwinInterfaceReconciler_Reconcile req (u, []) = (p, (u', tr)) →
  (CallUpdateTwinInterface j, Replied None) ∈ tr →
  clusterGetTwinInterface (fst req, snd req) u' = (inl (object p), u')
  ∧ j = object p
  ∧ ti_Status (object p) = TwinInterfacePhaseRunning
  ∧ Labels (ti_meta (object p)) !! "ktwin/twin-interface" = Some (snd req).
Proof.
  unfold TwinInterfaceReconciler_Reconcile, bind, Get_TwinInterface.
  cbn [clientGetTwinInterface clusterClient].
  destruct (clusterGetTwinInterface (fst req, snd req) u) as [[i|err] u0] eqn:G.
  2:{ unfold ret. destruct (IsNotFound (Some err)); intros [= <- <- <-] Hin;
        trace_cases_cluster Hin. }
  apply clusterGetTwinInterface_found in G as (-> & Hkey & Hf).
  cbv beta iota zeta. intros Hrun Hin.
  apply createUpdateTwinInterface_on_cluster in Hrun
    as (rest & added & _ & Hnu & _ & [[-> ->] | (err & -> & U & Hobj)]).
  - exfalso. trace_cases_cluster Hin.
    assert (List.In (CallUpdateTwinInterface j, Replied None) (List.filter isUpdate added))
      as Hf' by (apply List.filter_In; split; [by apply list_elem_of_In | reflexivity]).
    by rewrite Hnu in Hf'.
  - trace_cases_cluster Hin.
    { exfalso.
      assert (List.In (CallUpdateTwinInterface j, Replied None) (List.filter isUpdate added))
        as Hf' by (apply List.filter_In; split; [by apply list_elem_of_In | reflexivity]).
      by rewrite Hnu in Hf'. }
    injection Hin as -> <-.
    apply clusterUpdateTwinInterface_ok in U as [_ Hfind].
    assert (keyOf (ti_meta (object p)) = (fst req, snd req)) as Hkey'
      by (by rewrite Hobj).
    split.
    { unfold clusterGetTwinInterface. by rewrite <- Hkey', Hfind. }
    split; [reflexivity|]. rewrite Hobj. simpl. split; [reflexivity|].
    rewrite lookup_singleton_eq. f_equal. by injection Hkey.
Qed.


(** *** The TwinInstance controller on the cluster *)

Lemma isTwinInstance_self n : isTwinInstance (keyOf (tn_meta n)) n = true.
Proof. unfold isTwinInstance. by rewrite bool_decide_eq_true_2. Qed.

Lemma find_isTwinInstance_key key l n :
  List.find (isTwinInstance key) l = Some n → keyOf (tn_meta n) = key.
Proof.
  intros Hf. apply List.find_some in Hf as [_ Hk]. unfold isTwinInstance in Hk.
  by apply bool_decide_eq_true in Hk.
Qed.

Lemma find_replace_instance n l m :
  List.find (isTwinInstance (keyOf (tn_meta n))) l = Some m →
  List.find (isTwinInstance (keyOf (tn_meta n)))
    (List.map (fun j => if isTwinInstance (keyOf (tn_meta n)) j then n else j) l)
  = Some n.
Proof.
  induction l as [|x l IH]; cbn [List.find List.map]; [discriminate|].
  destruct (isTwinInstance (keyOf (tn_meta n)) x) eqn:Hx.
  - intros _. by rewrite isTwinInstance_self.
  - rewrite Hx. exact IH.
Qed.

Lemma replace_instance_idempotent n l :
  let f := fun j => if isTwinInstance (keyOf (tn_meta n)) j then n else j in
  List.map f (List.map f l) = List.map f l.
Proof.
  intros f. rewrite List.map_map. apply List.map_ext. intros j. unfold f.
  destruct (isTwinInstance (keyOf (tn_meta n)) j) eqn:Hj.
  - by rewrite isTwinInstance_self.
  - by rewrite Hj.
Qed.

Lemma deniedErrors_nil denied bindings :
  (∀ b, b ∈ bindings → denied RabbitBinding b = None) →
  deniedErrors denied bindings = [].
Proof.
  induction bindings as [|b bs IH]; intros Hnone; [reflexivity|].
  unfold deniedErrors. cbn [List.flat_map].
  rewrite (Hnone b) by apply list_elem_of_here.
  cbn [keep notNil app]. apply IH. intros b' Hb'. apply Hnone.
  by apply list_elem_of_further.
Qed.

(** A reconcile of an instance the cluster holds, with its interface. *)
Lemma TwinInstanceReconciler_Reconcile_found req u n i :
  List.find (isTwinInstance (fst req, snd req)) (twinInstances u) = Some n →
  List.find (isTwinInterface (Namespace (tn_meta n), tn_Interface n)) (twinInterfaces u)
  = Some i →
  TwinInstanceReconciler_Reconcile req (u, [])
  = createUpdateTwinInstance n i
      (u, [(CallGetTwinInstance (fst req, snd req), Replied None);
           (CallGetTwinInterface (Namespace (tn_meta n), tn_Interface n), Replied None)]).
Proof.
  intros Hn Hi.
  unfold TwinInstanceReconciler_Reconcile, bind, Get_TwinInstance, Get_TwinInterface.
  cbn [clientGetTwinInstance clientGetTwinInterface clusterClient].
  unfold clusterGetTwinInstance. rewrite Hn. cbv beta iota zeta.
  unfold clusterGetTwinInterface. rewrite Hi. reflexivity.
Qed.

(** A pass over an instance, from what its loop of creates gives. *)
Lemma createUpdateTwinInstance_from_loop n i u tr0 errs um tr1 :
  createBindings (GetMQQTDispatcherBindings n) [] (u, tr0) = (errs, (um, tr1)) →
  createUpdateTwinInstance n i (u, tr0)
  = match errs with
    | first :: _ =>
        (mkPass first (tn_set_Status n TwinInstancePhaseFailed) errs, (um, tr1))
    | [] =>
        let n' := tn_set_Labels (tn_set_Status n TwinInstancePhaseRunning)
                    {[ "ktwin/twin-interface" := Name (tn_meta n) ]} in
        let '(err, u') := clusterUpdateTwinInstance n' um in
        (mkPass None n' [], (u', tr1 ++ [(CallUpdateTwinInstance n', Replied err)]))
    end.
Proof.
  intros Hloop. unfold createUpdateTwinInstance, bind. rewrite Hloop.
  destruct errs as [|first more]; [|reflexivity].
  unfold updateTwinInstance, Update_TwinInstance, bind, ret.
  cbn [clientUpdateTwinInstance clusterClient].
  destruct (clusterUpdateTwinInstance _ um) as [err u']. by destruct err.
Qed.

(** The instance reconciler on a cluster that holds the instance and its
    interface, refuses none of its dispatcher bindings and does not refuse
    the update: the pass returns nil, the instance the cluster holds
    afterwards is the one the pass left, [Running] and labelled with its own
    name, and every dispatcher binding is held by the cluster. *)
Theorem instance_converges_on_cluster req u n i p u' tr :
  fst (clusterGetTwinInstance (fst req, snd req) u) = inl n →
  fst (clusterGetTwinInterface (Namespace (tn_meta n), tn_Interface n) u) = inl i →
  (∀ b, b ∈ GetMQQTDispatcherBindings n → createDenied u RabbitBinding b = None) →
  updateDenied u (fst req, snd req) = None →
  TwinInstanceReconciler_Reconcile req (u, []) = (p, (u', tr)) →
  returned p = None
  ∧ accumulated p = []
  ∧ fst (clusterGetTwinInstance (fst req, snd req) u') = inl (object p)
  ∧ tn_Status (object p) = TwinInstancePhaseRunning
  ∧ Labels (tn_meta (object p)) = {[ "ktwin/twin-interface" := snd req ]}
  ∧ ∀ b, b ∈ GetMQQTDispatcherBindings n → present RabbitBinding b u'.
Proof.
  intros Hn Hi Hcreate Hupdate.
  assert (List.find (isTwinInstance (fst req, snd req)) (twinInstances u) = Some n) as Hn'.
  { unfold clusterGetTwinInstance in Hn.
    destruct (List.find (isTwinInstance _) _); simpl in Hn; congruence. }
  assert (List.find (isTwinInterface (Namespace (tn_meta n), tn_Interface n))
            (twinInterfaces u) = Some i) as Hi'.
  { unfold clusterGetTwinInterface in Hi.
    destruct (List.find (isTwinInterface _) _); simpl in Hi; congruence. }
  pose proof (find_isTwinInstance_key _ _ _ Hn') as Hkey.
  rewrite (TwinInstanceReconciler_Reconcile_found _ _ _ _ Hn' Hi').
  match goal with
  | |- createUpdateTwinInstance _ _ (u, ?t) = _ → _ =>
      destruct (createBindings (GetMQQTDispatcherBindings n) [] (u, t))
        as [errs [um tr1]] eqn:Hloop
  end.
  rewrite (createUpdateTwinInstance_from_loop _ _ _ _ _ _ _ Hloop).
  apply createBindings_grows in Hloop as (rest & -> & _ & -> & Hsettled).
  rewrite (deniedErrors_nil _ _ Hcreate). cbn [app].
  set (n' := tn_set_Labels _ _).
  assert (keyOf (tn_meta n') = (fst req, snd req)) as Hkey' by (by rewrite <- Hkey).
  unfold clusterUpdateTwinInstance.
  cbn [updateDenied twinInstances setObjects]. rewrite Hkey', Hupdate.
  rewrite (find_existsb _ _ _ Hn'). intros [= <- <- <-].
  cbn [returned accumulated object].
  split; [reflexivity|]. split; [reflexivity|]. split.
  { unfold clusterGetTwinInstance. cbn [twinInstances setTwinInstances].
    rewrite <- Hkey' in Hn' |- *. by rewrite (find_replace_instance _ _ _ Hn'). }
  split; [reflexivity|]. split.
  { subst n'. simpl. f_equal. by injection Hkey. }
  intros b Hb.
  apply (settled_present (setTwinInstances (setObjects u (objects u ++ rest)) _)).
  - cbn [createDenied objects setTwinInstances setObjects].
    rewrite Forall_forall in Hsettled. by apply Hsettled.
  - cbn [createDenied setTwinInstances setObjects]. by apply Hcreate.
Qed.

(** The instance reconciler run twice in a row on the cluster, with a
    generator that reads the declaration of the instance only: the second run
    gives the pass of the first and leaves the cluster as the first left
    it. *)
Theorem instance_reconcile_twice_is_idempotent req u p1 u1 tr1 p2 u2 tr2 :
  readInstanceDeclarationOnly TE →
  TwinInstanceReconciler_Reconcile req (u, []) = (p1, (u1, tr1)) →
  TwinInstanceReconciler_Reconcile req (u1, []) = (p2, (u2, tr2)) →
  p2 = p1 ∧ u2 = u1.
Proof.
  intros Hgen.
  destruct (List.find (isTwinInstance (fst req, snd req)) (twinInstances u))
    as [n|] eqn:Hn.
  2:{ unfold TwinInstanceReconciler_Reconcile, bind, Get_TwinInstance.
      cbn [clientGetTwinInstance clusterClient].
      unfold clusterGetTwinInstance at 1. rewrite Hn. cbv beta iota zeta.
      cbn [IsNotFound]. unfold ret. intros [= <- <- <-].
      unfold clusterGetTwinInstance. rewrite Hn. cbv beta iota zeta.
      cbn [IsNotFound]. by intros [= <- <-]. }
  destruct (List.find (isTwinInterface (Namespace (tn_meta n), tn_Interface n))
              (twinInterfaces u)) as [i|] eqn:Hi.
  2:{ unfold TwinInstanceReconciler_Reconcile, bind, Get_TwinInstance, Get_TwinInterface.
      cbn [clientGetTwinInstance clientGetTwinInterface clusterClient].
      unfold clusterGetTwinInstance at 1. rewrite Hn. cbv beta iota zeta.
      unfold clusterGetTwinInterface at 1. rewrite Hi. cbv beta iota zeta.
      unfold ret. intros [= <- <- <-].
      unfold clusterGetTwinInstance. rewrite Hn. cbv beta iota zeta.
      unfold clusterGetTwinInterface. rewrite Hi. cbv beta iota zeta.
      by intros [= <- <-]. }
  pose proof (find_isTwinInstance_key _ _ _ Hn) as Hkey.
  rewrite (TwinInstanceReconciler_Reconcile_found _ _ _ _ Hn Hi).
  match goal with
  | |- createUpdateTwinInstance _ _ (u, ?t) = _ → _ =>
      destruct (createBindings (GetMQQTDispatcherBindings n) [] (u, t))
        as [errs [um tr']] eqn:Hloop
  end.
  rewrite (createUpdateTwinInstance_from_loop _ _ _ _ _ _ _ Hloop).
  apply createBindings_grows in Hloop as (rest & -> & _ & Herrs & Hsettled).
  cbn [app] in Herrs.
  set (um := setObjects u (objects u ++ rest)) in *.
  assert (∀ v m,
    twinInterfaces v = twinInterfaces u → objects v = objects um →
    createDenied v = createDenied u →
    List.find (isTwinInstance (fst req, snd req)) (twinInstances v) = Some m →
    Namespace (tn_meta m) = Namespace (tn_meta n) → Name (tn_meta m) = Name (tn_meta n) →
    tn_Interface m = tn_Interface n →
    ∃ t,
      TwinInstanceReconciler_Reconcile req (v, [])
      = match errs with
        | first :: _ =>
            (mkPass first (tn_set_Status m TwinInstancePhaseFailed) errs, (v, t))
        | [] =>
            let m' := tn_set_Labels (tn_set_Status m TwinInstancePhaseRunning)
                        {[ "ktwin/twin-interface" := Name (tn_meta m) ]} in
            let '(err, v') := clusterUpdateTwinInstance m' v in
            (mkPass None m' [], (v', t ++ [(CallUpdateTwinInstance m', Replied err)]))
        end) as Hagain.
  { intros v m Hvi Hvo Hvd Hm Hns Hname Hintf.
    rewrite (TwinInstanceReconciler_Reconcile_found req v m i Hm)
      by (by rewrite Hns, Hintf, Hvi).
    match goal with
    | |- ∃ _, createUpdateTwinInstance _ _ (v, ?t0) = _ =>
        destruct (createBindings_settled (GetMQQTDispatcherBindings m) [] v t0)
          as [t Hloop]
    end.
    { rewrite (Hgen m n Hname Hns Hintf), Hvd, Hvo. exact Hsettled. }
    exists t. rewrite (createUpdateTwinInstance_from_loop _ _ _ _ _ _ _ Hloop).
    cbn [app]. by rewrite (Hgen m n Hname Hns Hintf), Hvd, <- Herrs. }
  destruct errs as [|first more].
  - set (n' := tn_set_Labels _ _).
    assert (keyOf (tn_meta n') = (fst req, snd req)) as Hkey' by (by rewrite <- Hkey).
    unfold clusterUpdateTwinInstance at 1.
    cbn [updateDenied twinInstances setObjects um]. rewrite Hkey'.
    destruct (updateDenied u (fst req, snd req)) as [e|] eqn:Hupdate.
    + intros [= <- <- <-].
      destruct (Hagain um n) as [t ->]; try done.
      unfold clusterUpdateTwinInstance. fold n'. rewrite Hkey'.
      cbn [updateDenied setObjects um]. rewrite Hupdate. by intros [= <- <-].
    + rewrite (find_existsb _ _ _ Hn). intros [= <- <- <-].
      match goal with
      | |- TwinInstanceReconciler_Reconcile req (?v, []) = _ → _ =>
          destruct (Hagain v n') as [t ->]; try done
      end.
      { cbn [twinInstances setTwinInstances].
        rewrite <- Hkey' in Hn |- *. by rewrite (find_replace_instance _ _ _ Hn). }
      change (tn_set_Labels (tn_set_Status n' TwinInstancePhaseRunning)
                {[ "ktwin/twin-interface" := Name (tn_meta n') ]}) with n'.
      unfold clusterUpdateTwinInstance. rewrite Hkey'.
      cbn [updateDenied twinInstances setTwinInstances setObjects um].
      rewrite Hupdate.
      assert (List.find (isTwinInstance (keyOf (tn_meta n')))
                (List.map (fun j => if isTwinInstance (keyOf (tn_meta n')) j then n' else j)
                   (twinInstances u)) = Some n') as Hfound.
      { rewrite <- Hkey' in Hn. by rewrite (find_replace_instance _ _ _ Hn). }
      rewrite Hkey' in Hfound. rewrite (find_existsb _ _ _ Hfound).
      rewrite <- Hkey'. rewrite (replace_instance_idempotent n' (twinInstances u)).
      by intros [= <- <-].
  - intros [= <- <- <-].
    destruct (Hagain um n) as [t ->]; try done.
    by intros [= <- <-].
Qed.

End ClusterProperties.

(** ** The service of an event store *)

Lemma append_cancel_r (a b s : string) :
  String.append a s = String.append b s → a = b.
Proof.
  assert (∀ x y, String.length (String.append x y) = String.length x + String.length y)
    as Hlen by (intros x y; induction x as [|? x IHx]; simpl; [reflexivity | by rewrite IHx]).
  revert b. induction a as [|c a IH]; intros [|d b]; simpl; intros Heq.
  - reflexivity.
  - apply (f_equal String.length) in Heq. simpl in Heq. rewrite !Hlen in Heq.
    simpl in Heq. lia.
  - apply (f_equal String.length) in Heq. simpl in Heq. rewrite !Hlen in Heq.
    simpl in Heq. lia.
  - injection Heq as -> Heq. f_equal. by apply IH.
Qed.

Lemma append_not_self (a s : string) :
  s ≠ EmptyString → String.append a s ≠ a.
Proof.
  intros Hs Heq. apply Hs.
  assert (String.length s = 0) as Hz.
  { apply (f_equal String.length) in Heq.
    assert (String.length (String.append a s) = String.length a + String.length s)
      as Hlen by (clear; induction a as [|? a IHa]; simpl; [reflexivity | by rewrite IHa]).
    lia. }
  by destruct s.
Qed.

(** A selector on the label [ktwin/event-store] matches the service of an
    event store exactly when it asks for the name of that store. *)
Theorem event_store_label_selects_its_service (es : eventStore.corev0_EventStore)
    (name : string) :
  matchingLabels {[ "ktwin/event-store" := name ]}
    (eventStore.om_Labels
       (eventStore.s_ObjectMeta
          (eventStore.GetEventStoreService eventStore.NewEventStore es))) = true
  ↔ name = eventStore.om_Name (eventStore.es_ObjectMeta es).
Proof.
  unfold matchingLabels. simpl. rewrite bool_decide_eq_true, map_Forall_singleton.
  rewrite lookup_singleton_eq. split; [by intros [= ->] | by intros ->].
Qed.

(** The service generated for an event store is a function of the kind, API
    version, name, namespace and UID of the store and of nothing else: two
    stores have the same service exactly when they agree on the five. *)
Theorem event_store_service_depends_on_identity_only (a b : eventStore.corev0_EventStore) :
  eventStore.GetEventStoreService eventStore.NewEventStore a
  = eventStore.GetEventStoreService eventStore.NewEventStore b
  ↔ eventStore.tm_Kind (eventStore.es_TypeMeta a)
    = eventStore.tm_Kind (eventStore.es_TypeMeta b)
    ∧ eventStore.tm_APIVersion (eventStore.es_TypeMeta a)
      = eventStore.tm_APIVersion (eventStore.es_TypeMeta b)
    ∧ eventStore.om_Name (eventStore.es_ObjectMeta a)
      = eventStore.om_Name (eventStore.es_ObjectMeta b)
    ∧ eventStore.om_Namespace (eventStore.es_ObjectMeta a)
      = eventStore.om_Namespace (eventStore.es_ObjectMeta b)
    ∧ eventStore.om_UID (eventStore.es_ObjectMeta a)
      = eventStore.om_UID (eventStore.es_ObjectMeta b).
Proof.
  simpl. unfold eventStore.eventStore_GetEventStoreService. split.
  - intros Heq. injection Heq as Hname Hns _ Hv Hk Hn Hu _. by repeat split.
  - intros (-> & -> & -> & -> & ->). reflexivity.
Qed.

(** The revision of the service is named after the store: two stores have
    revisions of the same name exactly when they have the same name, and the
    name of the revision is never the name of the service. *)
Theorem revision_name_identifies_store (a b : eventStore.corev0_EventStore) :
  let service := eventStore.GetEventStoreService eventStore.NewEventStore in
  let revision s := eventStore.om_Name (eventStore.rt_ObjectMeta (eventStore.s_Template s)) in
  (revision (service a) = revision (service b)
   ↔ eventStore.om_Name (eventStore.es_ObjectMeta a)
     = eventStore.om_Name (eventStore.es_ObjectMeta b))
  ∧ revision (service a) ≠ eventStore.om_Name (eventStore.s_ObjectMeta (service a)).
Proof.
  simpl. split; [split|].
  - apply append_cancel_r.
  - by intros ->.
  - by apply append_not_self.
Qed.

(** * The reconcilers on the clusters of the scenarios *)

Lemma sample_generators_read_declaration :
  readDeclarationOnly sampleTwinService sampleTwinEvent sampleEventStore.
Proof.
  intros i j (Hname & Hns & _). simpl. rewrite Hname, Hns. done.
Qed.

(** The end-to-end scenario of the spec: one trigger, one compute service,
    two relationship bindings and one event-store binding are created, the
    phase is [Running] and the identity label is set. *)
Example end_to_end_scenario :
  returned (passOf (reconcileSensor fullCluster)) = None
  ∧ ti_Status (object (passOf (reconcileSensor fullCluster))) = PhaseRunning
  ∧ Labels (ti_meta (object (passOf (reconcileSensor fullCluster))))
    = {[ "ktwin/twin-interface" := "temperature-sensor" ]}
  ∧ List.map (fun o => Name (meta o)) (bindingsOf "ktwin" (clusterOf (reconcileSensor fullCluster)))
    = ["temperature-sensor-real-temperature-sensor-queue";
       "temperature-sensor-virtual-temperature-sensor-queue";
       "temperature-sensor-event-store-event-store-queue"]
  ∧ twinInterfaces (clusterOf (reconcileSensor fullCluster))
    = [object (passOf (reconcileSensor fullCluster))].
Proof. vm_compute. repeat split. Qed.

(** After the first run the second run finds everything in place: its
    creates are answered already-exists, and nothing is accumulated. *)
Example second_run_finds_everything :
  List.map snd (List.filter isCreate (traceOf secondRun))
  = [Replied (Some AlreadyExists); Replied (Some AlreadyExists);
     Replied (Some AlreadyExists); Replied (Some AlreadyExists);
     Replied (Some AlreadyExists)]
  ∧ accumulated (passOf secondRun) = []
  ∧ ti_Status (object (passOf secondRun)) = PhaseRunning
  ∧ returned (passOf secondRun) = None.
Proof. vm_compute. repeat split. Qed.

(** C1, the code at the failing input: the namespace has the default
    exchange and the queue of the interface but no event-store queue.  The
    pass stops at the [List] of the event-store queue: the exchange and the
    queue of the interface are never listed, no binding is created, nil is
    returned and the phase is left unset. *)
Theorem event_store_queue_absent_stops_pass :
  List.map fst (traceOf noEventStoreQueueRun)
  = [CallGetTwinInterface ("ktwin", "temperature-sensor");
     CallCreate KnativeService (@GetService sampleTwinService temperatureSensor);
     CallCreate KnativeTrigger (@GetTwinInterfaceTrigger sampleTwinEvent temperatureSensor);
     CallGet KnativeTrigger ("ktwin", "temperature-sensor");
     CallList RabbitQueue "ktwin" eventStoreSelector]
  ∧ bindingsOf "ktwin" (clusterOf noEventStoreQueueRun) = []
  ∧ accumulated (passOf noEventStoreQueueRun) = [None]
  ∧ returned (passOf noEventStoreQueueRun) = None
  ∧ ti_Status (object (passOf noEventStoreQueueRun)) = PhaseUnset.
Proof. vm_compute. repeat split. Qed.

(** C2, the code at the failing input: the cluster refuses the compute
    service.  The error list is not empty, the phase of the in-memory object
    is [Failed] and the first error is returned; but the identity label is
    not applied, no update is issued, and the stored interface is as it was,
    its phase unset. *)
Theorem failed_phase_is_not_persisted :
  accumulated (passOf refusedRun) = [Some (Other "refused")]
  ∧ returned (passOf refusedRun) = Some (Other "refused")
  ∧ ti_Status (object (passOf refusedRun)) = TwinInterfacePhaseFailed
  ∧ Labels (ti_meta (object (passOf refusedRun))) = ∅
  ∧ List.filter isUpdate (traceOf refusedRun) = []
  ∧ twinInterfaces (clusterOf refusedRun) = [temperatureSensor]
  ∧ ti_Status temperatureSensor = PhaseUnset.
Proof. vm_compute. repeat split. Qed.

(** C3, the code at the failing input: the namespace has neither the default
    exchange nor the event-store queue.  The compute service and the trigger
    are created and no binding is, but the pass stops before the exchange is
    listed and the phase is left unset, not [Failed]. *)
Theorem no_exchange_no_event_store_queue_leaves_phase :
  List.map fst (objects (clusterOf bareRun)) = [KnativeService; KnativeTrigger]
  ∧ bindingsOf "ktwin" (clusterOf bareRun) = []
  ∧ List.filter isList (traceOf bareRun)
    = [(CallList RabbitQueue "ktwin" eventStoreSelector, Listed [] None)]
  ∧ returned (passOf bareRun) = None
  ∧ ti_Status (object (passOf bareRun)) = PhaseUnset
  ∧ ti_Status (object (passOf bareRun)) ≠ TwinInterfacePhaseFailed.
Proof. vm_compute. repeat split. discriminate. Qed.

(** With the event-store queue in place, a missing default exchange does set
    the phase of the in-memory object to [Failed], with the compute service
    and the trigger created and no binding. *)
Example no_exchange_with_event_store_queue :
  List.map fst (objects (clusterOf noExchangeRun))
  = [RabbitQueue; RabbitQueue; KnativeService; KnativeTrigger]
  ∧ bindingsOf "ktwin" (clusterOf noExchangeRun) = []
  ∧ ti_Status (object (passOf noExchangeRun)) = TwinInterfacePhaseFailed
  ∧ accumulated (passOf noExchangeRun) = [None]
  ∧ returned (passOf noExchangeRun) = None.
Proof. vm_compute. repeat split. Qed.

(** C4, as stated, fails: the cluster refuses the compute service and has no
    default exchange.  The [List] of the exchange answers nil with no items,
    yet the first element of the error list is the refusal, not nil, and the
    refusal is what [Reconcile] returns. *)
Lemma nil_is_not_always_first :
  (CallList RabbitExchange "ktwin" brokerSelector, Listed [] None) ∈ traceOf refusedNoExchangeRun
  ∧ accumulated (passOf refusedNoExchangeRun) = [Some (Other "refused"); None]
  ∧ head (accumulated (passOf refusedNoExchangeRun)) ≠ Some None
  ∧ returned (passOf refusedNoExchangeRun) = Some (Other "refused")
  ∧ returned (passOf refusedNoExchangeRun) ≠ None.
Proof.
  split; [vm_compute; repeat constructor|].
  vm_compute. repeat split; discriminate.
Qed.

(** The amended C4 on the namespace without the default exchange: nothing
    was accumulated before the nil of the [List]. *)
Lemma empty_list_appends_nil_witness :
  ∃ earlier, accumulated (passOf noExchangeRun) = earlier ++ [None]
    ∧ (earlier = [] →
         head (accumulated (passOf noExchangeRun)) = Some None
         ∧ returned (passOf noExchangeRun) = None)
    ∧ (RabbitExchange = RabbitExchange ∨ brokerSelector ≠ eventStoreSelector →
         ti_Status (object (passOf noExchangeRun)) = TwinInterfacePhaseFailed
         ∧ head (accumulated (passOf noExchangeRun)) = Some (returned (passOf noExchangeRun))).
Proof.
  apply (@empty_list_appends_nil Cluster clusterClient
           sampleTwinService sampleTwinEvent sampleEventStore
           ("ktwin", "temperature-sensor") noExchangeCluster
           (passOf noExchangeRun) (clusterOf noExchangeRun) (traceOf noExchangeRun)
           RabbitExchange "ktwin" brokerSelector).
  - vm_compute. reflexivity.
  - vm_compute. repeat constructor.
Defined.

(** C5 on the instance [orphan], whose parent is not in the cluster. *)
Lemma unresolved_parent_is_fatal_witness :
  returned (passOf orphanRun) = Some NotFound
  ∧ object (passOf orphanRun) = orphan
  ∧ List.map fst (traceOf orphanRun)
    = [CallGetTwinInstance ("ktwin", "orphan"); CallGetTwinInterface ("ktwin", "missing")]
  ∧ clusterOf orphanRun = twinCluster.
Proof.
  apply (@unresolved_parent_is_fatal Cluster clusterClient sampleTwinEvent
           ("ktwin", "orphan") twinCluster orphan twinCluster NotFound twinCluster
           (passOf orphanRun) (clusterOf orphanRun) (traceOf orphanRun)).
  - vm_compute. reflexivity.
  - vm_compute. reflexivity.
  - vm_compute. reflexivity.
Defined.

(** C6 on the interface [thermostat], which declares no compute service. *)
Lemma no_service_only_fetch_and_update_witness :
  ti_Status (object (passOf thermostatRun)) = TwinInterfacePhaseRunning
  ∧ List.map fst (traceOf thermostatRun)
    = [CallGetTwinInterface ("ktwin", "thermostat");
       CallUpdateTwinInterface (object (passOf thermostatRun))]
  ∧ accumulated (passOf thermostatRun) = []
  ∧ returned (passOf thermostatRun) = None.
Proof.
  apply (@no_service_only_fetch_and_update Cluster clusterClient
           sampleTwinService sampleTwinEvent sampleEventStore
           ("ktwin", "thermostat") twinCluster thermostat twinCluster
           (passOf thermostatRun) (clusterOf thermostatRun) (traceOf thermostatRun)).
  - vm_compute. reflexivity.
  - reflexivity.
  - vm_compute. reflexivity.
Defined.

(** C7 on the cluster of the end-to-end scenario. *)
Lemma reconcile_twice_is_idempotent_witness :
  ti_Status (object (passOf secondRun)) = ti_Status (object (passOf firstRun))
  ∧ returned (passOf secondRun) = returned (passOf firstRun)
  ∧ accumulated (passOf secondRun) = accumulated (passOf firstRun)
  ∧ length (bindingsOf "ktwin" (clusterOf secondRun))
    = length (bindingsOf "ktwin" (clusterOf firstRun))
  ∧ clusterOf secondRun = clusterOf firstRun.
Proof.
  apply (@reconcile_twice_is_idempotent sampleTwinService sampleTwinEvent sampleEventStore
           ("ktwin", "temperature-sensor") fullCluster
           (passOf firstRun) (clusterOf firstRun) (traceOf firstRun)
           (passOf secondRun) (clusterOf secondRun) (traceOf secondRun)).
  - exact sample_generators_read_declaration.
  - vm_compute. reflexivity.
  - vm_compute. reflexivity.
Defined.

(** C9 on the cluster that refuses every update. *)
Lemma failed_status_update_returns_nil_witness :
  ((CallUpdateTwinInterface thermostatRunning, Replied (Some (Other "conflict")))
     ∈ traceOf conflictInterfaceRun
   ∧ returned (passOf conflictInterfaceRun) = None)
  ∧ ((CallUpdateTwinInstance sensor1Running, Replied (Some (Other "conflict")))
       ∈ traceOf conflictInstanceRun
     ∧ returned (passOf conflictInstanceRun) = None).
Proof.
  assert ((CallUpdateTwinInterface thermostatRunning, Replied (Some (Other "conflict")))
            ∈ traceOf conflictInterfaceRun) as HI
    by (vm_compute; repeat constructor).
  assert ((CallUpdateTwinInstance sensor1Running, Replied (Some (Other "conflict")))
            ∈ traceOf conflictInstanceRun) as HN
    by (vm_compute; repeat constructor).
  destruct (@failed_status_update_returns_nil Cluster clusterClient
              sampleTwinService sampleTwinEvent sampleEventStore
              ("ktwin", "thermostat") conflictCluster
              (passOf conflictInterfaceRun) (snd conflictInterfaceRun)
              ("ktwin", "sensor-1") conflictCluster
              (passOf conflictInstanceRun) (snd conflictInstanceRun))
    as [HrI HrN].
  - vm_compute. reflexivity.
  - vm_compute. reflexivity.
  - split; (split; [assumption|]).
    + exact (HrI _ _ HI).
    + exact (HrN _ _ HN).
Defined.

(** C10 on [thermostat], labelled [team], and on [sensor1], labelled [room],
    an instance of [temperature-sensor]. *)
Lemma identity_label_replaces_labels_witness :
  (thermostatRunning = object (passOf thermostatPass)
   ∧ Labels (ti_meta thermostatRunning) = {[ "ktwin/twin-interface" := "thermostat" ]})
  ∧ (sensor1Running = object (passOf sensor1Pass)
     ∧ Labels (tn_meta sensor1Running) = {[ "ktwin/twin-interface" := "sensor-1" ]}
     ∧ Labels (tn_meta sensor1Running) !! "ktwin/twin-interface"
       ≠ Some "temperature-sensor").
Proof.
  destruct (@identity_label_replaces_labels Cluster clusterClient
              sampleTwinService sampleTwinEvent sampleEventStore
              thermostat twinCluster (passOf thermostatPass) (snd thermostatPass)
              sensor1 temperatureSensor twinCluster (passOf sensor1Pass) (snd sensor1Pass))
    as [HI HN].
  - vm_compute. reflexivity.
  - vm_compute. reflexivity.
  - split.
    + apply (HI thermostatRunning (Replied None)). vm_compute. repeat constructor.
    + destruct (HN sensor1Running (Replied None)) as (Hobj & Hlabels & Hparent).
      { vm_compute. repeat constructor. }
      split; [exact Hobj|]. split; [exact Hlabels|].
      apply Hparent. vm_compute. discriminate.
Defined.

(** * The further properties on the clusters of the scenarios *)

Lemma sample_instance_generator_reads_declaration :
  readInstanceDeclarationOnly sampleTwinEvent.
Proof. intros n m Hname Hns _. simpl. by rewrite Hname, Hns. Qed.

(** On the cluster that refuses every create, the one dispatch binding of
    [sensor1] is asked for and its refusal is the error list. *)
Lemma instance_pass_attempts_every_binding_witness :
  List.map fst (List.filter isCreate (traceOf refusedSensor1Pass))
  = List.map (CallCreate RabbitBinding) (@GetMQQTDispatcherBindings sampleTwinEvent sensor1)
  ∧ accumulated (passOf refusedSensor1Pass)
    = List.filter kept (List.map replyErr (List.filter isCreate (traceOf refusedSensor1Pass))).
Proof.
  apply (@instance_pass_attempts_every_binding Cluster clusterClient sampleTwinEvent
           sensor1 temperatureSensor refusedTwinCluster
           (passOf refusedSensor1Pass) (clusterOf refusedSensor1Pass)
           (traceOf refusedSensor1Pass)).
  vm_compute. reflexivity.
Defined.

(** The pass over [sensor1] on the cluster of the twins leaves [Running]. *)
Lemma instance_running_iff_creates_benign_witness :
  (tn_Status (object (passOf sensor1Pass)) = TwinInstancePhaseRunning
   ↔ ∀ b e, (CallCreate RabbitBinding b, Replied e) ∈ traceOf sensor1Pass →
            e = None ∨ e = Some AlreadyExists)
  ∧ (tn_Status (object (passOf sensor1Pass)) = TwinInstancePhaseRunning →
       returned (passOf sensor1Pass) = None
       ∧ ∃ e, last (traceOf sensor1Pass)
              = Some (CallUpdateTwinInstance (object (passOf sensor1Pass)), Replied e))
  ∧ (tn_Status (object (passOf sensor1Pass)) ≠ TwinInstancePhaseRunning →
       tn_Status (object (passOf sensor1Pass)) = TwinInstancePhaseFailed
       ∧ returned (passOf sensor1Pass) ≠ None
       ∧ List.filter isUpdate (traceOf sensor1Pass) = []
       ∧ Labels (tn_meta (object (passOf sensor1Pass))) = Labels (tn_meta sensor1)).
Proof.
  apply (@instance_running_iff_creates_benign Cluster clusterClient sampleTwinEvent
           sensor1 temperatureSensor twinCluster
           (passOf sensor1Pass) (clusterOf sensor1Pass) (traceOf sensor1Pass)).
  vm_compute. reflexivity.
Defined.

(** The pass that stops for want of an event-store queue, and the pass over
    [sensor1] that is refused, issue no update and leave the labels. *)
Lemma pass_changes_status_and_labels_only_witness :
  Labels (ti_meta (object (passOf noEventStoreQueuePass))) = Labels (ti_meta temperatureSensor)
  ∧ Labels (tn_meta (object (passOf refusedSensor1Pass))) = Labels (tn_meta sensor1).
Proof.
  pose proof (@pass_changes_status_and_labels_only Cluster clusterClient
                sampleTwinService sampleTwinEvent sampleEventStore
                temperatureSensor noEventStoreQueueCluster
                sensor1 temperatureSensor refusedTwinCluster) as Hpass.
  cbv zeta in Hpass. destruct Hpass as [[_ HI] (_ & _ & _ & HN)].
  split; [apply HI | apply HN]; vm_compute; reflexivity.
Defined.

(** [temperature-sensor] declares a compute service. *)
Lemma interface_opening_calls_always_made_witness :
  ∃ rest,
    List.map fst (traceOf bareSensorPass)
    = [ CallCreate KnativeService (@GetService sampleTwinService temperatureSensor);
        CallCreate KnativeTrigger (@GetTwinInterfaceTrigger sampleTwinEvent temperatureSensor);
        CallGet KnativeTrigger ("ktwin", "temperature-sensor");
        CallList RabbitQueue "ktwin" eventStoreSelector ]
      ++ rest.
Proof.
  apply (@interface_opening_calls_always_made Cluster clusterClient
           sampleTwinService sampleTwinEvent sampleEventStore
           temperatureSensor "container" bareCluster).
  reflexivity.
Defined.


(** The [List] of exchanges fails on a cluster that holds everything else. *)
Lemma failed_lookup_returns_error_witness :
  returned (passOf exchangeDownRun) ≠ None
  ∧ last (accumulated (passOf exchangeDownRun)) = Some (Some unavailable)
  ∧ List.filter isUpdate (traceOf exchangeDownRun) = [].
Proof.
  apply (@failed_lookup_returns_error Cluster exchangeDownClient
           sampleTwinService sampleTwinEvent sampleEventStore
           ("ktwin", "temperature-sensor") fullCluster
           (passOf exchangeDownRun) (clusterOf exchangeDownRun) (traceOf exchangeDownRun)
           RabbitExchange "ktwin" brokerSelector unavailable).
  - vm_compute. reflexivity.
  - vm_compute. repeat constructor.
Defined.

(** The refusal of the compute service, and the parent of [orphan] that is
    not found, are the errors returned. *)
Lemma returned_error_was_answered_witness :
  (∃ ev, ev ∈ traceOf refusedRun ∧ replyErr ev = Some (Other "refused"))
  ∧ (∃ ev, ev ∈ traceOf orphanRun ∧ replyErr ev = Some NotFound).
Proof.
  pose proof (@returned_error_was_answered Cluster clusterClient
                sampleTwinService sampleTwinEvent sampleEventStore
                ("ktwin", "temperature-sensor") refusingCluster
                ("ktwin", "orphan") twinCluster) as Hrun.
  cbv zeta in Hrun. destruct Hrun as [HI HN].
  split; [apply HI | apply HN]; vm_compute; reflexivity.
Defined.

(** Neither an interface nor an instance named [absent] is in the cluster. *)
Lemma primary_fetch_failure_witness :
  missingInterfaceRun
  = (mkPass None zeroTwinInterface [],
     (twinCluster, [(CallGetTwinInterface ("ktwin", "absent"), Replied (Some NotFound))]))
  ∧ missingInstanceRun
    = (mkPass None zeroTwinInstance [],
       (twinCluster, [(CallGetTwinInstance ("ktwin", "absent"), Replied (Some NotFound))])).
Proof.
  apply (@primary_fetch_failure Cluster clusterClient
           sampleTwinService sampleTwinEvent sampleEventStore
           ("ktwin", "absent") twinCluster NotFound twinCluster
           ("ktwin", "absent") twinCluster NotFound twinCluster).
  - vm_compute. reflexivity.
  - vm_compute. reflexivity.
Defined.

(** The first run on the full cluster. *)
Lemma reconcile_leaves_the_rest_of_the_cluster_witness :
  (∃ rest, objects (clusterOf firstRun) = objects fullCluster ++ rest
           ∧ Forall creatableKind rest)
  ∧ twinInstances (clusterOf firstRun) = twinInstances fullCluster
  ∧ (∀ key, key ≠ ("ktwin", "temperature-sensor") →
       fst (clusterGetTwinInterface key (clusterOf firstRun))
       = fst (clusterGetTwinInterface key fullCluster))
  ∧ (∀ ns sel,
       fst (clusterList RabbitQueue ns sel (clusterOf firstRun))
       = fst (clusterList RabbitQueue ns sel fullCluster)
       ∧ fst (clusterList RabbitExchange ns sel (clusterOf firstRun))
         = fst (clusterList RabbitExchange ns sel fullCluster))
  ∧ (∀ k key o, fst (clusterGet k key fullCluster) = inl o →
                fst (clusterGet k key (clusterOf firstRun)) = inl o).
Proof.
  apply (@reconcile_leaves_the_rest_of_the_cluster
           sampleTwinService sampleTwinEvent sampleEventStore
           ("ktwin", "temperature-sensor") fullCluster
           (passOf firstRun) (clusterOf firstRun) (traceOf firstRun)).
  vm_compute. reflexivity.
Defined.

(** The update of [thermostat] answers nil on the cluster of the twins. *)
Lemma successful_update_is_persisted_witness :
  clusterGetTwinInterface ("ktwin", "thermostat") (clusterOf thermostatRun)
  = (inl (object (passOf thermostatRun)), clusterOf thermostatRun)
  ∧ thermostatRunning = object (passOf thermostatRun)
  ∧ ti_Status (object (passOf thermostatRun)) = TwinInterfacePhaseRunning
  ∧ Labels (ti_meta (object (passOf thermostatRun))) !! "ktwin/twin-interface"
    = Some "thermostat".
Proof.
  apply (@successful_update_is_persisted
           sampleTwinService sampleTwinEvent sampleEventStore
           ("ktwin", "thermostat") twinCluster
           (passOf thermostatRun) (clusterOf thermostatRun) (traceOf thermostatRun)
           thermostatRunning).
  - vm_compute. reflexivity.
  - vm_compute. repeat constructor.
Defined.


(** [sensor1] on the cluster of the twins, which refuses nothing. *)
Lemma instance_converges_on_cluster_witness :
  returned (passOf sensor1Run) = None
  ∧ accumulated (passOf sensor1Run) = []
  ∧ fst (clusterGetTwinInstance ("ktwin", "sensor-1") (clusterOf sensor1Run))
    = inl (object (passOf sensor1Run))
  ∧ tn_Status (object (passOf sensor1Run)) = TwinInstancePhaseRunning
  ∧ Labels (tn_meta (object (passOf sensor1Run))) = {[ "ktwin/twin-interface" := "sensor-1" ]}
  ∧ ∀ b, b ∈ @GetMQQTDispatcherBindings sampleTwinEvent sensor1 →
         present RabbitBinding b (clusterOf sensor1Run).
Proof.
  apply (@instance_converges_on_cluster sampleTwinEvent
           ("ktwin", "sensor-1") twinCluster sensor1 temperatureSensor
           (passOf sensor1Run) (clusterOf sensor1Run) (traceOf sensor1Run)).
  - vm_compute. reflexivity.
  - vm_compute. reflexivity.
  - intros b _. reflexivity.
  - reflexivity.
  - vm_compute. reflexivity.
Defined.

(** [sensor1] reconciled twice on the cluster of the twins. *)
Lemma instance_reconcile_twice_is_idempotent_witness :
  passOf sensor1SecondRun = passOf sensor1Run
  ∧ clusterOf sensor1SecondRun = clusterOf sensor1Run.
Proof.
  apply (@instance_reconcile_twice_is_idempotent sampleTwinEvent
           ("ktwin", "sensor-1") twinCluster
           (passOf sensor1Run) (clusterOf sensor1Run) (traceOf sensor1Run)
           (passOf sensor1SecondRun) (clusterOf sensor1SecondRun)
           (traceOf sensor1SecondRun)).
  - exact sample_instance_generator_reads_declaration.
  - vm_compute. reflexivity.
  - vm_compute. reflexivity.
Defined.
